(** * AGL Unreal SDK: wire codec, service clients and client facade

    A shallow embedding of the plugin under [sdk/unreal/Source/AGL]:
    - [AGLTypes.h]: the enumerations and the request / response structs;
    - [AGLEmotionService.cpp], [AGLDialogueService.cpp],
      [AGLMemoryService.cpp]: enum tables, JSON encoders and decoders, the
      HTTP completion handlers;
    - [AGLClient.cpp]: the facade;
    and of the capture actor of the vision plugin,
    [sdk/vision/plugins/unreal/AGLVisionCapture.cpp].

    The plugin is written against Unreal Engine ([FString], [TMap],
    [FJsonObject], [FJsonSerializer], the HTTP module), whose sources are not
    part of the repository.  What the engine decides is gathered in the
    class [Host]: the theorems hold for every host, and [TestHost], which
    compares and converts as the engine does, runs the model on concrete
    inputs.  The text a service sends is what the engine's JSON writer
    makes of an object; the writer is an argument of the encoders, and
    the statements about payloads hold for every writer.

    Logging ([UE_LOG]) has no influence on any value and is left out. *)

From Stdlib Require Import String Ascii List ZArith Bool Lia.
From Stdlib Require Import DecimalString DecimalZ DecimalPos Floats Uint63.
Import ListNotations.
Open Scope string_scope.
Set Warnings "-register-all,-inexact-float".

(* ================================================================== *)
(** ** Engine strings *)

(** [ESearchCase]: how two [FString]s are compared. *)
Inductive ESearchCase : Type := CaseSensitive | IgnoreCase.

(** ASCII case folding, letter by letter. *)
Definition ToLower (c : ascii) : ascii :=
  let n := nat_of_ascii c in
  if (65 <=? n)%nat && (n <=? 90)%nat then ascii_of_nat (n + 32) else c.

Fixpoint FString_ToLower (s : string) : string :=
  match s with
  | EmptyString => EmptyString
  | String c r => String (ToLower c) (FString_ToLower r)
  end.

(** [FString::Equals(Other, SearchCase)]. *)
Definition FString_Equals (a b : string) (SearchCase : ESearchCase) : bool :=
  match SearchCase with
  | CaseSensitive => String.eqb a b
  | IgnoreCase => String.eqb (FString_ToLower a) (FString_ToLower b)
  end.

(** [FString::IsEmpty]. *)
Definition IsEmpty (s : string) : bool :=
  match s with
  | EmptyString => true
  | String _ _ => false
  end.

(** [FString::FromInt]: the decimal rendering of an [int32]. *)
Definition FString_FromInt (n : Z) : string :=
  NilZero.string_of_int (Z.to_int n).

(** The implicit [int32] to [double] conversion at [SetNumberField]; it is
    exact on the whole [int32] range. *)
Definition double_of_int32 (z : Z) : float :=
  if (z <? 0)%Z
  then PrimFloat.opp (PrimFloat.of_uint63 (Uint63.of_Z (- z)))
  else PrimFloat.of_uint63 (Uint63.of_Z z).

(* ================================================================== *)
(** ** JSON documents

    [FJsonValue] with its six kinds ([EJson]).  An [FJsonObject] is its
    [Values] map; like every [TMap] it is kept here as the list of its
    pairs in insertion order. *)

Inductive FJsonValue : Type :=
| JNull
| JString (Value : string)
| JNumber (Value : float)
| JBoolean (Value : bool)
| JArray (Value : list FJsonValue)
| JObject (Values : list (string * FJsonValue)).

Definition TMap (V : Type) : Type := list (string * V).

Definition FJsonObject : Type := TMap FJsonValue.

(* ================================================================== *)
(** ** Enumerations ([AGLTypes.h])

    Each [enum class] is an inductive type [t] in a module of its name,
    with [all] its enumerators in declaration order.  The enumerations
    are stored as [uint8]; [of_uint8] reads a byte as an enumerator and
    answers [None] on a byte that is none of them, the case the
    [default:] branch of an encoder is written for. *)

Module EAGLEmotionType.
Inductive t : Type :=
| Happy | Excited | Amazed | Proud | Satisfied | Cheerful | Grateful
| Sad | Disappointed | Frustrated | Angry | Worried | Tired | Neutral.
Definition all : list t :=
  [Happy; Excited; Amazed; Proud; Satisfied; Cheerful; Grateful; Sad;
   Disappointed; Frustrated; Angry; Worried; Tired; Neutral].
Definition of_uint8 (b : Z) : option t :=
  if (b <? 0)%Z then None else nth_error all (Z.to_nat b).
End EAGLEmotionType.

Module EAGLEventType.
Inductive t : Type :=
| Victory | Defeat | Kill | Death | Achievement | LevelUp | Loot
| SessionStart | SessionEnd.
Definition all : list t :=
  [Victory; Defeat; Kill; Death; Achievement; LevelUp; Loot; SessionStart;
   SessionEnd].
Definition of_uint8 (b : Z) : option t :=
  if (b <? 0)%Z then None else nth_error all (Z.to_nat b).
End EAGLEventType.

Module EAGLPersona.
Inductive t : Type := Cheerful | Cool | Cute.
Definition all : list t := [Cheerful; Cool; Cute].
Definition of_uint8 (b : Z) : option t :=
  if (b <? 0)%Z then None else nth_error all (Z.to_nat b).
End EAGLPersona.

Module EAGLMemoryType.
Inductive t : Type :=
| Achievement | Milestone | FirstTime | Dramatic | Conversation | Event
| Observation.
Definition all : list t :=
  [Achievement; Milestone; FirstTime; Dramatic; Conversation; Event;
   Observation].
Definition of_uint8 (b : Z) : option t :=
  if (b <? 0)%Z then None else nth_error all (Z.to_nat b).
End EAGLMemoryType.

(* ================================================================== *)
(** ** The host

    What the plugin takes from the engine and the platform. *)

Class Host : Type := {
  (** the comparison mode of [FString::operator==], which is also the key
      comparison of every [TMap<FString, _>] *)
  SearchCase : ESearchCase;
  (** [FJsonValue::TryGetString] on a number or a boolean *)
  TryGetString_scalar : FJsonValue -> option string;
  (** [FJsonValue::TryGetBool] on a string or a number *)
  TryGetBool_scalar : FJsonValue -> option bool;
  (** [FJsonValue::TryGetNumber], the [float] and the [int32] overloads *)
  TryGetNumber_float : FJsonValue -> option float;
  TryGetNumber_int32 : FJsonValue -> option Z;
  (** [FJsonSerializer::Deserialize(Reader, JsonObject)] on a reader over
      the given text: the returned flag and the object pointer it leaves *)
  FJsonSerializer_Deserialize : string -> bool * option FJsonObject;
  (** what an enum member without initializer holds in a
      default-constructed struct (taken among the enumerators) *)
  Indeterminate_EmotionType : EAGLEmotionType.t;
  Indeterminate_EventType : EAGLEventType.t;
  Indeterminate_Persona : EAGLPersona.t;
  Indeterminate_MemoryType : EAGLMemoryType.t
}.

(* ================================================================== *)
(** ** Requests and responses ([AGLTypes.h])

    Each struct is a record in a module of its name; [Default] is its
    default-constructed value. *)

Module FAGLConfig.
Record t : Type := {
  ApiKey : string;
  ApiBaseUrl : string;
  EmotionServiceUrl : string;
  DialogueServiceUrl : string;
  MemoryServiceUrl : string;
  Timeout : float
}.
Definition Default : t :=
  {| ApiKey := "";
     ApiBaseUrl := "http://localhost:3000";
     EmotionServiceUrl := "http://localhost:8000";
     DialogueServiceUrl := "http://localhost:8001";
     MemoryServiceUrl := "http://localhost:3002";
     Timeout := 30%float |}.
End FAGLConfig.

Module FAGLEmotionRequest.
Record t : Type := {
  EventType : EAGLEventType.t;
  Data : TMap string;
  Context : TMap string;
  bForceML : bool
}.
Definition Default {host : Host} : t :=
  {| EventType := Indeterminate_EventType;
     Data := [];
     Context := [];
     bForceML := false |}.
(** Assignments to one member. *)
Definition set_EventType (v : EAGLEventType.t) (r : t) : t :=
  {| EventType := v; Data := Data r; Context := Context r;
     bForceML := bForceML r |}.
Definition set_Data (v : TMap string) (r : t) : t :=
  {| EventType := EventType r; Data := v; Context := Context r;
     bForceML := bForceML r |}.
End FAGLEmotionRequest.

Module FAGLEmotionResponse.
Record t : Type := {
  Emotion : EAGLEmotionType.t;
  Intensity : float;
  Action : string;
  Confidence : float;
  Reasoning : string;
  Method : string;
  Cost : float;
  bCacheHit : bool;
  LatencyMs : Z
}.
Definition Default {host : Host} : t :=
  {| Emotion := Indeterminate_EmotionType;
     Intensity := 0%float;
     Action := "";
     Confidence := 0%float;
     Reasoning := "";
     Method := "";
     Cost := 0%float;
     bCacheHit := false;
     LatencyMs := 0 |}.
End FAGLEmotionResponse.

Module FAGLDialogueRequest.
Record t : Type := {
  EventType : EAGLEventType.t;
  Emotion : EAGLEmotionType.t;
  Persona : EAGLPersona.t;
  PlayerId : string;
  Language : string;
  Context : TMap string;
  bForceLLM : bool
}.
Definition Default {host : Host} : t :=
  {| EventType := Indeterminate_EventType;
     Emotion := Indeterminate_EmotionType;
     Persona := Indeterminate_Persona;
     PlayerId := "";
     Language := "zh";
     Context := [];
     bForceLLM := false |}.
End FAGLDialogueRequest.

Module FAGLDialogueResponse.
Record t : Type := {
  Dialogue : string;
  Method : string;
  Cost : float;
  bUsedSpecialCase : bool;
  SpecialCaseReasons : list string;
  MemoryCount : Z;
  bCacheHit : bool;
  LatencyMs : Z
}.
Definition Default : t :=
  {| Dialogue := "";
     Method := "";
     Cost := 0%float;
     bUsedSpecialCase := false;
     SpecialCaseReasons := [];
     MemoryCount := 0;
     bCacheHit := false;
     LatencyMs := 0 |}.
End FAGLDialogueResponse.

Module FAGLCreateMemoryRequest.
Record t : Type := {
  MemoryType : EAGLMemoryType.t;   (* the member [Type] *)
  Content : string;
  Emotion : string;
  Context : TMap string;
  Importance : Z
}.
Definition Default {host : Host} : t :=
  {| MemoryType := Indeterminate_MemoryType;
     Content := "";
     Emotion := "";
     Context := [];
     Importance := 5 |}.
End FAGLCreateMemoryRequest.

Module FAGLMemory.
Record t : Type := {
  Id : string;
  PlayerId : string;
  MemoryType : EAGLMemoryType.t;   (* the member [Type] *)
  Content : string;
  Emotion : string;
  Importance : Z;
  Context : TMap string;
  CreatedAt : string
}.
Definition Default {host : Host} : t :=
  {| Id := "";
     PlayerId := "";
     MemoryType := Indeterminate_MemoryType;
     Content := "";
     Emotion := "";
     Importance := 0;
     Context := [];
     CreatedAt := "" |}.
End FAGLMemory.

Module FAGLMemorySearchResult.
Record t : Type := {
  Memory : FAGLMemory.t;
  SimilarityScore : float
}.
Definition Default {host : Host} : t :=
  {| Memory := FAGLMemory.Default;
     SimilarityScore := 0%float |}.
End FAGLMemorySearchResult.

Module FAGLSearchMemoriesRequest.
Record t : Type := {
  Query : string;
  Limit : Z
}.
Definition Default : t := {| Query := ""; Limit := 10 |}.
End FAGLSearchMemoriesRequest.

Module FAGLGetContextRequest.
Record t : Type := {
  CurrentEvent : string;
  Limit : Z
}.
Definition Default : t := {| CurrentEvent := ""; Limit := 5 |}.
End FAGLGetContextRequest.

(* ================================================================== *)
(** ** Containers, JSON objects, HTTP and delegates as the plugin uses them *)

Section Containers.
Context {host : Host}.

(** [FString::operator==]. *)
Definition FString_eq (a b : string) : bool := FString_Equals a b SearchCase.

(** [TMap::Add]: the pair of a key that is already present is replaced,
    a new pair goes to the end. *)
Fixpoint TMap_Add {V : Type} (m : TMap V) (k : string) (v : V) : TMap V :=
  match m with
  | [] => [(k, v)]
  | (k', v') :: r =>
      if FString_eq k' k then (k, v) :: r else (k', v') :: TMap_Add r k v
  end.

(** [TMap::Find]. *)
Fixpoint TMap_Find {V : Type} (m : TMap V) (k : string) : option V :=
  match m with
  | [] => None
  | (k', v') :: r => if FString_eq k' k then Some v' else TMap_Find r k
  end.

(** [TMap::Num]. *)
Definition TMap_Num {V : Type} (m : TMap V) : Z := Z.of_nat (length m).

(** [FJsonObject::SetField] and its typed variants. *)
Definition SetField (o : FJsonObject) (FieldName : string) (v : FJsonValue)
  : FJsonObject := TMap_Add o FieldName v.

Definition SetStringField (o : FJsonObject) (FieldName StringValue : string)
  : FJsonObject := SetField o FieldName (JString StringValue).

Definition SetBoolField (o : FJsonObject) (FieldName : string) (InValue : bool)
  : FJsonObject := SetField o FieldName (JBoolean InValue).

Definition SetNumberField (o : FJsonObject) (FieldName : string) (Number : float)
  : FJsonObject := SetField o FieldName (JNumber Number).

Definition SetObjectField (o : FJsonObject) (FieldName : string)
  (JsonObject : FJsonObject) : FJsonObject :=
  SetField o FieldName (JObject JsonObject).

(** [FJsonObject::TryGetField] and [HasField]. *)
Definition TryGetField (o : FJsonObject) (FieldName : string)
  : option FJsonValue := TMap_Find o FieldName.

Definition HasField (o : FJsonObject) (FieldName : string) : bool :=
  match TryGetField o FieldName with
  | Some _ => true
  | None => false
  end.

(** The accessors of [FJsonValue].  A value of the asked kind is handed
    out as it is, null, arrays and objects answer no to every scalar
    accessor, and the conversions between scalars are the host's. *)
Definition TryGetString (v : FJsonValue) : option string :=
  match v with
  | JString s => Some s
  | JNumber _ | JBoolean _ => TryGetString_scalar v
  | JNull | JArray _ | JObject _ => None
  end.

Definition TryGetBool (v : FJsonValue) : option bool :=
  match v with
  | JBoolean b => Some b
  | JString _ | JNumber _ => TryGetBool_scalar v
  | JNull | JArray _ | JObject _ => None
  end.

Definition TryGetArray (v : FJsonValue) : option (list FJsonValue) :=
  match v with
  | JArray a => Some a
  | _ => None
  end.

Definition TryGetObject (v : FJsonValue) : option FJsonObject :=
  match v with
  | JObject o => Some o
  | _ => None
  end.

(** [FJsonObject::TryGet...Field]: the field must exist and its value
    must answer the accessor. *)
Definition TryGetTypedField {A : Type} (get : FJsonValue -> option A)
  (o : FJsonObject) (FieldName : string) : option A :=
  match TryGetField o FieldName with
  | Some v => get v
  | None => None
  end.

Definition TryGetStringField := TryGetTypedField TryGetString.
Definition TryGetBoolField := TryGetTypedField TryGetBool.
Definition TryGetFloatField := TryGetTypedField TryGetNumber_float.
Definition TryGetInt32Field := TryGetTypedField TryGetNumber_int32.
Definition TryGetArrayField := TryGetTypedField TryGetArray.
Definition TryGetObjectField := TryGetTypedField TryGetObject.

(** An accessor called on a member, as in
    [TryGetStringField(TEXT("action"), Response.Action)]: the member is
    written when the accessor answers yes and keeps its value otherwise. *)
Definition OutParam {A : Type} (answer : option A) (member : A) : A :=
  match answer with
  | Some x => x
  | None => member
  end.

(** The copy loop shared by the three encoders:
    [for (Pair : Map) Object->SetStringField(Pair.Key, Pair.Value)]
    on a fresh object. *)
Definition MakeStringObject (Map : TMap string) : FJsonObject :=
  fold_left (fun o Pair => SetStringField o (fst Pair) (snd Pair)) Map [].

End Containers.

(** The HTTP module, as far as the plugin touches it. *)
Record FHttpResponse : Type := {
  GetResponseCode : Z;
  GetContentAsString : string
}.

(** [FHttpResponsePtr]: [None] is the invalid pointer. *)
Definition FHttpResponsePtr : Type := option FHttpResponse.

Record FHttpRequest : Type := {
  URL : string;
  Verb : string;
  Headers : TMap string;
  RequestTimeout : float;
  Content : string
}.

(** A two-parameter delegate [(bool bSuccess, const A& Response)].  The
    caller's handler acts on the caller's world [W]; an unbound delegate
    is [None]. *)
Definition TDelegate (W A : Type) : Type := option (bool -> A -> W -> W).

Definition ExecuteIfBound {W A : Type} (d : TDelegate W A)
  (bSuccess : bool) (Response : A) (w : W) : W :=
  match d with
  | Some handler => handler bSuccess Response w
  | None => w
  end.

(** The continuation an operation binds with
    [OnProcessRequestComplete().BindLambda]; the transport calls it with
    the response pointer and its success flag. *)
Definition FHttpRequestCompleteDelegate (W : Type) : Type :=
  FHttpResponsePtr -> bool -> W -> W.

(* ================================================================== *)
(** ** [UAGLEmotionService] ([AGLEmotionService.cpp]) *)

Module UAGLEmotionService.

Record t : Type := {
  ServiceUrl : string;
  ApiKey : string;
  Timeout : float
}.

(** [Initialize] writes all three members: the service after the call. *)
Definition Initialize (InServiceUrl InApiKey : string) (InTimeout : float) : t :=
  {| ServiceUrl := InServiceUrl; ApiKey := InApiKey; Timeout := InTimeout |}.

Definition EventTypeToString (EventType : EAGLEventType.t) : string :=
  match EventType with
  | EAGLEventType.Victory => "player.victory"
  | EAGLEventType.Defeat => "player.defeat"
  | EAGLEventType.Kill => "player.kill"
  | EAGLEventType.Death => "player.death"
  | EAGLEventType.Achievement => "player.achievement"
  | EAGLEventType.LevelUp => "player.levelup"
  | EAGLEventType.Loot => "player.loot"
  | EAGLEventType.SessionStart => "player.sessionstart"
  | EAGLEventType.SessionEnd => "player.sessionend"
  end.

(** The same switch on the stored byte, [default:] included. *)
Definition EventTypeToString_uint8 (b : Z) : string :=
  match EAGLEventType.of_uint8 b with
  | Some EventType => EventTypeToString EventType
  | None => "unknown"
  end.

Section Service.
Context {host : Host}.

Definition StringToEmotionType (EmotionString : string) : EAGLEmotionType.t :=
  if FString_eq EmotionString "happy" then EAGLEmotionType.Happy
  else if FString_eq EmotionString "excited" then EAGLEmotionType.Excited
  else if FString_eq EmotionString "amazed" then EAGLEmotionType.Amazed
  else if FString_eq EmotionString "proud" then EAGLEmotionType.Proud
  else if FString_eq EmotionString "satisfied" then EAGLEmotionType.Satisfied
  else if FString_eq EmotionString "cheerful" then EAGLEmotionType.Cheerful
  else if FString_eq EmotionString "grateful" then EAGLEmotionType.Grateful
  else if FString_eq EmotionString "sad" then EAGLEmotionType.Sad
  else if FString_eq EmotionString "disappointed" then EAGLEmotionType.Disappointed
  else if FString_eq EmotionString "frustrated" then EAGLEmotionType.Frustrated
  else if FString_eq EmotionString "angry" then EAGLEmotionType.Angry
  else if FString_eq EmotionString "worried" then EAGLEmotionType.Worried
  else if FString_eq EmotionString "tired" then EAGLEmotionType.Tired
  else EAGLEmotionType.Neutral.

(** [Request.Data.Add(Key, Value)]. *)
Definition Data_Add (Key Value : string) (Request : FAGLEmotionRequest.t)
  : FAGLEmotionRequest.t :=
  FAGLEmotionRequest.set_Data
    (TMap_Add (FAGLEmotionRequest.Data Request) Key Value) Request.

(** The helper constructors, statement by statement. *)
Definition CreateVictoryRequest (bIsMVP : bool) (WinStreak : Z)
  : FAGLEmotionRequest.t :=
  let Request := FAGLEmotionRequest.Default in
  let Request := FAGLEmotionRequest.set_EventType EAGLEventType.Victory Request in
  let Request := Data_Add "mvp" (if bIsMVP then "true" else "false") Request in
  let Request := Data_Add "winStreak" (FString_FromInt WinStreak) Request in
  Request.

Definition CreateDefeatRequest (LossStreak : Z) : FAGLEmotionRequest.t :=
  let Request := FAGLEmotionRequest.Default in
  let Request := FAGLEmotionRequest.set_EventType EAGLEventType.Defeat Request in
  let Request := Data_Add "lossStreak" (FString_FromInt LossStreak) Request in
  Request.

Definition CreateAchievementRequest (Rarity : string) : FAGLEmotionRequest.t :=
  let Request := FAGLEmotionRequest.Default in
  let Request :=
    FAGLEmotionRequest.set_EventType EAGLEventType.Achievement Request in
  let Request := Data_Add "rarity" Rarity Request in
  Request.

Definition CreateKillRequest (KillCount : Z) (bIsLegendary : bool)
  : FAGLEmotionRequest.t :=
  let Request := FAGLEmotionRequest.Default in
  let Request := FAGLEmotionRequest.set_EventType EAGLEventType.Kill Request in
  let Request := Data_Add "killCount" (FString_FromInt KillCount) Request in
  let Request :=
    Data_Add "isLegendary" (if bIsLegendary then "true" else "false") Request in
  Request.

(** [SerializeRequest] up to the writer: the [FJsonObject] it builds. *)
Definition SerializeRequest_JsonObject (Request : FAGLEmotionRequest.t)
  : FJsonObject :=
  let JsonObject : FJsonObject := [] in
  let JsonObject :=
    SetStringField JsonObject "type"
      (EventTypeToString (FAGLEmotionRequest.EventType Request)) in
  let JsonObject :=
    SetBoolField JsonObject "force_ml" (FAGLEmotionRequest.bForceML Request) in
  (* Add data object *)
  let DataObject := MakeStringObject (FAGLEmotionRequest.Data Request) in
  let JsonObject := SetObjectField JsonObject "data" DataObject in
  (* Add context object if not empty *)
  let JsonObject :=
    if (TMap_Num (FAGLEmotionRequest.Context Request) >? 0)%Z
    then SetObjectField JsonObject "context"
           (MakeStringObject (FAGLEmotionRequest.Context Request))
    else JsonObject in
  JsonObject.

(** [DeserializeResponse].  Every statement after the parse writes a
    member of its own, so the response is given member by member. *)
Definition DeserializeResponse (JsonString : string) : FAGLEmotionResponse.t :=
  let Response := FAGLEmotionResponse.Default in
  match FJsonSerializer_Deserialize JsonString with
  | (true, Some JsonObject) =>
      {| FAGLEmotionResponse.Emotion :=
           match TryGetStringField JsonObject "emotion" with
           | Some EmotionString => StringToEmotionType EmotionString
           | None => FAGLEmotionResponse.Emotion Response
           end;
         FAGLEmotionResponse.Intensity :=
           OutParam (TryGetFloatField JsonObject "intensity")
             (FAGLEmotionResponse.Intensity Response);
         FAGLEmotionResponse.Confidence :=
           OutParam (TryGetFloatField JsonObject "confidence")
             (FAGLEmotionResponse.Confidence Response);
         FAGLEmotionResponse.Cost :=
           OutParam (TryGetFloatField JsonObject "cost")
             (FAGLEmotionResponse.Cost Response);
         FAGLEmotionResponse.LatencyMs :=
           OutParam (TryGetInt32Field JsonObject "latency_ms")
             (FAGLEmotionResponse.LatencyMs Response);
         FAGLEmotionResponse.Action :=
           OutParam (TryGetStringField JsonObject "action")
             (FAGLEmotionResponse.Action Response);
         FAGLEmotionResponse.Reasoning :=
           OutParam (TryGetStringField JsonObject "reasoning")
             (FAGLEmotionResponse.Reasoning Response);
         FAGLEmotionResponse.Method :=
           OutParam (TryGetStringField JsonObject "method")
             (FAGLEmotionResponse.Method Response);
         FAGLEmotionResponse.bCacheHit :=
           OutParam (TryGetBoolField JsonObject "cache_hit")
             (FAGLEmotionResponse.bCacheHit Response) |}
  | _ => Response   (* Deserialize answered false, or left no object *)
  end.

Section Dispatch.
Variable W : Type.

Definition FOnEmotionAnalysisComplete : Type :=
  TDelegate W FAGLEmotionResponse.t.

(** The handlers never look at their request pointer; it is not kept. *)

Definition HandleEmotionResponse (Response : FHttpResponsePtr)
  (bWasSuccessful : bool) (Callback : FOnEmotionAnalysisComplete) (w : W) : W :=
  match bWasSuccessful, Response with
  | true, Some Response =>
      if negb (GetResponseCode Response =? 200)%Z
      then ExecuteIfBound Callback false FAGLEmotionResponse.Default w
      else
        let ResponseContent := GetContentAsString Response in
        let EmotionResponse := DeserializeResponse ResponseContent in
        ExecuteIfBound Callback true EmotionResponse w
  | _, _ =>    (* !bWasSuccessful || !Response.IsValid() *)
      ExecuteIfBound Callback false FAGLEmotionResponse.Default w
  end.

(** [AnalyzeEmotion]: the continuation it binds ... *)
Definition AnalyzeEmotion_OnProcessRequestComplete
  (OnComplete : FOnEmotionAnalysisComplete) : FHttpRequestCompleteDelegate W :=
  fun Response bWasSuccessful =>
    HandleEmotionResponse Response bWasSuccessful OnComplete.

(** ... and the request it hands to the transport; the text of the body
    comes out of the engine's writer. *)
Variable FJsonSerializer_Serialize : FJsonObject -> string.

Definition SerializeRequest (Request : FAGLEmotionRequest.t) : string :=
  FJsonSerializer_Serialize (SerializeRequest_JsonObject Request).

Definition AnalyzeEmotion_HttpRequest (self : t)
  (Request : FAGLEmotionRequest.t) : FHttpRequest :=
  {| URL := ServiceUrl self ++ "/analyze";
     Verb := "POST";
     Headers :=
       TMap_Add (TMap_Add [] "Content-Type" "application/json")
         "X-API-Key" (ApiKey self);
     RequestTimeout := Timeout self;
     Content := SerializeRequest Request |}.

End Dispatch.
End Service.
End UAGLEmotionService.

(* ================================================================== *)
(** ** [UAGLDialogueService] ([AGLDialogueService.cpp]) *)

Module UAGLDialogueService.

Record t : Type := {
  ServiceUrl : string;
  ApiKey : string;
  Timeout : float
}.

Definition Initialize (InServiceUrl InApiKey : string) (InTimeout : float) : t :=
  {| ServiceUrl := InServiceUrl; ApiKey := InApiKey; Timeout := InTimeout |}.

Definition EventTypeToString (EventType : EAGLEventType.t) : string :=
  match EventType with
  | EAGLEventType.Victory => "player.victory"
  | EAGLEventType.Defeat => "player.defeat"
  | EAGLEventType.Kill => "player.kill"
  | EAGLEventType.Death => "player.death"
  | EAGLEventType.Achievement => "player.achievement"
  | EAGLEventType.LevelUp => "player.levelup"
  | EAGLEventType.Loot => "player.loot"
  | EAGLEventType.SessionStart => "player.sessionstart"
  | EAGLEventType.SessionEnd => "player.sessionend"
  end.

Definition EmotionTypeToString (EmotionType : EAGLEmotionType.t) : string :=
  match EmotionType with
  | EAGLEmotionType.Happy => "happy"
  | EAGLEmotionType.Excited => "excited"
  | EAGLEmotionType.Amazed => "amazed"
  | EAGLEmotionType.Proud => "proud"
  | EAGLEmotionType.Satisfied => "satisfied"
  | EAGLEmotionType.Cheerful => "cheerful"
  | EAGLEmotionType.Grateful => "grateful"
  | EAGLEmotionType.Sad => "sad"
  | EAGLEmotionType.Disappointed => "disappointed"
  | EAGLEmotionType.Frustrated => "frustrated"
  | EAGLEmotionType.Angry => "angry"
  | EAGLEmotionType.Worried => "worried"
  | EAGLEmotionType.Tired => "tired"
  | EAGLEmotionType.Neutral => "neutral"
  end.

Definition PersonaToString (Persona : EAGLPersona.t) : string :=
  match Persona with
  | EAGLPersona.Cheerful => "cheerful"
  | EAGLPersona.Cool => "cool"
  | EAGLPersona.Cute => "cute"
  end.

(** The same switches on the stored byte, [default:] included. *)
Definition EventTypeToString_uint8 (b : Z) : string :=
  match EAGLEventType.of_uint8 b with
  | Some EventType => EventTypeToString EventType
  | None => "unknown"
  end.

Definition EmotionTypeToString_uint8 (b : Z) : string :=
  match EAGLEmotionType.of_uint8 b with
  | Some EmotionType => EmotionTypeToString EmotionType
  | None => "neutral"
  end.

Definition PersonaToString_uint8 (b : Z) : string :=
  match EAGLPersona.of_uint8 b with
  | Some Persona => PersonaToString Persona
  | None => "cheerful"
  end.

Section Service.
Context {host : Host}.

(** [SerializeRequest] up to the writer: the [FJsonObject] it builds. *)
Definition SerializeRequest_JsonObject (Request : FAGLDialogueRequest.t)
  : FJsonObject :=
  let JsonObject : FJsonObject := [] in
  let JsonObject :=
    SetStringField JsonObject "event_type"
      (EventTypeToString (FAGLDialogueRequest.EventType Request)) in
  let JsonObject :=
    SetStringField JsonObject "emotion"
      (EmotionTypeToString (FAGLDialogueRequest.Emotion Request)) in
  let JsonObject :=
    SetStringField JsonObject "persona"
      (PersonaToString (FAGLDialogueRequest.Persona Request)) in
  let JsonObject :=
    SetBoolField JsonObject "force_llm" (FAGLDialogueRequest.bForceLLM Request) in
  (* Add optional player_id *)
  let JsonObject :=
    if negb (IsEmpty (FAGLDialogueRequest.PlayerId Request))
    then SetStringField JsonObject "player_id"
           (FAGLDialogueRequest.PlayerId Request)
    else JsonObject in
  (* Add language field *)
  let JsonObject :=
    if negb (IsEmpty (FAGLDialogueRequest.Language Request))
    then SetStringField JsonObject "language"
           (FAGLDialogueRequest.Language Request)
    else JsonObject in
  (* Add context object if not empty *)
  let JsonObject :=
    if (TMap_Num (FAGLDialogueRequest.Context Request) >? 0)%Z
    then SetObjectField JsonObject "context"
           (MakeStringObject (FAGLDialogueRequest.Context Request))
    else JsonObject in
  JsonObject.

(** The loop over [special_case_reasons]: [TArray::Add] puts a reason
    behind those already there. *)
Definition ParseReasons (ReasonsArray : list FJsonValue)
  (SpecialCaseReasons : list string) : list string :=
  fold_left
    (fun Reasons ReasonValue =>
       match TryGetString ReasonValue with
       | Some Reason => (Reasons ++ [Reason])%list
       | None => Reasons
       end)
    ReasonsArray SpecialCaseReasons.

(** [DeserializeResponse].  Every statement after the parse writes a
    member of its own, so the response is given member by member. *)
Definition DeserializeResponse (JsonString : string) : FAGLDialogueResponse.t :=
  let Response := FAGLDialogueResponse.Default in
  match FJsonSerializer_Deserialize JsonString with
  | (true, Some JsonObject) =>
      {| FAGLDialogueResponse.Dialogue :=
           OutParam (TryGetStringField JsonObject "dialogue")
             (FAGLDialogueResponse.Dialogue Response);
         FAGLDialogueResponse.Method :=
           OutParam (TryGetStringField JsonObject "method")
             (FAGLDialogueResponse.Method Response);
         FAGLDialogueResponse.Cost :=
           OutParam (TryGetFloatField JsonObject "cost")
             (FAGLDialogueResponse.Cost Response);
         FAGLDialogueResponse.LatencyMs :=
           OutParam (TryGetInt32Field JsonObject "latency_ms")
             (FAGLDialogueResponse.LatencyMs Response);
         FAGLDialogueResponse.bUsedSpecialCase :=
           OutParam (TryGetBoolField JsonObject "used_special_case")
             (FAGLDialogueResponse.bUsedSpecialCase Response);
         FAGLDialogueResponse.bCacheHit :=
           OutParam (TryGetBoolField JsonObject "cache_hit")
             (FAGLDialogueResponse.bCacheHit Response);
         (* Parse memory_count *)
         FAGLDialogueResponse.MemoryCount :=
           match TryGetInt32Field JsonObject "memory_count" with
           | Some MemoryCount => MemoryCount
           | None => FAGLDialogueResponse.MemoryCount Response
           end;
         (* Parse special_case_reasons array *)
         FAGLDialogueResponse.SpecialCaseReasons :=
           match TryGetArrayField JsonObject "special_case_reasons" with
           | Some ReasonsArray =>
               ParseReasons ReasonsArray
                 (FAGLDialogueResponse.SpecialCaseReasons Response)
           | None => FAGLDialogueResponse.SpecialCaseReasons Response
           end |}
  | _ => Response   (* Deserialize answered false, or left no object *)
  end.

Section Dispatch.
Variable W : Type.

Definition FOnDialogueGenerationComplete : Type :=
  TDelegate W FAGLDialogueResponse.t.

Definition HandleDialogueResponse (Response : FHttpResponsePtr)
  (bWasSuccessful : bool) (Callback : FOnDialogueGenerationComplete) (w : W)
  : W :=
  match bWasSuccessful, Response with
  | true, Some Response =>
      if negb (GetResponseCode Response =? 200)%Z
      then ExecuteIfBound Callback false FAGLDialogueResponse.Default w
      else
        let ResponseContent := GetContentAsString Response in
        let DialogueResponse := DeserializeResponse ResponseContent in
        ExecuteIfBound Callback true DialogueResponse w
  | _, _ =>    (* !bWasSuccessful || !Response.IsValid() *)
      ExecuteIfBound Callback false FAGLDialogueResponse.Default w
  end.

Definition GenerateDialogue_OnProcessRequestComplete
  (OnComplete : FOnDialogueGenerationComplete)
  : FHttpRequestCompleteDelegate W :=
  fun Response bWasSuccessful =>
    HandleDialogueResponse Response bWasSuccessful OnComplete.

Variable FJsonSerializer_Serialize : FJsonObject -> string.

Definition SerializeRequest (Request : FAGLDialogueRequest.t) : string :=
  FJsonSerializer_Serialize (SerializeRequest_JsonObject Request).

Definition GenerateDialogue_HttpRequest (self : t)
  (Request : FAGLDialogueRequest.t) : FHttpRequest :=
  {| URL := ServiceUrl self ++ "/generate";
     Verb := "POST";
     Headers :=
       TMap_Add (TMap_Add [] "Content-Type" "application/json")
         "X-API-Key" (ApiKey self);
     RequestTimeout := Timeout self;
     Content := SerializeRequest Request |}.

End Dispatch.
End Service.
End UAGLDialogueService.

(* ================================================================== *)
(** ** [UAGLMemoryService] ([AGLMemoryService.cpp]) *)

Module UAGLMemoryService.

Record t : Type := {
  ServiceUrl : string;
  ApiKey : string;
  Timeout : float
}.

Definition Initialize (InServiceUrl InApiKey : string) (InTimeout : float) : t :=
  {| ServiceUrl := InServiceUrl; ApiKey := InApiKey; Timeout := InTimeout |}.

Definition MemoryTypeToString (MemoryType : EAGLMemoryType.t) : string :=
  match MemoryType with
  | EAGLMemoryType.Achievement => "achievement"
  | EAGLMemoryType.Milestone => "milestone"
  | EAGLMemoryType.FirstTime => "first_time"
  | EAGLMemoryType.Dramatic => "dramatic"
  | EAGLMemoryType.Conversation => "conversation"
  | EAGLMemoryType.Event => "event"
  | EAGLMemoryType.Observation => "observation"
  end.

(** The same switch on the stored byte, [default:] included. *)
Definition MemoryTypeToString_uint8 (b : Z) : string :=
  match EAGLMemoryType.of_uint8 b with
  | Some MemoryType => MemoryTypeToString MemoryType
  | None => "event"
  end.

Section Service.
Context {host : Host}.

Definition StringToMemoryType (TypeString : string) : EAGLMemoryType.t :=
  if FString_eq TypeString "achievement" then EAGLMemoryType.Achievement
  else if FString_eq TypeString "milestone" then EAGLMemoryType.Milestone
  else if FString_eq TypeString "first_time" then EAGLMemoryType.FirstTime
  else if FString_eq TypeString "dramatic" then EAGLMemoryType.Dramatic
  else if FString_eq TypeString "conversation" then EAGLMemoryType.Conversation
  else if FString_eq TypeString "event" then EAGLMemoryType.Event
  else if FString_eq TypeString "observation" then EAGLMemoryType.Observation
  else EAGLMemoryType.Event.

(** The three encoders up to the writer: the [FJsonObject] each builds. *)
Definition SerializeCreateMemoryRequest_JsonObject
  (Request : FAGLCreateMemoryRequest.t) : FJsonObject :=
  let JsonObject : FJsonObject := [] in
  let JsonObject :=
    SetStringField JsonObject "type"
      (MemoryTypeToString (FAGLCreateMemoryRequest.MemoryType Request)) in
  let JsonObject :=
    SetStringField JsonObject "content"
      (FAGLCreateMemoryRequest.Content Request) in
  let JsonObject :=
    SetNumberField JsonObject "importance"
      (double_of_int32 (FAGLCreateMemoryRequest.Importance Request)) in
  let JsonObject :=
    if negb (IsEmpty (FAGLCreateMemoryRequest.Emotion Request))
    then SetStringField JsonObject "emotion"
           (FAGLCreateMemoryRequest.Emotion Request)
    else JsonObject in
  (* Add context object if not empty *)
  let JsonObject :=
    if (TMap_Num (FAGLCreateMemoryRequest.Context Request) >? 0)%Z
    then SetObjectField JsonObject "context"
           (MakeStringObject (FAGLCreateMemoryRequest.Context Request))
    else JsonObject in
  JsonObject.

Definition SerializeSearchRequest_JsonObject
  (Request : FAGLSearchMemoriesRequest.t) : FJsonObject :=
  let JsonObject : FJsonObject := [] in
  let JsonObject :=
    SetStringField JsonObject "query" (FAGLSearchMemoriesRequest.Query Request) in
  let JsonObject :=
    SetNumberField JsonObject "limit"
      (double_of_int32 (FAGLSearchMemoriesRequest.Limit Request)) in
  JsonObject.

Definition SerializeContextRequest_JsonObject
  (Request : FAGLGetContextRequest.t) : FJsonObject :=
  let JsonObject : FJsonObject := [] in
  let JsonObject :=
    SetStringField JsonObject "currentEvent"
      (FAGLGetContextRequest.CurrentEvent Request) in
  let JsonObject :=
    SetNumberField JsonObject "limit"
      (double_of_int32 (FAGLGetContextRequest.Limit Request)) in
  JsonObject.

(** The loop over the pairs of the [context] object. *)
Definition ParseContext (Values : FJsonObject) (Context : TMap string)
  : TMap string :=
  fold_left
    (fun Context Pair =>
       match TryGetString (snd Pair) with
       | Some Value => TMap_Add Context (fst Pair) Value
       | None => Context
       end)
    Values Context.

(** [DeserializeMemory]; the argument is a shared pointer, [None] the
    invalid one. *)
Definition DeserializeMemory (JsonObject : option FJsonObject) : FAGLMemory.t :=
  let Memory := FAGLMemory.Default in
  match JsonObject with
  | None => Memory
  | Some JsonObject =>
      {| FAGLMemory.Id :=
           OutParam (TryGetStringField JsonObject "id") (FAGLMemory.Id Memory);
         FAGLMemory.PlayerId :=
           OutParam (TryGetStringField JsonObject "playerId")
             (FAGLMemory.PlayerId Memory);
         FAGLMemory.Content :=
           OutParam (TryGetStringField JsonObject "content")
             (FAGLMemory.Content Memory);
         FAGLMemory.Emotion :=
           OutParam (TryGetStringField JsonObject "emotion")
             (FAGLMemory.Emotion Memory);
         FAGLMemory.CreatedAt :=
           OutParam (TryGetStringField JsonObject "createdAt")
             (FAGLMemory.CreatedAt Memory);
         FAGLMemory.Importance :=
           match TryGetInt32Field JsonObject "importance" with
           | Some Importance => Importance
           | None => FAGLMemory.Importance Memory
           end;
         FAGLMemory.MemoryType :=
           match TryGetStringField JsonObject "type" with
           | Some TypeString => StringToMemoryType TypeString
           | None => FAGLMemory.MemoryType Memory
           end;
         (* Parse context object *)
         FAGLMemory.Context :=
           match TryGetObjectField JsonObject "context" with
           | Some ContextObject =>
               ParseContext ContextObject (FAGLMemory.Context Memory)
           | None => FAGLMemory.Context Memory
           end |}
  end.

Definition DeserializeSearchResults (JsonString : string)
  : list FAGLMemorySearchResult.t :=
  let Results : list FAGLMemorySearchResult.t := [] in
  match FJsonSerializer_Deserialize JsonString with
  | (true, Some JsonObject) =>
      match TryGetArrayField JsonObject "results" with
      | Some ResultsArray =>
          fold_left
            (fun Results ResultValue =>
               match TryGetObject ResultValue with
               | Some ResultObject =>
                   let SearchResult := FAGLMemorySearchResult.Default in
                   let SearchResult :=
                     {| (* Parse similarity score *)
                        FAGLMemorySearchResult.SimilarityScore :=
                          OutParam
                            (TryGetFloatField ResultObject "similarityScore")
                            (FAGLMemorySearchResult.SimilarityScore SearchResult);
                        (* Parse memory object *)
                        FAGLMemorySearchResult.Memory :=
                          match TryGetObjectField ResultObject "memory" with
                          | Some MemoryObject =>
                              DeserializeMemory (Some MemoryObject)
                          | None => FAGLMemorySearchResult.Memory SearchResult
                          end |} in
                   (Results ++ [SearchResult])%list
               | None => Results
               end)
            ResultsArray Results
      | None => Results
      end
  | _ => Results   (* Deserialize answered false, or left no object *)
  end.

Definition DeserializeMemories (JsonString : string) : list FAGLMemory.t :=
  let Memories : list FAGLMemory.t := [] in
  match FJsonSerializer_Deserialize JsonString with
  | (true, Some JsonObject) =>
      match TryGetArrayField JsonObject "memories" with
      | Some MemoriesArray =>
          fold_left
            (fun Memories MemoryValue =>
               match TryGetObject MemoryValue with
               | Some MemoryObject =>
                   let Memory := DeserializeMemory (Some MemoryObject) in
                   (Memories ++ [Memory])%list
               | None => Memories
               end)
            MemoriesArray Memories
      | None => Memories
      end
  | _ => Memories   (* Deserialize answered false, or left no object *)
  end.

Section Dispatch.
Variable W : Type.

Definition FOnMemoryCreated : Type := TDelegate W FAGLMemory.t.
Definition FOnMemorySearchComplete : Type :=
  TDelegate W (list FAGLMemorySearchResult.t).
Definition FOnGetMemoriesComplete : Type := TDelegate W (list FAGLMemory.t).

Definition HandleCreateMemoryResponse (Response : FHttpResponsePtr)
  (bWasSuccessful : bool) (Callback : FOnMemoryCreated) (w : W) : W :=
  match bWasSuccessful, Response with
  | true, Some Response =>
      if negb (GetResponseCode Response =? 200)%Z
         && negb (GetResponseCode Response =? 201)%Z
      then ExecuteIfBound Callback false FAGLMemory.Default w
      else
        let ResponseContent := GetContentAsString Response in
        match FJsonSerializer_Deserialize ResponseContent with
        | (true, Some JsonObject) =>
            let Memory := DeserializeMemory (Some JsonObject) in
            ExecuteIfBound Callback true Memory w
        | _ =>   (* Deserialize answered false, or left no object *)
            ExecuteIfBound Callback false FAGLMemory.Default w
        end
  | _, _ =>    (* !bWasSuccessful || !Response.IsValid() *)
      ExecuteIfBound Callback false FAGLMemory.Default w
  end.

Definition HandleSearchMemoriesResponse (Response : FHttpResponsePtr)
  (bWasSuccessful : bool) (Callback : FOnMemorySearchComplete) (w : W) : W :=
  match bWasSuccessful, Response with
  | true, Some Response =>
      if negb (GetResponseCode Response =? 200)%Z
      then ExecuteIfBound Callback false [] w
      else
        let ResponseContent := GetContentAsString Response in
        let Results := DeserializeSearchResults ResponseContent in
        ExecuteIfBound Callback true Results w
  | _, _ =>    (* !bWasSuccessful || !Response.IsValid() *)
      ExecuteIfBound Callback false [] w
  end.

Definition HandleGetMemoriesResponse (Response : FHttpResponsePtr)
  (bWasSuccessful : bool) (Callback : FOnGetMemoriesComplete) (w : W) : W :=
  match bWasSuccessful, Response with
  | true, Some Response =>
      if negb (GetResponseCode Response =? 200)%Z
      then ExecuteIfBound Callback false [] w
      else
        let ResponseContent := GetContentAsString Response in
        let Memories := DeserializeMemories ResponseContent in
        ExecuteIfBound Callback true Memories w
  | _, _ =>    (* !bWasSuccessful || !Response.IsValid() *)
      ExecuteIfBound Callback false [] w
  end.

(** The continuation each operation binds. *)
Definition CreateMemory_OnProcessRequestComplete
  (OnComplete : FOnMemoryCreated) : FHttpRequestCompleteDelegate W :=
  fun Response bWasSuccessful =>
    HandleCreateMemoryResponse Response bWasSuccessful OnComplete.

Definition SearchMemories_OnProcessRequestComplete
  (OnComplete : FOnMemorySearchComplete) : FHttpRequestCompleteDelegate W :=
  fun Response bWasSuccessful =>
    HandleSearchMemoriesResponse Response bWasSuccessful OnComplete.

Definition GetContext_OnProcessRequestComplete
  (OnComplete : FOnGetMemoriesComplete) : FHttpRequestCompleteDelegate W :=
  fun Response bWasSuccessful =>
    HandleGetMemoriesResponse Response bWasSuccessful OnComplete.

Definition GetMemories_OnProcessRequestComplete
  (OnComplete : FOnGetMemoriesComplete) : FHttpRequestCompleteDelegate W :=
  fun Response bWasSuccessful =>
    HandleGetMemoriesResponse Response bWasSuccessful OnComplete.

(** The request each operation hands to the transport. *)
Variable FJsonSerializer_Serialize : FJsonObject -> string.

Definition SerializeCreateMemoryRequest (Request : FAGLCreateMemoryRequest.t)
  : string :=
  FJsonSerializer_Serialize (SerializeCreateMemoryRequest_JsonObject Request).

Definition SerializeSearchRequest (Request : FAGLSearchMemoriesRequest.t)
  : string :=
  FJsonSerializer_Serialize (SerializeSearchRequest_JsonObject Request).

Definition SerializeContextRequest (Request : FAGLGetContextRequest.t)
  : string :=
  FJsonSerializer_Serialize (SerializeContextRequest_JsonObject Request).

Definition JsonHeaders (self : t) : TMap string :=
  TMap_Add (TMap_Add [] "Content-Type" "application/json")
    "X-API-Key" (ApiKey self).

Definition CreateMemory_HttpRequest (self : t) (PlayerId : string)
  (Request : FAGLCreateMemoryRequest.t) : FHttpRequest :=
  {| URL := ServiceUrl self ++ "/players/" ++ PlayerId ++ "/memories";
     Verb := "POST";
     Headers := JsonHeaders self;
     RequestTimeout := Timeout self;
     Content := SerializeCreateMemoryRequest Request |}.

Definition SearchMemories_HttpRequest (self : t) (PlayerId : string)
  (Request : FAGLSearchMemoriesRequest.t) : FHttpRequest :=
  {| URL := ServiceUrl self ++ "/players/" ++ PlayerId ++ "/memories/search";
     Verb := "POST";
     Headers := JsonHeaders self;
     RequestTimeout := Timeout self;
     Content := SerializeSearchRequest Request |}.

Definition GetContext_HttpRequest (self : t) (PlayerId : string)
  (Request : FAGLGetContextRequest.t) : FHttpRequest :=
  {| URL := ServiceUrl self ++ "/players/" ++ PlayerId ++ "/memories/context";
     Verb := "POST";
     Headers := JsonHeaders self;
     RequestTimeout := Timeout self;
     Content := SerializeContextRequest Request |}.

(** [GetMemories] sets no content: the request goes out with the empty
    body it was created with. *)
Definition GetMemories_HttpRequest (self : t) (PlayerId : string)
  (Limit Offset : Z) : FHttpRequest :=
  {| URL := ServiceUrl self ++ "/players/" ++ PlayerId ++ "/memories?limit="
            ++ FString_FromInt Limit ++ "&offset=" ++ FString_FromInt Offset;
     Verb := "GET";
     Headers := JsonHeaders self;
     RequestTimeout := Timeout self;
     Content := "" |}.

End Dispatch.
End Service.
End UAGLMemoryService.

(* ================================================================== *)
(** ** [UAGLClient] ([AGLClient.h], [AGLClient.cpp])

    The members of the facade; a service pointer is [None] while null. *)

Module UAGLClient.

Record t : Type := {
  Config : FAGLConfig.t;
  PlayerId : string;
  GameId : string;
  EmotionService : option UAGLEmotionService.t;
  DialogueService : option UAGLDialogueService.t;
  MemoryService : option UAGLMemoryService.t;
  bInitialized : bool
}.

(** A freshly created client ([NewObject<UAGLClient>()]): members with
    an initializer hold it, strings are empty, object pointers are null. *)
Definition New : t :=
  {| Config := FAGLConfig.Default;
     PlayerId := "";
     GameId := "";
     EmotionService := None;
     DialogueService := None;
     MemoryService := None;
     bInitialized := false |}.

Definition Initialize (InConfig : FAGLConfig.t) (self : t) : t :=
  (* Config = InConfig; *)
  let self :=
    {| Config := InConfig;
       PlayerId := PlayerId self;
       GameId := GameId self;
       EmotionService := EmotionService self;
       DialogueService := DialogueService self;
       MemoryService := MemoryService self;
       bInitialized := bInitialized self |} in
  (* Validate configuration *)
  if IsEmpty (FAGLConfig.ApiKey (Config self)) then self
  else
    (* Create service instances *)
    {| Config := Config self;
       PlayerId := PlayerId self;
       GameId := GameId self;
       EmotionService :=
         Some (UAGLEmotionService.Initialize
                 (FAGLConfig.EmotionServiceUrl (Config self))
                 (FAGLConfig.ApiKey (Config self))
                 (FAGLConfig.Timeout (Config self)));
       DialogueService :=
         Some (UAGLDialogueService.Initialize
                 (FAGLConfig.DialogueServiceUrl (Config self))
                 (FAGLConfig.ApiKey (Config self))
                 (FAGLConfig.Timeout (Config self)));
       MemoryService :=
         Some (UAGLMemoryService.Initialize
                 (FAGLConfig.MemoryServiceUrl (Config self))
                 (FAGLConfig.ApiKey (Config self))
                 (FAGLConfig.Timeout (Config self)));
       bInitialized := true |}.

Definition SetPlayerId (InPlayerId : string) (self : t) : t :=
  {| Config := Config self;
     PlayerId := InPlayerId;
     GameId := GameId self;
     EmotionService := EmotionService self;
     DialogueService := DialogueService self;
     MemoryService := MemoryService self;
     bInitialized := bInitialized self |}.

Definition SetGameId (InGameId : string) (self : t) : t :=
  {| Config := Config self;
     PlayerId := PlayerId self;
     GameId := InGameId;
     EmotionService := EmotionService self;
     DialogueService := DialogueService self;
     MemoryService := MemoryService self;
     bInitialized := bInitialized self |}.

Definition GetPlayerId (self : t) : string := PlayerId self.
Definition GetGameId (self : t) : string := GameId self.
Definition GetEmotionService (self : t) := EmotionService self.
Definition GetDialogueService (self : t) := DialogueService self.
Definition GetMemoryService (self : t) := MemoryService self.
Definition GetConfig (self : t) : FAGLConfig.t := Config self.
Definition IsInitialized (self : t) : bool := bInitialized self.

End UAGLClient.

(* ================================================================== *)
(** ** [AAGLVisionCapture] ([vision/plugins/unreal/AGLVisionCapture.cpp])

    The capture actor.  Its arithmetic on [float], the Base64 encoder and
    the platform it is compiled for come from a [VisionHost]; what the
    engine and the page answer during one call is an [EngineFrame]. *)

Module AAGLVisionCapture.

(** [FColor], and a render target after [InitAutoFormat(SizeX, SizeY)]. *)
Record FColor : Type := { B : Byte.byte; G : Byte.byte; R : Byte.byte; A : Byte.byte }.

Record UTextureRenderTarget2D : Type := { SizeX : Z; SizeY : Z }.

(** [IImageWrapper]: [SetRaw(data, size, width, height, BGRA, 8)], and
    [GetCompressed(Quality)] on the raw image set before. *)
Record IImageWrapper : Type := {
  SetRaw : list FColor -> Z -> Z -> Z -> bool;
  GetCompressed : list FColor -> Z -> Z -> Z -> list Byte.byte
}.

Class VisionHost : Type := {
  (** the preprocessor symbol *)
  PLATFORM_HTML5 : bool;
  (** [FBase64::Encode] *)
  FBase64_Encode : list Byte.byte -> string;
  (** [+] and [>=] on [float] *)
  Float_add : float -> float -> float;
  Float_ge : float -> float -> bool
}.

Record EngineFrame : Type := {
  (** [GetWorld()], [World->GetGameViewport()] and
      [GameThread_GetRenderTargetResource()] are not null *)
  World : bool;
  ViewportClient : bool;
  RenderTargetResource : bool;
  (** [ReadPixels(OutBMP)]: its answer and the pixels it leaves *)
  ReadPixels : bool * list FColor;
  (** [CreateImageWrapper(EImageFormat::JPEG)], [None] when invalid *)
  ImageWrapper : option IImageWrapper;
  (** [typeof window.CaptureScreen === 'function'] *)
  window_CaptureScreen : bool
}.

Record t : Type := {
  CaptureWidth : Z;
  CaptureHeight : Z;
  JPEGQuality : Z;
  CaptureInterval : float;
  bAutoStart : bool;
  bEnableDebug : bool;
  RenderTarget : option UTextureRenderTarget2D;
  bIsCapturing : bool;
  TimeAccumulator : float
}.

(** The actor after its constructor; the render target pointer of a new
    object is null. *)
Definition New : t :=
  {| CaptureWidth := 1920;
     CaptureHeight := 1080;
     JPEGQuality := 80;
     CaptureInterval := 1%float;
     bAutoStart := true;
     bEnableDebug := false;
     RenderTarget := None;
     bIsCapturing := false;
     TimeAccumulator := 0%float |}.

(** Assignments to one member. *)
Definition set_bIsCapturing (v : bool) (self : t) : t :=
  {| CaptureWidth := CaptureWidth self;
     CaptureHeight := CaptureHeight self;
     JPEGQuality := JPEGQuality self;
     CaptureInterval := CaptureInterval self;
     bAutoStart := bAutoStart self;
     bEnableDebug := bEnableDebug self;
     RenderTarget := RenderTarget self;
     bIsCapturing := v;
     TimeAccumulator := TimeAccumulator self |}.

Definition set_TimeAccumulator (v : float) (self : t) : t :=
  {| CaptureWidth := CaptureWidth self;
     CaptureHeight := CaptureHeight self;
     JPEGQuality := JPEGQuality self;
     CaptureInterval := CaptureInterval self;
     bAutoStart := bAutoStart self;
     bEnableDebug := bEnableDebug self;
     RenderTarget := RenderTarget self;
     bIsCapturing := bIsCapturing self;
     TimeAccumulator := v |}.

Definition set_RenderTarget (v : option UTextureRenderTarget2D) (self : t) : t :=
  {| CaptureWidth := CaptureWidth self;
     CaptureHeight := CaptureHeight self;
     JPEGQuality := JPEGQuality self;
     CaptureInterval := CaptureInterval self;
     bAutoStart := bAutoStart self;
     bEnableDebug := bEnableDebug self;
     RenderTarget := v;
     bIsCapturing := bIsCapturing self;
     TimeAccumulator := TimeAccumulator self |}.

Definition IsCapturing (self : t) : bool := bIsCapturing self.

Definition StartCapture (self : t) : t :=
  if bIsCapturing self then self   (* Capture already running *)
  else
    let self := set_bIsCapturing true self in
    let self := set_TimeAccumulator 0%float self in
    self.

Definition StopCapture (self : t) : t :=
  if negb (bIsCapturing self) then self
  else set_bIsCapturing false self.

Definition InitializeRenderTarget (self : t) : t :=
  match RenderTarget self with
  | None =>
      set_RenderTarget
        (Some {| SizeX := CaptureWidth self; SizeY := CaptureHeight self |}) self
  | Some _ => self
  end.

Definition CleanupRenderTarget (self : t) : t :=
  match RenderTarget self with
  | Some _ => set_RenderTarget None self
  | None => self
  end.

Definition BeginPlay (self : t) : t :=
  let self := InitializeRenderTarget self in
  if bAutoStart self then StartCapture self else self.

Definition EndPlay (self : t) : t :=
  let self := StopCapture self in
  CleanupRenderTarget self.

Section Capture.
Context {vision : VisionHost}.

(** The [EM_JS] function [JS_CaptureScreen]: the text handed to
    [window.CaptureScreen], if the page defines it.  [TCHAR_TO_ANSI] and
    [UTF8ToString] are taken to pass a Base64 text on as it is. *)
Definition JS_CaptureScreen (frame : EngineFrame) (base64Data : string)
  : option string :=
  if window_CaptureScreen frame then Some base64Data else None.

Definition SendToJavaScript (frame : EngineFrame) (Base64Data : string)
  : option string :=
  if PLATFORM_HTML5 then JS_CaptureScreen frame Base64Data else None.

(** [PerformCapture] changes no member of the actor; its outcome is the
    text [window.CaptureScreen] received during the call, if any. *)
Definition PerformCapture (self : t) (frame : EngineFrame) : option string :=
  match RenderTarget self with
  | None => None    (* Render target not initialized *)
  | Some _ =>
      if negb (World frame) then None
      else if negb (ViewportClient frame) then None
      else if negb (RenderTargetResource frame) then None
      else
        let '(bRead, OutBMP) := ReadPixels frame in
        if negb bRead then None
        else
          match ImageWrapper frame with
          | Some Wrapper =>
              if SetRaw Wrapper OutBMP (Z.of_nat (length OutBMP) * 4)
                   (CaptureWidth self) (CaptureHeight self)
              then
                let CompressedData :=
                  GetCompressed Wrapper OutBMP (CaptureWidth self)
                    (CaptureHeight self) (JPEGQuality self) in
                if (Z.of_nat (length CompressedData) >? 0)%Z
                then
                  let Base64String := FBase64_Encode CompressedData in
                  SendToJavaScript frame Base64String
                else None    (* JPEG compression failed *)
              else None      (* Image wrapper setup failed *)
          | None => None     (* Image wrapper setup failed *)
          end
  end.

Definition CaptureNow (self : t) (frame : EngineFrame) : option string :=
  PerformCapture self frame.

Definition Tick (DeltaTime : float) (self : t) (frame : EngineFrame)
  : t * option string :=
  if bIsCapturing self then
    let self :=
      set_TimeAccumulator (Float_add (TimeAccumulator self) DeltaTime) self in
    if Float_ge (TimeAccumulator self) (CaptureInterval self) then
      let self := set_TimeAccumulator 0%float self in
      (self, PerformCapture self frame)
    else (self, None)
  else (self, None).

(** What the engine, a Blueprint or other code can do with the actor, and
    a run of such calls: the actor afterwards and the texts
    [window.CaptureScreen] received, in order. *)
Inductive Call : Type :=
| CallBeginPlay
| CallEndPlay
| CallTick (DeltaTime : float) (frame : EngineFrame)
| CallStartCapture
| CallStopCapture
| CallCaptureNow (frame : EngineFrame).

Definition Step (self : t) (c : Call) : t * option string :=
  match c with
  | CallBeginPlay => (BeginPlay self, None)
  | CallEndPlay => (EndPlay self, None)
  | CallTick DeltaTime frame => Tick DeltaTime self frame
  | CallStartCapture => (StartCapture self, None)
  | CallStopCapture => (StopCapture self, None)
  | CallCaptureNow frame => (self, CaptureNow self frame)
  end.

Fixpoint Run (self : t) (calls : list Call) : t * list string :=
  match calls with
  | [] => (self, [])
  | c :: rest =>
      let '(self, sent) := Step self c in
      let '(self, later) := Run self rest in
      (self, match sent with Some text => text :: later | None => later end)
  end.

End Capture.
End AAGLVisionCapture.

(* ================================================================== *)
(** ** The engine's conversions

    What the hosts below answer where the plugin calls into the engine.
    [FString::operator==] ignores letter case, and so does the key
    comparison of a [TMap<FString, _>].  [FJsonValue::TryGetString] gives
    the text of a number ([FString::SanitizeFloat]) and of a boolean;
    [TryGetBool] reads a number (is it not zero) and a string
    ([FString::ToBool]); [TryGetNumber] reads a boolean (1 or 0) and a
    numeric string ([FCString::Atod]); its [float] overload converts the
    [double] to [float], its [int32] overload refuses a [double] outside
    the type and rounds half away from zero.  Null, arrays and objects
    answer no to all of them. *)

Module Engine.

(** The conversion of a [double] to [float]: rounding to the nearest
    binary32 value, kept as the [double] of the same value. *)
Definition float_of_double (d : float) : float :=
  match Prim2SF d with
  | S754_finite s m e => SF2Prim (binary_round 24 128 s m e)
  | _ => d
  end.

(** The magnitude of a finite, non-zero [double] as a fraction. *)
Definition Magnitude (m : positive) (e : Z) : Z * Z :=
  if (0 <=? e)%Z then (Zpos m * 2 ^ e, 1)%Z else (Zpos m, 2 ^ (- e))%Z.

(** The integer nearest to [n / D], a tie going to the even one. *)
Definition RoundHalfEven (n D : Z) : Z :=
  let q := (n / D)%Z in
  match (2 * (n mod D) ?= D)%Z with
  | Lt => q
  | Gt => (q + 1)%Z
  | Eq => if Z.even q then q else (q + 1)%Z
  end.

(** The decimal digits of [n], padded with zeros to [width] digits. *)
Fixpoint ZeroPadded (width : nat) (n : Z) : string :=
  match width with
  | O => ""
  | S w => ZeroPadded w (n / 10) ++ FString_FromInt (n mod 10)
  end.

Fixpoint TrimTrailingZeros (digits : list ascii) : list ascii :=
  match digits with
  | [] => []
  | c :: r =>
      match TrimTrailingZeros r with
      | [] => if Ascii.eqb c "0" then [] else [c]
      | r' => c :: r'
      end
  end.

(** [FString::SanitizeFloat(Value, 0)]: the text [%f] prints, six
    fractional digits of the exactly rounded value, without its trailing
    zeros, and without the separator when no fractional digit is left.
    Negative zero is written as zero. *)
Definition SanitizeFloat (d : float) : string :=
  match Prim2SF d with
  | S754_zero _ => "0"
  | S754_infinity s => if s then "-inf" else "inf"
  | S754_nan => "nan"
  | S754_finite s m e =>
      let '(n, D) := Magnitude m e in
      let N := RoundHalfEven (n * 1000000) D in
      let Fraction :=
        string_of_list_ascii
          (TrimTrailingZeros
             (list_ascii_of_string (ZeroPadded 6 (N mod 1000000)))) in
      (if s then "-" else "") ++ FString_FromInt (N / 1000000)
      ++ (if IsEmpty Fraction then "" else "." ++ Fraction)
  end.

(** The [int32] a [double] is read as: none outside the type, else the
    nearest integer, a tie going away from zero. *)
Definition Int32_of_double (d : float) : option Z :=
  match Prim2SF d with
  | S754_zero _ => Some 0%Z
  | S754_finite s m e =>
      let '(n, D) := Magnitude m e in
      let rounded := ((2 * n + D) / (2 * D))%Z in
      if s
      then if (n <=? 2147483648 * D)%Z then Some (- rounded)%Z else None
      else if (n <=? 2147483647 * D)%Z then Some rounded else None
  | _ => None
  end.

Definition IsDigit (c : ascii) : bool :=
  let n := nat_of_ascii c in (48 <=? n)%nat && (n <=? 57)%nat.

Definition DigitValue (c : ascii) : Z := Z.of_nat (nat_of_ascii c - 48).

Definition StripSign (s : string) : bool * string :=
  match s with
  | String "-" r => (true, r)
  | String "+" r => (false, r)
  | _ => (false, s)
  end.

(** [FString::IsNumeric]: an optional sign, then digits with at most one
    separator among them; the empty string is not numeric. *)
Fixpoint OnlyDigits (s : string) (bHasDot : bool) : bool :=
  match s with
  | EmptyString => true
  | String c r =>
      if Ascii.eqb c "." then negb bHasDot && OnlyDigits r true
      else IsDigit c && OnlyDigits r bHasDot
  end.

Definition IsNumeric (s : string) : bool :=
  negb (IsEmpty s) && OnlyDigits (snd (StripSign s)) false.

(** The digits of a numeric text as one integer, and how many of them
    stand behind the separator. *)
Fixpoint ReadDigits (s : string) (bHasDot : bool) (value places : Z)
  : Z * Z :=
  match s with
  | EmptyString => (value, places)
  | String c r =>
      if Ascii.eqb c "." then ReadDigits r true value places
      else ReadDigits r bHasDot (10 * value + DigitValue c)%Z
             (if bHasDot then (places + 1)%Z else places)
  end.

(** [FCString::Atod] on a numeric text: the [double] nearest to the
    decimal number.  The quotient keeps more than 64 bits, and what the
    division leaves over decides the rounding.  A text without a digit
    reads as zero. *)
Definition Atod (s : string) : float :=
  let '(negative, digits) := StripSign s in
  let '(value, places) := ReadDigits digits false 0%Z 0%Z in
  match value with
  | Zpos _ =>
      let shift := (64 + 4 * places)%Z in
      let n := (value * 2 ^ shift)%Z in
      let D := (10 ^ places)%Z in
      let l :=
        if (n mod D =? 0)%Z then loc_Exact
        else loc_Inexact (2 * (n mod D) ?= D)%Z in
      SF2Prim (binary_round_aux 53 1024 negative (n / D) (- shift) l)
  | _ =>
      if negative && existsb IsDigit (list_ascii_of_string digits)
      then neg_zero else zero
  end.

(** [FCString::Atoi]: the integer a text starts with, after white space
    and an optional sign (taken without overflow). *)
Definition IsSpace (c : ascii) : bool :=
  let n := nat_of_ascii c in
  (n =? 32)%nat || ((9 <=? n)%nat && (n <=? 13)%nat).

Fixpoint SkipSpace (s : string) : string :=
  match s with
  | String c r => if IsSpace c then SkipSpace r else s
  | EmptyString => s
  end.

Fixpoint LeadingDigits (s : string) (value : Z) : Z :=
  match s with
  | String c r =>
      if IsDigit c then LeadingDigits r (10 * value + DigitValue c)%Z
      else value
  | EmptyString => value
  end.

Definition Atoi (s : string) : Z :=
  let '(negative, digits) := StripSign (SkipSpace s) in
  let value := LeadingDigits digits 0%Z in
  if negative then (- value)%Z else value.

(** [FString::ToBool]. *)
Definition ToBool (s : string) : bool :=
  if existsb (fun w => FString_Equals s w IgnoreCase) ["True"; "Yes"; "On"]
  then true
  else if existsb (fun w => FString_Equals s w IgnoreCase) ["False"; "No"; "Off"]
  then false
  else negb (Atoi s =? 0)%Z.

(** The accessors on the scalar kinds. *)
Definition TryGetNumber (v : FJsonValue) : option float :=
  match v with
  | JNumber d => Some d
  | JBoolean b => Some (if b then 1%float else 0%float)
  | JString s => if IsNumeric s then Some (Atod s) else None
  | JNull | JArray _ | JObject _ => None
  end.

Definition TryGetNumber_float (v : FJsonValue) : option float :=
  option_map float_of_double (TryGetNumber v).

Definition TryGetNumber_int32 (v : FJsonValue) : option Z :=
  match TryGetNumber v with
  | Some d => Int32_of_double d
  | None => None
  end.

Definition TryGetString (v : FJsonValue) : option string :=
  match v with
  | JString s => Some s
  | JNumber d => Some (SanitizeFloat d)
  | JBoolean b => Some (if b then "true" else "false")
  | JNull | JArray _ | JObject _ => None
  end.

Definition TryGetBool (v : FJsonValue) : option bool :=
  match v with
  | JBoolean b => Some b
  | JNumber d => Some (negb (PrimFloat.eqb d 0%float))
  | JString s => Some (ToBool s)
  | JNull | JArray _ | JObject _ => None
  end.

End Engine.

(* ================================================================== *)
(** ** A host to run the model on

    [TestHost] compares and converts as the engine does ([Engine]), and
    its reader knows four documents: [TestBody], the second response
    body of [FAGLDialogueResponseDeserializationTest] in
    [Tests/AGLSerializationTests.cpp]; [MixedBody], whose reasons array
    holds a number and a null between two strings; [BareBody], which has
    no reasons; [ScalarBody], whose reasons are one string and no array.
    Every other text is refused. *)

Definition DQ : string := String "034" EmptyString.

Definition Quoted (s : string) : string := DQ ++ s ++ DQ.

Definition Member (name value : string) : string := Quoted name ++ ":" ++ value.

Definition TestBody : string :=
  "{" ++ Member "dialogue" (Quoted "Amazing victory!")
  ++ "," ++ Member "method" (Quoted "llm")
  ++ "," ++ Member "cost" "0.002"
  ++ "," ++ Member "latency_ms" "450"
  ++ "," ++ Member "used_special_case" "true"
  ++ "," ++ Member "cache_hit" "false"
  ++ "," ++ Member "memory_count" "3"
  ++ "," ++ Member "special_case_reasons"
              ("[" ++ Quoted "win_streak" ++ "," ++ Quoted "legendary" ++ "]")
  ++ "}".

Definition TestDocument : FJsonObject :=
  [("dialogue", JString "Amazing victory!");
   ("method", JString "llm");
   ("cost", JNumber 0.002%float);
   ("latency_ms", JNumber 450%float);
   ("used_special_case", JBoolean true);
   ("cache_hit", JBoolean false);
   ("memory_count", JNumber 3%float);
   ("special_case_reasons", JArray [JString "win_streak"; JString "legendary"])].

Definition MixedBody : string :=
  "{" ++ Member "dialogue" (Quoted "Well played")
  ++ "," ++ Member "special_case_reasons"
              ("[" ++ Quoted "win_streak" ++ ",7,null,"
               ++ Quoted "legendary" ++ "]")
  ++ "}".

Definition MixedDocument : FJsonObject :=
  [("dialogue", JString "Well played");
   ("special_case_reasons",
    JArray [JString "win_streak"; JNumber 7%float; JNull; JString "legendary"])].

Definition BareBody : string :=
  "{" ++ Member "dialogue" (Quoted "Hello") ++ "}".

Definition BareDocument : FJsonObject := [("dialogue", JString "Hello")].

Definition ScalarBody : string :=
  "{" ++ Member "special_case_reasons" (Quoted "win_streak") ++ "}".

Definition ScalarDocument : FJsonObject :=
  [("special_case_reasons", JString "win_streak")].

Definition TestDocuments : list (string * FJsonObject) :=
  [(TestBody, TestDocument); (MixedBody, MixedDocument);
   (BareBody, BareDocument); (ScalarBody, ScalarDocument)].

Definition TestReader (JsonString : string) : bool * option FJsonObject :=
  match find (fun d => String.eqb JsonString (fst d)) TestDocuments with
  | Some d => (true, Some (snd d))
  | None => (false, None)
  end.

#[local] Instance TestHost : Host := {|
  SearchCase := IgnoreCase;
  TryGetString_scalar := Engine.TryGetString;
  TryGetBool_scalar := Engine.TryGetBool;
  TryGetNumber_float := Engine.TryGetNumber_float;
  TryGetNumber_int32 := Engine.TryGetNumber_int32;
  FJsonSerializer_Deserialize := TestReader;
  Indeterminate_EmotionType := EAGLEmotionType.Happy;
  Indeterminate_EventType := EAGLEventType.Victory;
  Indeterminate_Persona := EAGLPersona.Cheerful;
  Indeterminate_MemoryType := EAGLMemoryType.Achievement
|}.

(** A caller's world that keeps the calls its handler received, latest
    first. *)
Definition Calls (A : Type) : Type := list (bool * A).

Definition Recorder {A : Type} : TDelegate (Calls A) A :=
  Some (fun bSuccess Response calls => (bSuccess, Response) :: calls).

(** Sample inputs: two dialogue requests of the test suite, a response
    with a server error, a response whose body is no JSON, and a config
    without an API key. *)
Definition PlayerRequest (PlayerId : string) : FAGLDialogueRequest.t :=
  {| FAGLDialogueRequest.EventType := EAGLEventType.Achievement;
     FAGLDialogueRequest.Emotion := EAGLEmotionType.Proud;
     FAGLDialogueRequest.Persona := EAGLPersona.Cool;
     FAGLDialogueRequest.PlayerId := PlayerId;
     FAGLDialogueRequest.Language := "zh";
     FAGLDialogueRequest.Context := [];
     FAGLDialogueRequest.bForceLLM := false |}.

Definition ServerError : FHttpResponse :=
  {| GetResponseCode := 500; GetContentAsString := TestBody |}.

Definition GarbageBody (code : Z) : FHttpResponse :=
  {| GetResponseCode := code; GetContentAsString := "not json" |}.

Definition Created : FHttpResponse :=
  {| GetResponseCode := 201; GetContentAsString := TestBody |}.

Definition KeylessConfig : FAGLConfig.t :=
  {| FAGLConfig.ApiKey := "";
     FAGLConfig.ApiBaseUrl := "https://api.example";
     FAGLConfig.EmotionServiceUrl := "https://emotion.example";
     FAGLConfig.DialogueServiceUrl := "https://dialogue.example";
     FAGLConfig.MemoryServiceUrl := "https://memory.example";
     FAGLConfig.Timeout := 5%float |}.

(* ================================================================== *)
(** ** Notions the statements below use *)

Section Notions.
Context {host : Host}.

(** The wire strings of an enumeration, and whether a string is one of
    them as [FString::operator==] sees it. *)
Definition EmotionWireStrings : list string :=
  map UAGLDialogueService.EmotionTypeToString EAGLEmotionType.all.

Definition MemoryWireStrings : list string :=
  map UAGLMemoryService.MemoryTypeToString EAGLMemoryType.all.

Definition InWireTable (s : string) (table : list string) : bool :=
  existsb (FString_eq s) table.

(** The guard every decoder puts behind the reader:
    [!FJsonSerializer::Deserialize(Reader, JsonObject) || !JsonObject.IsValid()]. *)
Definition ParseFailed (JsonString : string) : bool :=
  match FJsonSerializer_Deserialize JsonString with
  | (true, Some _) => false
  | _ => true
  end.

End Notions.

(* ================================================================== *)
(** ** Further notions: keys of a map, the fields a decoder reads, the
    calls of the capture actor *)

Section MapNotions.
Context {host : Host}.

(** Whether a map holds a key as [TMap] compares keys, and whether no key
    of it occurs twice. *)
Definition TMap_HasKey {V : Type} (m : TMap V) (k : string) : bool :=
  existsb (fun p => FString_eq (fst p) k) m.

Fixpoint TMap_Distinct {V : Type} (m : TMap V) : bool :=
  match m with
  | [] => true
  | p :: r => negb (TMap_HasKey r (fst p)) && TMap_Distinct r
  end.

(** The elements of an array that answer [TryGetObject], in order. *)
Definition ObjectsOf (a : list FJsonValue) : list FJsonObject :=
  flat_map (fun v => match TryGetObject v with Some o => [o] | None => [] end) a.

(** What the loop of [DeserializeSearchResults] makes of one result
    object. *)
Definition SearchResultOf (ResultObject : FJsonObject)
  : FAGLMemorySearchResult.t :=
  {| FAGLMemorySearchResult.SimilarityScore :=
       OutParam (TryGetFloatField ResultObject "similarityScore") 0%float;
     FAGLMemorySearchResult.Memory :=
       match TryGetObjectField ResultObject "memory" with
       | Some MemoryObject => UAGLMemoryService.DeserializeMemory (Some MemoryObject)
       | None => FAGLMemory.Default
       end |}.

End MapNotions.

(** A field an encoder writes under a condition, and the condition
    [Map.Num() > 0]. *)
Definition OptionalField (present : bool) (Key : string) (v : FJsonValue)
  : FJsonObject := if present then [(Key, v)] else [].

Definition NonEmptyMap {V : Type} (m : TMap V) : bool :=
  match m with [] => false | _ :: _ => true end.

(** The keys [DeserializeMemory] and the two [DeserializeResponse] ask
    an object for. *)
Definition MemoryKeys : list string :=
  ["id"; "playerId"; "content"; "emotion"; "createdAt"; "importance"; "type";
   "context"].

Definition DialogueKeys : list string :=
  ["dialogue"; "method"; "cost"; "latency_ms"; "used_special_case";
   "cache_hit"; "memory_count"; "special_case_reasons"].

Definition EmotionKeys : list string :=
  ["emotion"; "intensity"; "confidence"; "cost"; "latency_ms"; "action";
   "reasoning"; "method"; "cache_hit"].

(** The transport reports success, there is a response, and its code is
    one of [codes]. *)
Definition Accepted (codes : list Z) (Response : FHttpResponsePtr)
  (bWasSuccessful : bool) : bool :=
  bWasSuccessful &&
  match Response with
  | Some r => existsb (Z.eqb (GetResponseCode r)) codes
  | None => false
  end.

(** A request with the two headers of the service, its timeout, and a URL
    under the service's. *)
Definition JsonRequest (ServiceUrl ApiKey : string) (Timeout : float)
  (req : FHttpRequest) : Prop :=
  Headers req = [("Content-Type", "application/json"); ("X-API-Key", ApiKey)] /\
  RequestTimeout req = Timeout /\
  String.prefix ServiceUrl (URL req) = true.

(** Kinds of calls of the capture actor, and the members none of its
    functions assigns. *)
Definition IsBeginPlay (c : AAGLVisionCapture.Call) : bool :=
  match c with AAGLVisionCapture.CallBeginPlay => true | _ => false end.

Definition IsEndPlay (c : AAGLVisionCapture.Call) : bool :=
  match c with AAGLVisionCapture.CallEndPlay => true | _ => false end.

Definition MayCapture (c : AAGLVisionCapture.Call) : bool :=
  match c with
  | AAGLVisionCapture.CallTick _ _ | AAGLVisionCapture.CallCaptureNow _ => true
  | _ => false
  end.

Definition Settings (self : AAGLVisionCapture.t)
  : Z * Z * Z * float * bool * bool :=
  (AAGLVisionCapture.CaptureWidth self, AAGLVisionCapture.CaptureHeight self,
   AAGLVisionCapture.JPEGQuality self, AAGLVisionCapture.CaptureInterval self,
   AAGLVisionCapture.bAutoStart self, AAGLVisionCapture.bEnableDebug self).

(* ================================================================== *)
(** ** More to run the model on

    [ReplyHost] is [TestHost] with another reader: it knows a dialogue
    reply with and without a field the plugin does not read, a list of
    memories and a list of search results that hold elements which are no
    objects, an error document, and four emotion replies. *)

Definition PlainReply : string :=
  "{" ++ Member "dialogue" (Quoted "Hello")
  ++ "," ++ Member "method" (Quoted "template") ++ "}".

Definition PlainDocument : FJsonObject :=
  [("dialogue", JString "Hello"); ("method", JString "template")].

Definition TracedReply : string :=
  "{" ++ Member "dialogue" (Quoted "Hello")
  ++ "," ++ Member "method" (Quoted "template")
  ++ "," ++ Member "request_id" (Quoted "r-1") ++ "}".

Definition TracedDocument : FJsonObject :=
  [("dialogue", JString "Hello"); ("method", JString "template");
   ("request_id", JString "r-1")].

Definition MemoriesReply : string :=
  "{" ++ Member "memories"
           ("[{" ++ Member "id" (Quoted "m1")
            ++ "," ++ Member "content" (Quoted "First win")
            ++ "," ++ Member "type" (Quoted "milestone")
            ++ "},5,{" ++ Member "id" (Quoted "m2") ++ "}]")
  ++ "}".

Definition MemoriesDocument : FJsonObject :=
  [("memories",
    JArray [JObject [("id", JString "m1"); ("content", JString "First win");
                     ("type", JString "milestone")];
            JNumber 5%float;
            JObject [("id", JString "m2")]])].

Definition ResultsReply : string :=
  "{" ++ Member "results"
           ("[{" ++ Member "similarityScore" "0.5"
            ++ "," ++ Member "memory" ("{" ++ Member "id" (Quoted "m1") ++ "}")
            ++ "},{}," ++ Quoted "x" ++ "]")
  ++ "}".

Definition ResultsDocument : FJsonObject :=
  [("results",
    JArray [JObject [("similarityScore", JNumber 0.5%float);
                     ("memory", JObject [("id", JString "m1")])];
            JObject [];
            JString "x"])].

Definition ErrorReply : string :=
  "{" ++ Member "error" (Quoted "quota exceeded") ++ "}".

Definition ErrorDocument : FJsonObject := [("error", JString "quota exceeded")].

Definition ProudReply : string := "{" ++ Member "emotion" (Quoted "proud") ++ "}".

Definition ProudDocument : FJsonObject := [("emotion", JString "proud")].

Definition ElatedReply : string := "{" ++ Member "emotion" (Quoted "elated") ++ "}".

Definition ElatedDocument : FJsonObject := [("emotion", JString "elated")].

Definition NumberedReply : string := "{" ++ Member "emotion" "7" ++ "}".

Definition NumberedDocument : FJsonObject := [("emotion", JNumber 7%float)].

Definition ShoutedReply : string := "{" ++ Member "emotion" (Quoted "HAPPY") ++ "}".

Definition ShoutedDocument : FJsonObject := [("emotion", JString "HAPPY")].

Definition ReplyDocuments : list (string * FJsonObject) :=
  [(PlainReply, PlainDocument); (TracedReply, TracedDocument);
   (MemoriesReply, MemoriesDocument); (ResultsReply, ResultsDocument);
   (ErrorReply, ErrorDocument); (ProudReply, ProudDocument);
   (ElatedReply, ElatedDocument); (NumberedReply, NumberedDocument);
   (ShoutedReply, ShoutedDocument)].

Definition ReplyReader (JsonString : string) : bool * option FJsonObject :=
  match find (fun d => String.eqb JsonString (fst d)) ReplyDocuments with
  | Some d => (true, Some (snd d))
  | None => (false, None)
  end.

Definition ReplyHost : Host := {|
  SearchCase := IgnoreCase;
  TryGetString_scalar := Engine.TryGetString;
  TryGetBool_scalar := Engine.TryGetBool;
  TryGetNumber_float := Engine.TryGetNumber_float;
  TryGetNumber_int32 := Engine.TryGetNumber_int32;
  FJsonSerializer_Deserialize := ReplyReader;
  Indeterminate_EmotionType := EAGLEmotionType.Happy;
  Indeterminate_EventType := EAGLEventType.Victory;
  Indeterminate_Persona := EAGLPersona.Cheerful;
  Indeterminate_MemoryType := EAGLMemoryType.Achievement
|}.

(** Sample inputs: the memory request of [FAGLMemorySerializationTest]
    with a second context entry, responses with the codes 200 and 201, and
    a config with a key. *)
Definition BossMemory : FAGLCreateMemoryRequest.t :=
  {| FAGLCreateMemoryRequest.MemoryType := EAGLMemoryType.Achievement;
     FAGLCreateMemoryRequest.Content := "Defeated the dragon boss";
     FAGLCreateMemoryRequest.Emotion := "proud";
     FAGLCreateMemoryRequest.Context :=
       [("boss_name", "Dragon King"); ("attempts", "5")];
     FAGLCreateMemoryRequest.Importance := 8 |}.

Definition Answered : FHttpResponse :=
  {| GetResponseCode := 200; GetContentAsString := TestBody |}.

Definition KeyedConfig : FAGLConfig.t :=
  {| FAGLConfig.ApiKey := "key-1";
     FAGLConfig.ApiBaseUrl := "https://api.example";
     FAGLConfig.EmotionServiceUrl := "https://emotion.example";
     FAGLConfig.DialogueServiceUrl := "https://dialogue.example";
     FAGLConfig.MemoryServiceUrl := "https://memory.example";
     FAGLConfig.Timeout := 5%float |}.

(** A browser build and a desktop build of the capture actor: [float]
    arithmetic (the sum of two [float]s is their [double] sum converted
    to [float]) and the standard Base64 alphabet with padding. *)
Definition Base64Alphabet : string :=
  "ABCDEFGHIJKLMNOPQRSTUVWXYZabcdefghijklmnopqrstuvwxyz0123456789+/".

Definition Base64Char (n : N) : string :=
  match String.get (N.to_nat n) Base64Alphabet with
  | Some c => String c EmptyString
  | None => EmptyString
  end.

Fixpoint Base64 (bytes : list Byte.byte) : string :=
  match bytes with
  | [] => ""
  | [a] =>
      let a := Byte.to_N a in
      Base64Char (a / 4) ++ Base64Char ((a mod 4) * 16) ++ "=="
  | [a; b] =>
      let a := Byte.to_N a in
      let b := Byte.to_N b in
      Base64Char (a / 4) ++ Base64Char ((a mod 4) * 16 + b / 16)
      ++ Base64Char ((b mod 16) * 4) ++ "="
  | a :: b :: c :: rest =>
      let a := Byte.to_N a in
      let b := Byte.to_N b in
      let c := Byte.to_N c in
      Base64Char (a / 4) ++ Base64Char ((a mod 4) * 16 + b / 16)
      ++ Base64Char ((b mod 16) * 4 + c / 64) ++ Base64Char (c mod 64)
      ++ Base64 rest
  end%N.

Definition BrowserHost : AAGLVisionCapture.VisionHost :=
  {| AAGLVisionCapture.PLATFORM_HTML5 := true;
     AAGLVisionCapture.FBase64_Encode := Base64;
     AAGLVisionCapture.Float_add :=
       fun a b => Engine.float_of_double (PrimFloat.add a b);
     AAGLVisionCapture.Float_ge := fun a b => PrimFloat.leb b a |}.

Definition DesktopHost : AAGLVisionCapture.VisionHost :=
  {| AAGLVisionCapture.PLATFORM_HTML5 := false;
     AAGLVisionCapture.FBase64_Encode := Base64;
     AAGLVisionCapture.Float_add :=
       fun a b => Engine.float_of_double (PrimFloat.add a b);
     AAGLVisionCapture.Float_ge := fun a b => PrimFloat.leb b a |}.

(** An image wrapper that takes a buffer of width x height pixels and
    compresses it to the two markers of an empty JPEG stream; an actor of
    two pixels; a frame in which every engine call succeeds. *)
Definition MarkerWrapper : AAGLVisionCapture.IImageWrapper :=
  {| AAGLVisionCapture.SetRaw := fun _ size w h => (size =? w * h * 4)%Z;
     AAGLVisionCapture.GetCompressed :=
       fun _ _ _ _ => [Byte.xff; Byte.xd8; Byte.xff; Byte.xd9] |}.

Definition SmallActor : AAGLVisionCapture.t :=
  {| AAGLVisionCapture.CaptureWidth := 2;
     AAGLVisionCapture.CaptureHeight := 1;
     AAGLVisionCapture.JPEGQuality := 80;
     AAGLVisionCapture.CaptureInterval := 1%float;
     AAGLVisionCapture.bAutoStart := true;
     AAGLVisionCapture.bEnableDebug := false;
     AAGLVisionCapture.RenderTarget := None;
     AAGLVisionCapture.bIsCapturing := false;
     AAGLVisionCapture.TimeAccumulator := 0%float |}.

Definition Black : AAGLVisionCapture.FColor :=
  {| AAGLVisionCapture.B := Byte.x00; AAGLVisionCapture.G := Byte.x00;
     AAGLVisionCapture.R := Byte.x00; AAGLVisionCapture.A := Byte.xff |}.

Definition GoodFrame : AAGLVisionCapture.EngineFrame :=
  {| AAGLVisionCapture.World := true;
     AAGLVisionCapture.ViewportClient := true;
     AAGLVisionCapture.RenderTargetResource := true;
     AAGLVisionCapture.ReadPixels := (true, [Black; Black]);
     AAGLVisionCapture.ImageWrapper := Some MarkerWrapper;
     AAGLVisionCapture.window_CaptureScreen := true |}.

(* ================================================================== *)
(** ** Properties *)

(** Both comparison modes are settled by evaluation once the strings
    compared are literals. *)
Ltac by_search_case :=
  match goal with
  | host : Host |- _ => destruct host as [[|]]
  end;
  vm_compute; reflexivity.

(** A presence statement about a literal key, in either comparison mode:
    evaluate, then read the equivalence off. *)
Ltac by_presence :=
  match goal with
  | host : Host |- _ => destruct host as [[|]]
  end;
  vm_compute; try reflexivity; intuition congruence.

Lemma FString_eq_refl {host : Host} (s : string) : FString_eq s s = true.
Proof.
  unfold FString_eq, FString_Equals.
  destruct SearchCase; apply String.eqb_refl.
Qed.

(** What [InWireTable] says in each comparison mode. *)
Lemma InWireTable_exact {host : Host} (s : string) (table : list string) :
  SearchCase = CaseSensitive ->
  (InWireTable s table = true <-> In s table).
Proof.
  intros Hmode. unfold InWireTable, FString_eq. rewrite Hmode, existsb_exists.
  cbn [FString_Equals]. split.
  - intros [w [Hin Heq]]. apply String.eqb_eq in Heq. now subst w.
  - intros Hin. exists s. split; [exact Hin | apply String.eqb_refl].
Qed.

Lemma InWireTable_ignoring_case {host : Host} (s : string) (table : list string) :
  SearchCase = IgnoreCase ->
  (InWireTable s table = true <->
   In (FString_ToLower s) (map FString_ToLower table)).
Proof.
  intros Hmode. unfold InWireTable, FString_eq. rewrite Hmode, existsb_exists.
  cbn [FString_Equals]. rewrite in_map_iff. split.
  - intros [w [Hin Heq]]. apply String.eqb_eq in Heq. exists w. now split.
  - intros [w [Heq Hin]]. exists w. split; [exact Hin|].
    rewrite Heq. apply String.eqb_refl.
Qed.

Lemma not_InWireTable_exact {host : Host} (s : string) (table : list string) :
  SearchCase = CaseSensitive -> ~ In s table -> InWireTable s table = false.
Proof.
  intros Hmode Hnotin. destruct (InWireTable s table) eqn:E; [|reflexivity].
  apply (InWireTable_exact s table Hmode) in E. contradiction.
Qed.

Lemma StringToEmotionType_miss {host : Host} (s : string) :
  InWireTable s EmotionWireStrings = false ->
  UAGLEmotionService.StringToEmotionType s = EAGLEmotionType.Neutral.
Proof.
  intros H. unfold InWireTable, EmotionWireStrings in H; simpl in H.
  unfold UAGLEmotionService.StringToEmotionType.
  repeat (apply orb_false_iff in H; destruct H as [-> H]).
  reflexivity.
Qed.

Lemma StringToMemoryType_miss {host : Host} (s : string) :
  InWireTable s MemoryWireStrings = false ->
  UAGLMemoryService.StringToMemoryType s = EAGLMemoryType.Event.
Proof.
  intros H. unfold InWireTable, MemoryWireStrings in H; simpl in H.
  unfold UAGLMemoryService.StringToMemoryType.
  repeat (apply orb_false_iff in H; destruct H as [-> H]).
  reflexivity.
Qed.

(** How the outcome depends on the engine's comparison: where
    [operator==] ignores case, a string that differs from a wire string
    in letter case only decodes to that enumerator. *)
Remark StringToEmotionType_ignoring_case {host : Host} :
  SearchCase = IgnoreCase ->
  UAGLEmotionService.StringToEmotionType "HAPPY" = EAGLEmotionType.Happy.
Proof.
  intros Hmode. unfold UAGLEmotionService.StringToEmotionType, FString_eq.
  rewrite Hmode. reflexivity.
Qed.

(** A stored byte that is no enumerator takes the [default:] branch. *)
Example EventTypeToString_default :
  UAGLDialogueService.EventTypeToString_uint8 200 = "unknown" /\
  UAGLDialogueService.EventTypeToString_uint8 0 = "player.victory" /\
  UAGLDialogueService.PersonaToString_uint8 3 = "cheerful" /\
  UAGLMemoryService.MemoryTypeToString_uint8 7 = "event".
Proof. repeat split. Qed.

(** Where [operator==] ignores case, it compares the lower-case forms. *)
Lemma FString_eq_ignoring_case {host : Host} (a b : string) :
  SearchCase = IgnoreCase ->
  FString_eq a b = String.eqb (FString_ToLower a) (FString_ToLower b).
Proof. intros Hmode. unfold FString_eq. now rewrite Hmode. Qed.

(** The wire strings are written in lower case. *)
Lemma wire_tables_lower_case :
  map FString_ToLower EmotionWireStrings = EmotionWireStrings /\
  map FString_ToLower MemoryWireStrings = MemoryWireStrings.
Proof. split; reflexivity. Qed.

Lemma StringToEmotionType_up_to_case {host : Host} (s : string)
  (e : EAGLEmotionType.t) :
  SearchCase = IgnoreCase ->
  FString_ToLower s = UAGLDialogueService.EmotionTypeToString e ->
  UAGLEmotionService.StringToEmotionType s = e.
Proof.
  intros Hmode Hs. unfold UAGLEmotionService.StringToEmotionType.
  rewrite !(FString_eq_ignoring_case _ _ Hmode), Hs.
  destruct e; reflexivity.
Qed.

Lemma StringToMemoryType_up_to_case {host : Host} (s : string)
  (m : EAGLMemoryType.t) :
  SearchCase = IgnoreCase ->
  FString_ToLower s = UAGLMemoryService.MemoryTypeToString m ->
  UAGLMemoryService.StringToMemoryType s = m.
Proof.
  intros Hmode Hs. unfold UAGLMemoryService.StringToMemoryType.
  rewrite !(FString_eq_ignoring_case _ _ Hmode), Hs.
  destruct m; reflexivity.
Qed.

Lemma not_InWireTable_ignoring_case {host : Host} (s : string)
  (table : list string) :
  SearchCase = IgnoreCase -> map FString_ToLower table = table ->
  ~ In (FString_ToLower s) table -> InWireTable s table = false.
Proof.
  intros Hmode Hlower Hnotin.
  destruct (InWireTable s table) eqn:E; [|reflexivity].
  apply (InWireTable_ignoring_case s table Hmode) in E.
  rewrite Hlower in E. contradiction.
Qed.

(** C3, as the decoders have it.  Decoding the wire string of an
    enumerator gives the enumerator back, for every [EAGLEmotionType] and
    every [EAGLMemoryType].  The decoders compare with
    [FString::operator==]: a string it finds equal to none of the wire
    strings decodes to the default, [Neutral] resp. [Event].  Where that
    comparison ignores letter case, as the engine's does, a string whose
    lower-case form is a wire string decodes to the enumerator of that
    wire string, and the strings that decode to the default are those
    whose lower-case form is not in the wire table; only where the
    comparison is exact are these the strings that are not in the wire
    table. *)
Theorem enum_wire_roundtrip {host : Host} :
  (forall e : EAGLEmotionType.t,
     UAGLEmotionService.StringToEmotionType
       (UAGLDialogueService.EmotionTypeToString e) = e) /\
  (forall m : EAGLMemoryType.t,
     UAGLMemoryService.StringToMemoryType
       (UAGLMemoryService.MemoryTypeToString m) = m) /\
  (forall s : string,
     InWireTable s EmotionWireStrings = false ->
     UAGLEmotionService.StringToEmotionType s = EAGLEmotionType.Neutral) /\
  (forall s : string,
     InWireTable s MemoryWireStrings = false ->
     UAGLMemoryService.StringToMemoryType s = EAGLMemoryType.Event) /\
  (SearchCase = IgnoreCase ->
   (forall (s : string) (e : EAGLEmotionType.t),
      FString_ToLower s = UAGLDialogueService.EmotionTypeToString e ->
      UAGLEmotionService.StringToEmotionType s = e) /\
   (forall (s : string) (m : EAGLMemoryType.t),
      FString_ToLower s = UAGLMemoryService.MemoryTypeToString m ->
      UAGLMemoryService.StringToMemoryType s = m) /\
   (forall s : string,
      ~ In (FString_ToLower s) EmotionWireStrings ->
      UAGLEmotionService.StringToEmotionType s = EAGLEmotionType.Neutral) /\
   (forall s : string,
      ~ In (FString_ToLower s) MemoryWireStrings ->
      UAGLMemoryService.StringToMemoryType s = EAGLMemoryType.Event)) /\
  (SearchCase = CaseSensitive ->
   (forall s : string,
      ~ In s EmotionWireStrings ->
      UAGLEmotionService.StringToEmotionType s = EAGLEmotionType.Neutral) /\
   (forall s : string,
      ~ In s MemoryWireStrings ->
      UAGLMemoryService.StringToMemoryType s = EAGLMemoryType.Event)).
Proof.
  repeat apply conj.
  - intros e. unfold UAGLEmotionService.StringToEmotionType, FString_eq.
    destruct SearchCase; destruct e; reflexivity.
  - intros m. unfold UAGLMemoryService.StringToMemoryType, FString_eq.
    destruct SearchCase; destruct m; reflexivity.
  - exact StringToEmotionType_miss.
  - exact StringToMemoryType_miss.
  - intros Hmode. repeat apply conj.
    + intros s e. now apply StringToEmotionType_up_to_case.
    + intros s m. now apply StringToMemoryType_up_to_case.
    + intros s Hs. apply StringToEmotionType_miss.
      now apply (not_InWireTable_ignoring_case s _ Hmode
                   (proj1 wire_tables_lower_case)).
    + intros s Hs. apply StringToMemoryType_miss.
      now apply (not_InWireTable_ignoring_case s _ Hmode
                   (proj2 wire_tables_lower_case)).
  - intros Hmode. split; intros s Hs.
    + apply StringToEmotionType_miss. now apply not_InWireTable_exact.
    + apply StringToMemoryType_miss. now apply not_InWireTable_exact.
Qed.

(** [FString_FromInt] writes the decimal numeral of its argument: read
    as a decimal numeral, the text is the argument again. *)
Lemma FString_FromInt_decimal (n : Z) :
  option_map Z.of_int (NilZero.int_of_string (FString_FromInt n)) = Some n.
Proof.
  unfold FString_FromInt.
  rewrite NilZero.isi.
  - cbn [option_map]. now rewrite DecimalZ.of_to.
  - destruct n; cbn; try discriminate.
    intros H; injection H as H. now apply Unsigned.to_uint_nonnil in H.
  - destruct n; cbn; try discriminate.
    intros H; injection H as H. now apply Unsigned.to_uint_nonnil in H.
Qed.

(** C8. [CreateVictoryRequest] returns a request of event type
    [Victory] whose data map holds exactly the two pairs "mvp" (to "true"
    or "false" after [bIsMVP]) and "winStreak" (to the decimal numeral of
    [WinStreak]); it is a function of its two arguments and touches
    nothing else.  For [(true, 3)] the data map is mvp = true,
    winStreak = 3. *)
Theorem CreateVictoryRequest_data {host : Host} :
  (forall (bIsMVP : bool) (WinStreak : Z),
     let Request := UAGLEmotionService.CreateVictoryRequest bIsMVP WinStreak in
     FAGLEmotionRequest.EventType Request = EAGLEventType.Victory /\
     FAGLEmotionRequest.Data Request =
       [("mvp", if bIsMVP then "true" else "false");
        ("winStreak", FString_FromInt WinStreak)] /\
     option_map Z.of_int (NilZero.int_of_string (FString_FromInt WinStreak)) =
       Some WinStreak) /\
  FAGLEmotionRequest.Data (UAGLEmotionService.CreateVictoryRequest true 3) =
    [("mvp", "true"); ("winStreak", "3")].
Proof.
  split; [intros bIsMVP WinStreak; repeat apply conj|].
  - reflexivity.
  - destruct bIsMVP; by_search_case.
  - apply FString_FromInt_decimal.
  - by_search_case.
Qed.

(** C6. The payload [SerializeRequest] returns for a
    [FAGLDialogueRequest] is the writer's text of a JSON object; for an
    empty [PlayerId] that object has no field "player_id", for a
    non-empty [PlayerId] it has the field "player_id", holding that
    string.  This holds whatever the engine's writer is. *)
Theorem dialogue_player_id_field {host : Host}
  (FJsonSerializer_Serialize : FJsonObject -> string)
  (Request : FAGLDialogueRequest.t) :
  let JsonObject := UAGLDialogueService.SerializeRequest_JsonObject Request in
  UAGLDialogueService.SerializeRequest FJsonSerializer_Serialize Request =
    FJsonSerializer_Serialize JsonObject /\
  (FAGLDialogueRequest.PlayerId Request = "" ->
   HasField JsonObject "player_id" = false) /\
  (FAGLDialogueRequest.PlayerId Request <> "" ->
   TryGetField JsonObject "player_id" =
     Some (JString (FAGLDialogueRequest.PlayerId Request))).
Proof.
  cbv zeta. split; [reflexivity|].
  destruct Request as [ev em pe pid lang ctx llm]; simpl.
  split; intros H.
  - subst pid. destruct lang, ctx; by_search_case.
  - destruct pid as [|c pid]; [congruence|].
    destruct lang, ctx; by_search_case.
Qed.


(** C10. The payload each [SerializeRequest] returns is the writer's
    text of a JSON object.  In the object of every [FAGLEmotionRequest]
    the event type stands under the key "type", in the object of every
    [FAGLDialogueRequest] under the key "event_type", in both as its wire
    string; neither object has the other key. *)
Theorem event_type_key_per_service {host : Host}
  (FJsonSerializer_Serialize : FJsonObject -> string) :
  (forall Request : FAGLEmotionRequest.t,
     let JsonObject := UAGLEmotionService.SerializeRequest_JsonObject Request in
     UAGLEmotionService.SerializeRequest FJsonSerializer_Serialize Request =
       FJsonSerializer_Serialize JsonObject /\
     TryGetField JsonObject "type" =
       Some (JString (UAGLEmotionService.EventTypeToString
                        (FAGLEmotionRequest.EventType Request))) /\
     HasField JsonObject "event_type" = false) /\
  (forall Request : FAGLDialogueRequest.t,
     let JsonObject := UAGLDialogueService.SerializeRequest_JsonObject Request in
     UAGLDialogueService.SerializeRequest FJsonSerializer_Serialize Request =
       FJsonSerializer_Serialize JsonObject /\
     TryGetField JsonObject "event_type" =
       Some (JString (UAGLDialogueService.EventTypeToString
                        (FAGLDialogueRequest.EventType Request))) /\
     HasField JsonObject "type" = false).
Proof.
  split.
  - intros Request. cbv zeta. split; [reflexivity|].
    destruct Request as [ev data ctx ml]; destruct ctx; split; by_search_case.
  - intros Request. cbv zeta. split; [reflexivity|].
    destruct Request as [ev em pe pid lang ctx llm].
    destruct pid, lang, ctx; split; by_search_case.
Qed.

(** C2, as the encoders have it.  The payload each of the three
    encoders returns is the writer's text of a JSON object.  In the object
    of a [FAGLEmotionRequest] the keys "type", "force_ml" and "data" are
    always there, "data" also for an empty map, and "context" is there
    exactly when the context map is not empty.  In the object of a
    [FAGLDialogueRequest] "event_type", "emotion", "persona" and
    "force_llm" are always there, and "player_id", "language" and
    "context" exactly when the member is not empty.  In the object of a
    [FAGLCreateMemoryRequest] "type", "content" and "importance" are
    always there, "content" also for an empty string, and "emotion" and
    "context" exactly when the member is not empty. *)
Theorem request_field_presence {host : Host}
  (FJsonSerializer_Serialize : FJsonObject -> string) :
  (forall Request : FAGLEmotionRequest.t,
     let JsonObject := UAGLEmotionService.SerializeRequest_JsonObject Request in
     UAGLEmotionService.SerializeRequest FJsonSerializer_Serialize Request =
       FJsonSerializer_Serialize JsonObject /\
     HasField JsonObject "type" = true /\
     HasField JsonObject "force_ml" = true /\
     HasField JsonObject "data" = true /\
     (HasField JsonObject "context" = true <->
      FAGLEmotionRequest.Context Request <> [])) /\
  (forall Request : FAGLDialogueRequest.t,
     let JsonObject := UAGLDialogueService.SerializeRequest_JsonObject Request in
     UAGLDialogueService.SerializeRequest FJsonSerializer_Serialize Request =
       FJsonSerializer_Serialize JsonObject /\
     HasField JsonObject "event_type" = true /\
     HasField JsonObject "emotion" = true /\
     HasField JsonObject "persona" = true /\
     HasField JsonObject "force_llm" = true /\
     (HasField JsonObject "player_id" = true <->
      FAGLDialogueRequest.PlayerId Request <> "") /\
     (HasField JsonObject "language" = true <->
      FAGLDialogueRequest.Language Request <> "") /\
     (HasField JsonObject "context" = true <->
      FAGLDialogueRequest.Context Request <> [])) /\
  (forall Request : FAGLCreateMemoryRequest.t,
     let JsonObject :=
       UAGLMemoryService.SerializeCreateMemoryRequest_JsonObject Request in
     UAGLMemoryService.SerializeCreateMemoryRequest FJsonSerializer_Serialize
       Request = FJsonSerializer_Serialize JsonObject /\
     HasField JsonObject "type" = true /\
     HasField JsonObject "content" = true /\
     HasField JsonObject "importance" = true /\
     (HasField JsonObject "emotion" = true <->
      FAGLCreateMemoryRequest.Emotion Request <> "") /\
     (HasField JsonObject "context" = true <->
      FAGLCreateMemoryRequest.Context Request <> [])).
Proof.
  repeat apply conj.
  - intros Request. cbv zeta. split; [reflexivity|].
    destruct Request as [ev data ctx ml].
    destruct ctx; repeat apply conj; by_presence.
  - intros Request. cbv zeta. split; [reflexivity|].
    destruct Request as [ev em pe pid lang ctx llm].
    destruct pid, lang, ctx; repeat apply conj; by_presence.
  - intros Request. cbv zeta. split; [reflexivity|].
    destruct Request as [ty content em ctx imp].
    destruct em, ctx; repeat apply conj; by_presence.
Qed.

(** *** The completion handlers *)

(** C4. When the transport reports failure, or hands over no response
    object, or the status is not 200, the handler of analyzeEmotion,
    generateDialogue, searchMemories, getContext and getMemories is called
    once with [false] and the default-constructed response, resp. the
    empty list; createMemory does the same when the transport fails, the
    response object is missing or the status is neither 200 nor 201.  The
    body is not looked at.  A 201 with a well-formed body is a success of
    createMemory. *)
Theorem failure_reports_false_and_default {host : Host} (W : Type)
  (Response : FHttpResponsePtr) (bWasSuccessful : bool) (w : W) :
  ((bWasSuccessful = false \/ Response = None \/
    exists r, Response = Some r /\ GetResponseCode r <> 200%Z) ->
   (forall OnComplete,
      UAGLEmotionService.AnalyzeEmotion_OnProcessRequestComplete W OnComplete
        Response bWasSuccessful w =
      ExecuteIfBound OnComplete false FAGLEmotionResponse.Default w) /\
   (forall OnComplete,
      UAGLDialogueService.GenerateDialogue_OnProcessRequestComplete W OnComplete
        Response bWasSuccessful w =
      ExecuteIfBound OnComplete false FAGLDialogueResponse.Default w) /\
   (forall OnComplete,
      UAGLMemoryService.SearchMemories_OnProcessRequestComplete W OnComplete
        Response bWasSuccessful w =
      ExecuteIfBound OnComplete false [] w) /\
   (forall OnComplete,
      UAGLMemoryService.GetContext_OnProcessRequestComplete W OnComplete
        Response bWasSuccessful w =
      ExecuteIfBound OnComplete false [] w) /\
   (forall OnComplete,
      UAGLMemoryService.GetMemories_OnProcessRequestComplete W OnComplete
        Response bWasSuccessful w =
      ExecuteIfBound OnComplete false [] w)) /\
  ((bWasSuccessful = false \/ Response = None \/
    exists r, Response = Some r /\
              GetResponseCode r <> 200%Z /\ GetResponseCode r <> 201%Z) ->
   forall OnComplete,
     UAGLMemoryService.CreateMemory_OnProcessRequestComplete W OnComplete
       Response bWasSuccessful w =
     ExecuteIfBound OnComplete false FAGLMemory.Default w) /\
  (forall r JsonObject OnComplete,
     GetResponseCode r = 201%Z ->
     FJsonSerializer_Deserialize (GetContentAsString r) = (true, Some JsonObject) ->
     UAGLMemoryService.CreateMemory_OnProcessRequestComplete W OnComplete
       (Some r) true w =
     ExecuteIfBound OnComplete true
       (UAGLMemoryService.DeserializeMemory (Some JsonObject)) w).
Proof.
  unfold UAGLEmotionService.AnalyzeEmotion_OnProcessRequestComplete,
    UAGLDialogueService.GenerateDialogue_OnProcessRequestComplete,
    UAGLMemoryService.SearchMemories_OnProcessRequestComplete,
    UAGLMemoryService.GetContext_OnProcessRequestComplete,
    UAGLMemoryService.GetMemories_OnProcessRequestComplete,
    UAGLMemoryService.CreateMemory_OnProcessRequestComplete,
    UAGLEmotionService.HandleEmotionResponse,
    UAGLDialogueService.HandleDialogueResponse,
    UAGLMemoryService.HandleSearchMemoriesResponse,
    UAGLMemoryService.HandleGetMemoriesResponse,
    UAGLMemoryService.HandleCreateMemoryResponse.
  split; [|split].
  - intros [-> | [-> | [r [-> Hcode]]]].
    + repeat split; reflexivity.
    + destruct bWasSuccessful; repeat split; reflexivity.
    + apply Z.eqb_neq in Hcode. rewrite Hcode.
      destruct bWasSuccessful; repeat split; reflexivity.
  - intros [-> | [-> | [r [-> [H200 H201]]]]] OnComplete.
    + reflexivity.
    + destruct bWasSuccessful; reflexivity.
    + apply Z.eqb_neq in H200, H201. rewrite H200, H201.
      destruct bWasSuccessful; reflexivity.
  - intros r JsonObject OnComplete Hcode Hparse.
    rewrite Hcode, Hparse. reflexivity.
Qed.

(** C1, as the handlers have it.  The transport succeeded, the response
    object is there and the body does not pass the reader.  With status
    200 the handler of analyzeEmotion and of generateDialogue is called
    once with [true] and the default-constructed response, and the handler
    of searchMemories, getContext and getMemories once with [true] and the
    empty list.  With status 200 or 201 the handler of createMemory is
    called once with [false] and the default-constructed memory. *)
Theorem malformed_body_outcome {host : Host} (W : Type)
  (Response : FHttpResponse) (w : W) :
  ParseFailed (GetContentAsString Response) = true ->
  (GetResponseCode Response = 200%Z ->
   (forall OnComplete,
      UAGLEmotionService.AnalyzeEmotion_OnProcessRequestComplete W OnComplete
        (Some Response) true w =
      ExecuteIfBound OnComplete true FAGLEmotionResponse.Default w) /\
   (forall OnComplete,
      UAGLDialogueService.GenerateDialogue_OnProcessRequestComplete W OnComplete
        (Some Response) true w =
      ExecuteIfBound OnComplete true FAGLDialogueResponse.Default w) /\
   (forall OnComplete,
      UAGLMemoryService.SearchMemories_OnProcessRequestComplete W OnComplete
        (Some Response) true w =
      ExecuteIfBound OnComplete true [] w) /\
   (forall OnComplete,
      UAGLMemoryService.GetContext_OnProcessRequestComplete W OnComplete
        (Some Response) true w =
      ExecuteIfBound OnComplete true [] w) /\
   (forall OnComplete,
      UAGLMemoryService.GetMemories_OnProcessRequestComplete W OnComplete
        (Some Response) true w =
      ExecuteIfBound OnComplete true [] w)) /\
  (GetResponseCode Response = 200%Z \/ GetResponseCode Response = 201%Z ->
   forall OnComplete,
     UAGLMemoryService.CreateMemory_OnProcessRequestComplete W OnComplete
       (Some Response) true w =
     ExecuteIfBound OnComplete false FAGLMemory.Default w).
Proof.
  unfold ParseFailed. intros Hparse.
  unfold UAGLEmotionService.AnalyzeEmotion_OnProcessRequestComplete,
    UAGLDialogueService.GenerateDialogue_OnProcessRequestComplete,
    UAGLMemoryService.SearchMemories_OnProcessRequestComplete,
    UAGLMemoryService.GetContext_OnProcessRequestComplete,
    UAGLMemoryService.GetMemories_OnProcessRequestComplete,
    UAGLMemoryService.CreateMemory_OnProcessRequestComplete,
    UAGLEmotionService.HandleEmotionResponse,
    UAGLDialogueService.HandleDialogueResponse,
    UAGLMemoryService.HandleSearchMemoriesResponse,
    UAGLMemoryService.HandleGetMemoriesResponse,
    UAGLMemoryService.HandleCreateMemoryResponse,
    UAGLEmotionService.DeserializeResponse,
    UAGLDialogueService.DeserializeResponse,
    UAGLMemoryService.DeserializeSearchResults,
    UAGLMemoryService.DeserializeMemories.
  split.
  - intros ->. cbn [Z.eqb Pos.eqb negb].
    destruct (FJsonSerializer_Deserialize (GetContentAsString Response))
      as [[|] [JsonObject|]]; try discriminate Hparse;
      repeat split; reflexivity.
  - intros Hcode OnComplete.
    assert (Hguard : negb (GetResponseCode Response =? 200)%Z
                     && negb (GetResponseCode Response =? 201)%Z = false)
      by (destruct Hcode as [-> | ->]; reflexivity).
    rewrite Hguard.
    destruct (FJsonSerializer_Deserialize (GetContentAsString Response))
      as [[|] [JsonObject|]]; try discriminate Hparse; reflexivity.
Qed.

(** *** The reasons list of a dialogue response *)

Lemma ParseReasons_app {host : Host} (l1 l2 : list FJsonValue)
  (acc : list string) :
  UAGLDialogueService.ParseReasons (l1 ++ l2)%list acc =
  UAGLDialogueService.ParseReasons l2 (UAGLDialogueService.ParseReasons l1 acc).
Proof.
  unfold UAGLDialogueService.ParseReasons. apply fold_left_app.
Qed.

Lemma ParseReasons_acc {host : Host} (l : list FJsonValue) :
  forall acc : list string,
    UAGLDialogueService.ParseReasons l acc =
    (acc ++ UAGLDialogueService.ParseReasons l [])%list.
Proof.
  induction l as [|v l IH]; intros acc.
  - cbn. now rewrite app_nil_r.
  - unfold UAGLDialogueService.ParseReasons in *. cbn [fold_left].
    destruct (TryGetString v) as [Reason|].
    + rewrite IH. rewrite (IH ([] ++ [Reason])%list).
      cbn [app]. now rewrite <- app_assoc.
    + apply IH.
Qed.

Lemma ParseReasons_cons {host : Host} (v : FJsonValue) (l : list FJsonValue) :
  UAGLDialogueService.ParseReasons (v :: l) [] =
  match TryGetString v with
  | Some Reason => Reason :: UAGLDialogueService.ParseReasons l []
  | None => UAGLDialogueService.ParseReasons l []
  end.
Proof.
  change (v :: l) with ([v] ++ l)%list.
  rewrite ParseReasons_app, ParseReasons_acc.
  unfold UAGLDialogueService.ParseReasons at 1. cbn [fold_left].
  destruct (TryGetString v); reflexivity.
Qed.

Lemma ParseReasons_strings {host : Host} (l : list string) :
  UAGLDialogueService.ParseReasons (map JString l) [] = l.
Proof.
  induction l as [|s l IH]; [reflexivity|].
  cbn [map]. rewrite ParseReasons_cons. cbn [TryGetString]. now rewrite IH.
Qed.

Lemma dialogue_reasons_of_object {host : Host} (JsonString : string)
  (JsonObject : FJsonObject) :
  FJsonSerializer_Deserialize JsonString = (true, Some JsonObject) ->
  FAGLDialogueResponse.SpecialCaseReasons
    (UAGLDialogueService.DeserializeResponse JsonString) =
  match TryGetField JsonObject "special_case_reasons" with
  | Some (JArray ReasonsArray) => UAGLDialogueService.ParseReasons ReasonsArray []
  | _ => []
  end.
Proof.
  intros Hparse. unfold UAGLDialogueService.DeserializeResponse.
  rewrite Hparse. cbn [FAGLDialogueResponse.SpecialCaseReasons].
  unfold TryGetArrayField, TryGetTypedField.
  destruct (TryGetField JsonObject "special_case_reasons") as [[]|]; reflexivity.
Qed.

(** How the outcome depends on the engine's conversions: a host whose
    [TryGetString] turns the boolean true into text keeps that element. *)
Remark converted_scalar_is_kept {host : Host} (text : string) :
  TryGetString_scalar (JBoolean true) = Some text ->
  UAGLDialogueService.ParseReasons [JBoolean true; JString "legendary"] [] =
  [text; "legendary"].
Proof.
  intros H. unfold UAGLDialogueService.ParseReasons. cbn. now rewrite H.
Qed.

Lemma ParseReasons_flat_map {host : Host} (a : list FJsonValue) :
  UAGLDialogueService.ParseReasons a [] =
  flat_map (fun v => match TryGetString v with
                     | Some Reason => [Reason]
                     | None => []
                     end) a.
Proof.
  induction a as [|v a IH]; [reflexivity|].
  rewrite ParseReasons_cons. cbn [flat_map]. rewrite IH.
  destruct (TryGetString v); reflexivity.
Qed.

(** C5, as the decoder has it.  Decoding a dialogue response body that
    the reader accepts.  When the field "special_case_reasons" is an
    array, the reasons are the result of reading the array element by
    element, in its order: the list holds, for each element that answers
    [TryGetString], the text it answers, and nothing for the others.  An
    array of strings comes out as it is, and a string keeps its place
    among its neighbours.  An element is left out, while the elements
    after it are still read, exactly when [TryGetString] answers no:
    null, arrays and objects do.  A number or a boolean that
    [TryGetString] turns into text, as the engine's does, is not left out:
    its text takes its place in the list.  When the field is missing or
    is not an array, the list is empty. *)
Theorem dialogue_special_case_reasons {host : Host} (JsonString : string)
  (JsonObject : FJsonObject) :
  FJsonSerializer_Deserialize JsonString = (true, Some JsonObject) ->
  let Reasons :=
    FAGLDialogueResponse.SpecialCaseReasons
      (UAGLDialogueService.DeserializeResponse JsonString) in
  let ReasonsOf := fun a => UAGLDialogueService.ParseReasons a [] in
  (forall a : list FJsonValue,
     TryGetField JsonObject "special_case_reasons" = Some (JArray a) ->
     Reasons = ReasonsOf a) /\
  (TryGetField JsonObject "special_case_reasons" = None -> Reasons = []) /\
  (forall v : FJsonValue,
     TryGetField JsonObject "special_case_reasons" = Some v ->
     (forall a, v <> JArray a) -> Reasons = []) /\
  (forall l : list string, ReasonsOf (map JString l) = l) /\
  (forall (a b : list FJsonValue) (s : string),
     ReasonsOf (a ++ JString s :: b)%list =
     (ReasonsOf a ++ s :: ReasonsOf b)%list) /\
  (forall (a b : list FJsonValue) (v : FJsonValue),
     TryGetString v = None ->
     ReasonsOf (a ++ v :: b)%list = (ReasonsOf a ++ ReasonsOf b)%list) /\
  (forall (a b : list FJsonValue) (v : FJsonValue),
     v = JNull \/ (exists x, v = JArray x) \/ (exists o, v = JObject o) ->
     ReasonsOf (a ++ v :: b)%list = (ReasonsOf a ++ ReasonsOf b)%list) /\
  (forall (a b : list FJsonValue) (v : FJsonValue) (text : string),
     TryGetString v = Some text ->
     ReasonsOf (a ++ v :: b)%list = (ReasonsOf a ++ text :: ReasonsOf b)%list) /\
  (forall (a b : list FJsonValue) (v : FJsonValue) (text : string),
     (exists d, v = JNumber d) \/ (exists c, v = JBoolean c) ->
     TryGetString_scalar v = Some text ->
     ReasonsOf (a ++ v :: b)%list = (ReasonsOf a ++ text :: ReasonsOf b)%list) /\
  (forall a : list FJsonValue,
     ReasonsOf a =
     flat_map (fun v => match TryGetString v with
                        | Some Reason => [Reason]
                        | None => []
                        end) a).
Proof.
  intros Hparse Reasons ReasonsOf. subst Reasons ReasonsOf. cbv beta.
  rewrite (dialogue_reasons_of_object _ _ Hparse).
  assert (Hskip : forall a b v, TryGetString v = None ->
            UAGLDialogueService.ParseReasons (a ++ v :: b)%list [] =
            (UAGLDialogueService.ParseReasons a [] ++
             UAGLDialogueService.ParseReasons b [])%list).
  { intros a b v Hv.
    rewrite ParseReasons_app, ParseReasons_acc, ParseReasons_cons.
    now rewrite Hv. }
  assert (Hkeep : forall a b v text, TryGetString v = Some text ->
            UAGLDialogueService.ParseReasons (a ++ v :: b)%list [] =
            (UAGLDialogueService.ParseReasons a [] ++
             text :: UAGLDialogueService.ParseReasons b [])%list).
  { intros a b v text Hv.
    rewrite ParseReasons_app, ParseReasons_acc, ParseReasons_cons.
    now rewrite Hv. }
  repeat apply conj.
  - intros a ->. reflexivity.
  - intros ->. reflexivity.
  - intros v -> Hv. destruct v; try reflexivity. now destruct (Hv Value).
  - apply ParseReasons_strings.
  - intros a b s. rewrite ParseReasons_app, ParseReasons_acc, ParseReasons_cons.
    reflexivity.
  - exact Hskip.
  - intros a b v [-> | [[x ->] | [o ->]]]; apply Hskip; reflexivity.
  - exact Hkeep.
  - intros a b v text [[d ->] | [c ->]] Hv; apply Hkeep; exact Hv.
  - apply ParseReasons_flat_map.
Qed.

(** *** The facade *)

(** C9. [Initialize] with a config whose [ApiKey] is empty stores the
    config and changes nothing else: [IsInitialized] and the three service
    pointers are what they were, so on a client that was not initialized
    [IsInitialized] is still false and the three getters still answer
    null, while [GetConfig] answers the config just refused. *)
Theorem Initialize_empty_key_keeps_config (InConfig : FAGLConfig.t)
  (self : UAGLClient.t) :
  FAGLConfig.ApiKey InConfig = "" ->
  let self' := UAGLClient.Initialize InConfig self in
  UAGLClient.GetConfig self' = InConfig /\
  UAGLClient.IsInitialized self' = UAGLClient.IsInitialized self /\
  UAGLClient.GetEmotionService self' = UAGLClient.GetEmotionService self /\
  UAGLClient.GetDialogueService self' = UAGLClient.GetDialogueService self /\
  UAGLClient.GetMemoryService self' = UAGLClient.GetMemoryService self /\
  UAGLClient.GetPlayerId self' = UAGLClient.GetPlayerId self /\
  UAGLClient.GetGameId self' = UAGLClient.GetGameId self /\
  let fresh := UAGLClient.Initialize InConfig UAGLClient.New in
  UAGLClient.GetConfig fresh = InConfig /\
  UAGLClient.IsInitialized fresh = false /\
  UAGLClient.GetEmotionService fresh = None /\
  UAGLClient.GetDialogueService fresh = None /\
  UAGLClient.GetMemoryService fresh = None.
Proof.
  intros Hkey. unfold UAGLClient.Initialize.
  cbn [UAGLClient.Config]. rewrite Hkey. cbn [IsEmpty].
  repeat split.
Qed.


(* ================================================================== *)
(** ** The statements at work on [TestHost] *)

(** The reader's document decodes as the test suite expects. *)
Example DeserializeResponse_TestBody :
  UAGLDialogueService.DeserializeResponse TestBody =
  {| FAGLDialogueResponse.Dialogue := "Amazing victory!";
     FAGLDialogueResponse.Method := "llm";
     FAGLDialogueResponse.Cost := Engine.float_of_double 0.002%float;
     FAGLDialogueResponse.bUsedSpecialCase := true;
     FAGLDialogueResponse.SpecialCaseReasons := ["win_streak"; "legendary"];
     FAGLDialogueResponse.MemoryCount := 3;
     FAGLDialogueResponse.bCacheHit := false;
     FAGLDialogueResponse.LatencyMs := 450 |}.
Proof. vm_compute. reflexivity. Qed.

(** The memory document of [FAGLMemorySerializationTest], already read
    into an object, decodes as that test expects. *)
Example DeserializeMemory_test :
  UAGLMemoryService.DeserializeMemory
    (Some [("id", JString "mem_123");
           ("playerId", JString "player_456");
           ("type", JString "achievement");
           ("content", JString "First legendary item");
           ("emotion", JString "amazed");
           ("importance", JNumber 9%float);
           ("context", JObject [("item_name", JString "Excalibur")]);
           ("createdAt", JString "2025-01-26T10:00:00Z")]) =
  {| FAGLMemory.Id := "mem_123";
     FAGLMemory.PlayerId := "player_456";
     FAGLMemory.MemoryType := EAGLMemoryType.Achievement;
     FAGLMemory.Content := "First legendary item";
     FAGLMemory.Emotion := "amazed";
     FAGLMemory.Importance := 9;
     FAGLMemory.Context := [("item_name", "Excalibur")];
     FAGLMemory.CreatedAt := "2025-01-26T10:00:00Z" |}.
Proof. vm_compute. reflexivity. Qed.

(** A helper constructor on sample arguments. *)
Example CreateKillRequest_test :
  FAGLEmotionRequest.Data (UAGLEmotionService.CreateKillRequest 5 true) =
  [("killCount", "5"); ("isLegendary", "true")].
Proof. vm_compute. reflexivity. Qed.

Lemma enum_wire_roundtrip_witness :
  (@InWireTable TestHost "bogus" EmotionWireStrings = false /\
   @UAGLEmotionService.StringToEmotionType TestHost "bogus" =
     EAGLEmotionType.Neutral) /\
  (@InWireTable TestHost "Achieved" MemoryWireStrings = false /\
   @UAGLMemoryService.StringToMemoryType TestHost "Achieved" =
     EAGLMemoryType.Event) /\
  (@SearchCase TestHost = IgnoreCase /\
   FString_ToLower "Proud" = "proud" /\
   @UAGLEmotionService.StringToEmotionType TestHost "Proud" =
     EAGLEmotionType.Proud /\
   FString_ToLower "FIRST_TIME" = "first_time" /\
   @UAGLMemoryService.StringToMemoryType TestHost "FIRST_TIME" =
     EAGLMemoryType.FirstTime /\
   ~ In (FString_ToLower "Elated") EmotionWireStrings /\
   @UAGLEmotionService.StringToEmotionType TestHost "Elated" =
     EAGLEmotionType.Neutral /\
   ~ In (FString_ToLower "first time") MemoryWireStrings /\
   @UAGLMemoryService.StringToMemoryType TestHost "first time" =
     EAGLMemoryType.Event).
Proof.
  pose proof (@enum_wire_roundtrip TestHost) as [_ [_ [He [Hm [Hfold _]]]]].
  assert (H1 : ~ In (FString_ToLower "Elated") EmotionWireStrings)
    by (cbv; intuition discriminate).
  assert (H2 : ~ In (FString_ToLower "first time") MemoryWireStrings)
    by (cbv; intuition discriminate).
  destruct (Hfold eq_refl) as [He' [Hm' [Hne Hnm]]].
  split; [split; [reflexivity | apply He; reflexivity]|].
  split; [split; [reflexivity | apply Hm; reflexivity]|].
  split; [reflexivity|].
  split; [reflexivity|].
  split; [apply (He' "Proud" EAGLEmotionType.Proud); reflexivity|].
  split; [reflexivity|].
  split; [apply (Hm' "FIRST_TIME" EAGLMemoryType.FirstTime); reflexivity|].
  split; [exact H1|].
  split; [apply Hne; exact H1|].
  split; [exact H2 | apply Hnm; exact H2].
Defined.

(** The text HAPPY is not in the wire table of the emotions, and
    First_Time is not in that of the memory types, yet the one decodes to
    [Happy] and the other to [FirstTime], not to the defaults. *)
Lemma upper_case_wire_string_is_decoded :
  (~ In "HAPPY" EmotionWireStrings /\
   @UAGLEmotionService.StringToEmotionType TestHost "HAPPY" =
     EAGLEmotionType.Happy /\
   @UAGLEmotionService.StringToEmotionType TestHost "HAPPY" <>
     EAGLEmotionType.Neutral) /\
  (~ In "First_Time" MemoryWireStrings /\
   @UAGLMemoryService.StringToMemoryType TestHost "First_Time" =
     EAGLMemoryType.FirstTime /\
   @UAGLMemoryService.StringToMemoryType TestHost "First_Time" <>
     EAGLMemoryType.Event).
Proof.
  split; (split; [cbv; intuition discriminate|]);
    (split; [reflexivity | vm_compute; discriminate]).
Qed.

Lemma dialogue_player_id_field_witness :
  (FAGLDialogueRequest.PlayerId (PlayerRequest "") = "" /\
   forall FJsonSerializer_Serialize : FJsonObject -> string,
     UAGLDialogueService.SerializeRequest FJsonSerializer_Serialize
       (PlayerRequest "") =
     FJsonSerializer_Serialize
       [("event_type", JString "player.achievement");
        ("emotion", JString "proud");
        ("persona", JString "cool");
        ("force_llm", JBoolean false);
        ("language", JString "zh")]) /\
  HasField
    (UAGLDialogueService.SerializeRequest_JsonObject (PlayerRequest ""))
    "player_id" = false /\
  (FAGLDialogueRequest.PlayerId (PlayerRequest "player-123") <> "" /\
   forall FJsonSerializer_Serialize : FJsonObject -> string,
     UAGLDialogueService.SerializeRequest FJsonSerializer_Serialize
       (PlayerRequest "player-123") =
     FJsonSerializer_Serialize
       [("event_type", JString "player.achievement");
        ("emotion", JString "proud");
        ("persona", JString "cool");
        ("force_llm", JBoolean false);
        ("player_id", JString "player-123");
        ("language", JString "zh")]) /\
  TryGetField
    (UAGLDialogueService.SerializeRequest_JsonObject (PlayerRequest "player-123"))
    "player_id" = Some (JString "player-123").
Proof.
  assert (Hset : FAGLDialogueRequest.PlayerId (PlayerRequest "player-123") <> "")
    by (simpl; discriminate).
  split; [split; [reflexivity|]|].
  { intros W.
    exact (proj1 (@dialogue_player_id_field TestHost W (PlayerRequest ""))). }
  split.
  { exact (proj1 (proj2 (@dialogue_player_id_field TestHost (fun _ => "")
                           (PlayerRequest ""))) eq_refl). }
  split; [split; [exact Hset|]|].
  { intros W.
    exact (proj1 (@dialogue_player_id_field TestHost W
                    (PlayerRequest "player-123"))). }
  exact (proj2 (proj2 (@dialogue_player_id_field TestHost (fun _ => "")
                         (PlayerRequest "player-123"))) Hset).
Defined.

Lemma request_field_presence_witness :
  FAGLDialogueRequest.Language (PlayerRequest "") <> "" /\
  (forall FJsonSerializer_Serialize : FJsonObject -> string,
     UAGLDialogueService.SerializeRequest FJsonSerializer_Serialize
       (PlayerRequest "") =
     FJsonSerializer_Serialize
       [("event_type", JString "player.achievement");
        ("emotion", JString "proud");
        ("persona", JString "cool");
        ("force_llm", JBoolean false);
        ("language", JString "zh")]) /\
  HasField
    (UAGLDialogueService.SerializeRequest_JsonObject (PlayerRequest ""))
    "language" = true.
Proof.
  assert (H : FAGLDialogueRequest.Language (PlayerRequest "") <> "")
    by (simpl; discriminate).
  split; [exact H|]. split.
  - intros W.
    exact (proj1 (proj1 (proj2 (@request_field_presence TestHost W))
                    (PlayerRequest ""))).
  - pose proof (proj1 (proj2 (@request_field_presence TestHost (fun _ => "")))
                  (PlayerRequest "")) as [_ [_ [_ [_ [_ [_ [Hlang _]]]]]]].
    apply Hlang. exact H.
Defined.

(** An emotion request with no data at all and a memory request with no
    content: what the encoders return is the writer's text of an object
    that still carries the key "data", resp. "content". *)
Lemma empty_data_and_content_are_emitted :
  let EmotionRequest :=
    {| FAGLEmotionRequest.EventType := EAGLEventType.Victory;
       FAGLEmotionRequest.Data := [];
       FAGLEmotionRequest.Context := [];
       FAGLEmotionRequest.bForceML := false |} in
  let MemoryRequest :=
    {| FAGLCreateMemoryRequest.MemoryType := EAGLMemoryType.Event;
       FAGLCreateMemoryRequest.Content := "";
       FAGLCreateMemoryRequest.Emotion := "";
       FAGLCreateMemoryRequest.Context := [];
       FAGLCreateMemoryRequest.Importance := 5 |} in
  let EmotionObject :=
    [("type", JString "player.victory"); ("force_ml", JBoolean false);
     ("data", JObject [])] in
  let MemoryObject :=
    [("type", JString "event"); ("content", JString "");
     ("importance", JNumber 5%float)] in
  (FAGLEmotionRequest.Data EmotionRequest = [] /\
   (forall FJsonSerializer_Serialize : FJsonObject -> string,
      UAGLEmotionService.SerializeRequest FJsonSerializer_Serialize
        EmotionRequest = FJsonSerializer_Serialize EmotionObject) /\
   TryGetField EmotionObject "data" = Some (JObject []) /\
   HasField EmotionObject "data" <> false) /\
  (FAGLCreateMemoryRequest.Content MemoryRequest = "" /\
   (forall FJsonSerializer_Serialize : FJsonObject -> string,
      UAGLMemoryService.SerializeCreateMemoryRequest FJsonSerializer_Serialize
        MemoryRequest = FJsonSerializer_Serialize MemoryObject) /\
   TryGetField MemoryObject "content" = Some (JString "") /\
   HasField MemoryObject "content" <> false).
Proof.
  cbv zeta.
  split; (split; [reflexivity|]);
    (split; [intros W; reflexivity|]);
    (split; [reflexivity | vm_compute; discriminate]).
Qed.

Lemma failure_reports_false_and_default_witness :
  GetResponseCode ServerError <> 200%Z /\
  UAGLEmotionService.AnalyzeEmotion_OnProcessRequestComplete
    (Calls FAGLEmotionResponse.t) Recorder (Some ServerError) true [] =
  [(false, FAGLEmotionResponse.Default)] /\
  UAGLMemoryService.GetMemories_OnProcessRequestComplete
    (Calls (list FAGLMemory.t)) Recorder None true [] = [(false, [])] /\
  UAGLMemoryService.CreateMemory_OnProcessRequestComplete
    (Calls FAGLMemory.t) Recorder (Some Created) false [] =
  [(false, FAGLMemory.Default)] /\
  UAGLMemoryService.CreateMemory_OnProcessRequestComplete
    (Calls FAGLMemory.t) Recorder (Some Created) true [] =
  [(true, UAGLMemoryService.DeserializeMemory (Some TestDocument))].
Proof.
  assert (H : GetResponseCode ServerError <> 200%Z) by (simpl; lia).
  split; [exact H|]. split; [|split; [|split]].
  - apply (proj1 (proj1 (@failure_reports_false_and_default TestHost
                           (Calls FAGLEmotionResponse.t) (Some ServerError) true [])
                   (or_intror (or_intror (ex_intro _ ServerError (conj eq_refl H)))))
             Recorder).
  - apply (proj2 (proj2 (proj2 (proj2
             (proj1 (@failure_reports_false_and_default TestHost
                       (Calls (list FAGLMemory.t)) None true [])
                (or_intror (or_introl eq_refl)))))) Recorder).
  - apply (proj1 (proj2 (@failure_reports_false_and_default TestHost
                           (Calls FAGLMemory.t) (Some Created) false []))
             (or_introl eq_refl) Recorder).
  - apply (proj2 (proj2 (@failure_reports_false_and_default TestHost
                           (Calls FAGLMemory.t) None false []))
             Created TestDocument Recorder eq_refl eq_refl).
Defined.

Lemma malformed_body_outcome_witness :
  ParseFailed (GetContentAsString (GarbageBody 200)) = true /\
  UAGLDialogueService.GenerateDialogue_OnProcessRequestComplete
    (Calls FAGLDialogueResponse.t) Recorder (Some (GarbageBody 200)) true [] =
  [(true, FAGLDialogueResponse.Default)] /\
  UAGLMemoryService.CreateMemory_OnProcessRequestComplete
    (Calls FAGLMemory.t) Recorder (Some (GarbageBody 201)) true [] =
  [(false, FAGLMemory.Default)].
Proof.
  split; [reflexivity|]. split.
  - apply (proj1 (proj2 (proj1 (@malformed_body_outcome TestHost
                                  (Calls FAGLDialogueResponse.t) (GarbageBody 200) []
                                  eq_refl) eq_refl)) Recorder).
  - apply (proj2 (@malformed_body_outcome TestHost
                    (Calls FAGLMemory.t) (GarbageBody 201) [] eq_refl)
             (or_intror eq_refl) Recorder).
Defined.

(** A 200 whose body is no JSON: createMemory reports failure, not
    success. *)
Lemma create_memory_malformed_body_reports_false :
  GetResponseCode (GarbageBody 200) = 200%Z /\
  ParseFailed (GetContentAsString (GarbageBody 200)) = true /\
  UAGLMemoryService.CreateMemory_OnProcessRequestComplete
    (Calls FAGLMemory.t) Recorder (Some (GarbageBody 200)) true [] =
  [(false, FAGLMemory.Default)] /\
  UAGLMemoryService.CreateMemory_OnProcessRequestComplete
    (Calls FAGLMemory.t) Recorder (Some (GarbageBody 200)) true [] <>
  ExecuteIfBound Recorder true FAGLMemory.Default [].
Proof.
  repeat split. vm_compute. discriminate.
Qed.

Lemma dialogue_special_case_reasons_witness :
  let Reasons := fun body =>
    FAGLDialogueResponse.SpecialCaseReasons
      (UAGLDialogueService.DeserializeResponse body) in
  (FJsonSerializer_Deserialize TestBody = (true, Some TestDocument) /\
   Reasons TestBody = ["win_streak"; "legendary"]) /\
  (FJsonSerializer_Deserialize MixedBody = (true, Some MixedDocument) /\
   Reasons MixedBody = ["win_streak"; "7"; "legendary"]) /\
  (FJsonSerializer_Deserialize BareBody = (true, Some BareDocument) /\
   TryGetField BareDocument "special_case_reasons" = None /\
   Reasons BareBody = []) /\
  (FJsonSerializer_Deserialize ScalarBody = (true, Some ScalarDocument) /\
   TryGetField ScalarDocument "special_case_reasons" =
     Some (JString "win_streak") /\
   Reasons ScalarBody = []) /\
  (TryGetString JNull = None /\
   UAGLDialogueService.ParseReasons
     [JString "win_streak"; JNull; JString "legendary"] [] =
   ["win_streak"; "legendary"]) /\
  (TryGetString_scalar (JBoolean true) = Some "true" /\
   UAGLDialogueService.ParseReasons
     [JString "win_streak"; JBoolean true; JString "legendary"] [] =
   ["win_streak"; "true"; "legendary"]).
Proof.
  cbv zeta.
  pose proof (@dialogue_special_case_reasons TestHost TestBody TestDocument
                eq_refl) as [Harray _].
  pose proof (@dialogue_special_case_reasons TestHost MixedBody MixedDocument
                eq_refl) as [Hmixed _].
  pose proof (@dialogue_special_case_reasons TestHost BareBody BareDocument
                eq_refl) as [_ [Habsent _]].
  pose proof (@dialogue_special_case_reasons TestHost ScalarBody ScalarDocument
                eq_refl)
    as [_ [_ [Hscalar [_ [_ [Hskip [_ [_ [Hkept _]]]]]]]]].
  cbv zeta in *.
  split; [split; [reflexivity|]|].
  { apply (Harray [JString "win_streak"; JString "legendary"]). reflexivity. }
  split; [split; [reflexivity|]|].
  { apply (Hmixed [JString "win_streak"; JNumber 7%float; JNull;
                   JString "legendary"]). reflexivity. }
  split; [split; [reflexivity | split; [reflexivity|]]|].
  { apply Habsent. reflexivity. }
  split; [split; [reflexivity | split; [reflexivity|]]|].
  { apply (Hscalar (JString "win_streak") eq_refl). intros a; discriminate. }
  split; [split; [reflexivity|]|].
  { exact (Hskip [JString "win_streak"] [JString "legendary"] JNull eq_refl). }
  split; [reflexivity|].
  exact (Hkept [JString "win_streak"] [JString "legendary"] (JBoolean true)
           "true" (or_intror (ex_intro _ true eq_refl)) eq_refl).
Defined.

(** The reasons array of [MixedBody] holds the number 7 between two
    strings: it is no string, and it is not skipped but comes out as the
    text 7. *)
Lemma number_among_reasons_is_kept :
  let Reasons :=
    FAGLDialogueResponse.SpecialCaseReasons
      (UAGLDialogueService.DeserializeResponse MixedBody) in
  FJsonSerializer_Deserialize MixedBody = (true, Some MixedDocument) /\
  TryGetField MixedDocument "special_case_reasons" =
    Some (JArray [JString "win_streak"; JNumber 7%float; JNull;
                  JString "legendary"]) /\
  Reasons = ["win_streak"; "7"; "legendary"] /\
  Reasons <> ["win_streak"; "legendary"].
Proof.
  cbv zeta. repeat apply conj; try reflexivity.
  vm_compute. discriminate.
Qed.

Lemma Initialize_empty_key_keeps_config_witness :
  FAGLConfig.ApiKey KeylessConfig = "" /\
  UAGLClient.GetConfig (UAGLClient.Initialize KeylessConfig UAGLClient.New) =
    KeylessConfig /\
  UAGLClient.IsInitialized (UAGLClient.Initialize KeylessConfig UAGLClient.New) =
    false.
Proof.
  split; [reflexivity|].
  pose proof (Initialize_empty_key_keeps_config KeylessConfig UAGLClient.New
                eq_refl) as H.
  cbv zeta in H. split; [apply H | apply (proj2 H)].
Defined.

(* ================================================================== *)
(** ** Further properties *)

(** *** Keys of a map *)

Lemma FString_eq_sym {host : Host} (a b : string) :
  FString_eq a b = FString_eq b a.
Proof.
  unfold FString_eq, FString_Equals. destruct SearchCase; apply String.eqb_sym.
Qed.

Lemma FString_eq_true_l {host : Host} (a b c : string) :
  FString_eq a b = true -> FString_eq a c = FString_eq b c.
Proof.
  unfold FString_eq, FString_Equals.
  destruct SearchCase; intros H; apply String.eqb_eq in H; now rewrite H.
Qed.

Lemma TMap_HasKey_Find {host : Host} {V : Type} (m : TMap V) (k : string) :
  TMap_HasKey m k = false <-> TMap_Find m k = None.
Proof.
  induction m as [|[k0 v0] r IH]; cbn; [tauto|].
  destruct (FString_eq k0 k); cbn; [split; discriminate | exact IH].
Qed.

Lemma TMap_Add_fresh {host : Host} {V : Type} (m : TMap V) (k : string) (v : V) :
  TMap_HasKey m k = false -> TMap_Add m k v = (m ++ [(k, v)])%list.
Proof.
  induction m as [|[k0 v0] r IH]; cbn; [reflexivity|].
  destruct (FString_eq k0 k); cbn; [discriminate|].
  intros H. now rewrite IH.
Qed.

Lemma TMap_HasKey_app {host : Host} {V : Type} (m1 m2 : TMap V) (k : string) :
  TMap_HasKey (m1 ++ m2)%list k = TMap_HasKey m1 k || TMap_HasKey m2 k.
Proof. unfold TMap_HasKey. apply existsb_app. Qed.

Lemma TMap_HasKey_Add {host : Host} {V : Type} (m : TMap V) (k x : string) (v : V) :
  TMap_HasKey (TMap_Add m k v) x = TMap_HasKey m x || FString_eq k x.
Proof.
  unfold TMap_HasKey.
  induction m as [|[k0 v0] r IH]; cbn [TMap_Add existsb fst].
  - now rewrite orb_false_r.
  - destruct (FString_eq k0 k) eqn:E; cbn [existsb fst].
    + rewrite (FString_eq_true_l _ _ x E).
      destruct (FString_eq k x); cbn; [reflexivity | now rewrite orb_false_r].
    + rewrite IH. now rewrite orb_assoc.
Qed.

Lemma TMap_Find_Add_same {host : Host} {V : Type} (m : TMap V) (k : string) (v : V) :
  TMap_Find (TMap_Add m k v) k = Some v.
Proof.
  induction m as [|[k0 v0] r IH]; cbn.
  - now rewrite FString_eq_refl.
  - destruct (FString_eq k0 k) eqn:E; cbn.
    + now rewrite FString_eq_refl.
    + now rewrite E.
Qed.

Lemma TMap_Find_Add_other {host : Host} {V : Type} (m : TMap V) (k x : string) (v : V) :
  FString_eq k x = false ->
  TMap_Find (TMap_Add m k v) x = TMap_Find m x.
Proof.
  intros Hkx. induction m as [|[k0 v0] r IH]; cbn.
  - now rewrite Hkx.
  - destruct (FString_eq k0 k) eqn:E; cbn.
    + rewrite Hkx. now rewrite (FString_eq_true_l _ _ x E), Hkx.
    + now rewrite IH.
Qed.

Lemma TMap_HasKey_equiv {host : Host} {V : Type} (m : TMap V) (a b : string) :
  FString_eq a b = true -> TMap_HasKey m a = TMap_HasKey m b.
Proof.
  intros E. unfold TMap_HasKey.
  induction m as [|p r IH]; cbn [existsb]; [reflexivity|].
  rewrite IH, (FString_eq_sym (fst p) a), (FString_eq_sym (fst p) b).
  now rewrite (FString_eq_true_l a b (fst p) E).
Qed.

Lemma TMap_Distinct_Add {host : Host} {V : Type} (m : TMap V) (k : string) (v : V) :
  TMap_Distinct m = true -> TMap_Distinct (TMap_Add m k v) = true.
Proof.
  induction m as [|[k0 v0] r IH]; cbn [TMap_Add TMap_Distinct fst];
    [reflexivity|].
  intros H. apply andb_true_iff in H as [Hk0 Hr].
  apply negb_true_iff in Hk0.
  destruct (FString_eq k0 k) eqn:E; cbn [TMap_Distinct fst].
  - rewrite Hr, andb_true_r. apply negb_true_iff.
    now rewrite <- (TMap_HasKey_equiv r k0 k E).
  - rewrite (IH Hr), andb_true_r. apply negb_true_iff.
    rewrite TMap_HasKey_Add, Hk0. cbn. now rewrite FString_eq_sym.
Qed.

Lemma TMap_HasKey_false_In {host : Host} {V : Type} (m : TMap V) (k : string)
  (p : string * V) :
  TMap_HasKey m k = false -> In p m -> FString_eq (fst p) k = false.
Proof.
  intros H Hin. destruct (FString_eq (fst p) k) eqn:E; [|reflexivity].
  rewrite <- H. symmetry. apply existsb_exists. exists p. now split.
Qed.

(** A loop of [Add]s over items with pairwise distinct keys, none of them
    in the map yet, appends the items in their order. *)
Lemma fold_Add_distinct {host : Host} {V X : Type}
  (step : TMap V -> X -> TMap V) (key : X -> string) (val : X -> V)
  (l : list X) :
  (forall o x, In x l -> step o x = TMap_Add o (key x) (val x)) ->
  TMap_Distinct (map (fun x => (key x, val x)) l) = true ->
  forall acc : TMap V,
    (forall x, In x l -> TMap_HasKey acc (key x) = false) ->
    fold_left step l acc = (acc ++ map (fun x => (key x, val x)) l)%list.
Proof.
  induction l as [|x l IH]; intros Hstep Hd acc Hacc; cbn.
  - now rewrite app_nil_r.
  - cbn in Hd. apply andb_true_iff in Hd as [Hx Hd].
    apply negb_true_iff in Hx.
    rewrite (Hstep acc x (or_introl eq_refl)).
    rewrite (TMap_Add_fresh acc (key x) (val x) (Hacc x (or_introl eq_refl))).
    rewrite IH.
    + now rewrite <- app_assoc.
    + intros o y Hy. apply Hstep. now right.
    + exact Hd.
    + intros y Hy. rewrite TMap_HasKey_app, (Hacc y (or_intror Hy)). cbn.
      rewrite orb_false_r, FString_eq_sym.
      apply (TMap_HasKey_false_In _ _ (key y, val y) Hx).
      apply (in_map (fun x => (key x, val x))). exact Hy.
Qed.

(** *** Nested objects and payloads *)

Lemma TMap_Find_map {host : Host} {U V : Type} (f : U -> V) (m : TMap U) (k : string) :
  TMap_Find (map (fun p => (fst p, f (snd p))) m) k = option_map f (TMap_Find m k).
Proof.
  induction m as [|[k0 v0] r IH]; cbn; [reflexivity|].
  destruct (FString_eq k0 k); [reflexivity | exact IH].
Qed.

Lemma TMap_Distinct_map {host : Host} {U V : Type} (f : U -> V) (m : TMap U) :
  TMap_Distinct (map (fun p => (fst p, f (snd p))) m) = TMap_Distinct m.
Proof.
  induction m as [|p r IH]; cbn [map TMap_Distinct fst]; [reflexivity|].
  rewrite IH. f_equal. f_equal. unfold TMap_HasKey.
  clear IH. induction r as [|q r IH]; cbn; [reflexivity|]. now rewrite IH.
Qed.

Lemma MakeStringObject_copy {host : Host} (Map : TMap string) :
  TMap_Distinct Map = true ->
  MakeStringObject Map = map (fun Pair => (fst Pair, JString (snd Pair))) Map.
Proof.
  intros Hd. unfold MakeStringObject.
  rewrite (fold_Add_distinct _ fst (fun Pair => JString (snd Pair))).
  - reflexivity.
  - reflexivity.
  - now rewrite (TMap_Distinct_map JString).
  - reflexivity.
Qed.

Lemma ParseContext_copy {host : Host} (Map : TMap string) :
  TMap_Distinct Map = true ->
  UAGLMemoryService.ParseContext
    (map (fun Pair => (fst Pair, JString (snd Pair))) Map) [] = Map.
Proof.
  intros Hd. unfold UAGLMemoryService.ParseContext.
  set (text := fun Pair : string * FJsonValue =>
                 match snd Pair with JString s => s | _ => "" end).
  assert (Hback : map (fun x => (fst x, text x))
                    (map (fun Pair => (fst Pair, JString (snd Pair))) Map) = Map).
  { clear Hd. induction Map as [|[k v] r IH]; cbn; [reflexivity|].
    now rewrite IH. }
  rewrite (fold_Add_distinct _ fst text).
  - cbn [app]. exact Hback.
  - intros o x Hx. apply in_map_iff in Hx as [[k v] [<- _]]. reflexivity.
  - now rewrite Hback.
  - reflexivity.
Qed.

(** X1.  The nested object an encoder builds from a string map whose keys
    are pairwise distinct holds the map's entries in the map's order, each
    value as a JSON string; asking the object for a key gives what the map
    holds under it; and the context loop of [DeserializeMemory] reads the
    object back into the very map. *)
Theorem string_object_mirrors_map {host : Host} (Map : TMap string) :
  TMap_Distinct Map = true ->
  MakeStringObject Map = map (fun Pair => (fst Pair, JString (snd Pair))) Map /\
  (forall Key : string,
     TryGetField (MakeStringObject Map) Key =
     option_map JString (TMap_Find Map Key)) /\
  UAGLMemoryService.ParseContext (MakeStringObject Map) [] = Map.
Proof.
  intros Hd. rewrite (MakeStringObject_copy Map Hd). repeat apply conj.
  - reflexivity.
  - intros Key. unfold TryGetField. apply (TMap_Find_map JString).
  - now apply ParseContext_copy.
Qed.

Lemma emotion_payload_shape {host : Host} (Request : FAGLEmotionRequest.t) :
  UAGLEmotionService.SerializeRequest_JsonObject Request =
  ([("type", JString (UAGLEmotionService.EventTypeToString
                        (FAGLEmotionRequest.EventType Request)));
    ("force_ml", JBoolean (FAGLEmotionRequest.bForceML Request));
    ("data", JObject (MakeStringObject (FAGLEmotionRequest.Data Request)))]
   ++ OptionalField (NonEmptyMap (FAGLEmotionRequest.Context Request)) "context"
        (JObject (MakeStringObject (FAGLEmotionRequest.Context Request))))%list.
Proof.
  destruct Request as [ev data ctx ml]; destruct ctx; by_search_case.
Qed.

Lemma dialogue_payload_shape {host : Host} (Request : FAGLDialogueRequest.t) :
  UAGLDialogueService.SerializeRequest_JsonObject Request =
  ([("event_type", JString (UAGLDialogueService.EventTypeToString
                              (FAGLDialogueRequest.EventType Request)));
    ("emotion", JString (UAGLDialogueService.EmotionTypeToString
                           (FAGLDialogueRequest.Emotion Request)));
    ("persona", JString (UAGLDialogueService.PersonaToString
                           (FAGLDialogueRequest.Persona Request)));
    ("force_llm", JBoolean (FAGLDialogueRequest.bForceLLM Request))]
   ++ OptionalField (negb (IsEmpty (FAGLDialogueRequest.PlayerId Request)))
        "player_id" (JString (FAGLDialogueRequest.PlayerId Request))
   ++ OptionalField (negb (IsEmpty (FAGLDialogueRequest.Language Request)))
        "language" (JString (FAGLDialogueRequest.Language Request))
   ++ OptionalField (NonEmptyMap (FAGLDialogueRequest.Context Request)) "context"
        (JObject (MakeStringObject (FAGLDialogueRequest.Context Request))))%list.
Proof.
  destruct Request as [ev em pe pid lang ctx llm].
  destruct pid, lang, ctx; by_search_case.
Qed.

Lemma create_memory_payload_shape {host : Host}
  (Request : FAGLCreateMemoryRequest.t) :
  UAGLMemoryService.SerializeCreateMemoryRequest_JsonObject Request =
  ([("type", JString (UAGLMemoryService.MemoryTypeToString
                        (FAGLCreateMemoryRequest.MemoryType Request)));
    ("content", JString (FAGLCreateMemoryRequest.Content Request));
    ("importance",
     JNumber (double_of_int32 (FAGLCreateMemoryRequest.Importance Request)))]
   ++ OptionalField (negb (IsEmpty (FAGLCreateMemoryRequest.Emotion Request)))
        "emotion" (JString (FAGLCreateMemoryRequest.Emotion Request))
   ++ OptionalField (NonEmptyMap (FAGLCreateMemoryRequest.Context Request))
        "context"
        (JObject (MakeStringObject (FAGLCreateMemoryRequest.Context Request))))%list.
Proof.
  destruct Request as [ty content em ctx imp].
  destruct em, ctx; by_search_case.
Qed.

Lemma StringToMemoryType_MemoryTypeToString {host : Host} (m : EAGLMemoryType.t) :
  UAGLMemoryService.StringToMemoryType (UAGLMemoryService.MemoryTypeToString m) = m.
Proof.
  unfold UAGLMemoryService.StringToMemoryType, FString_eq.
  destruct SearchCase; destruct m; reflexivity.
Qed.

Lemma StringToEmotionType_EmotionTypeToString {host : Host} (e : EAGLEmotionType.t) :
  UAGLEmotionService.StringToEmotionType
    (UAGLDialogueService.EmotionTypeToString e) = e.
Proof.
  unfold UAGLEmotionService.StringToEmotionType, FString_eq.
  destruct SearchCase; destruct e; reflexivity.
Qed.

Lemma create_memory_payload_fields {host : Host}
  (Request : FAGLCreateMemoryRequest.t) :
  let o := UAGLMemoryService.SerializeCreateMemoryRequest_JsonObject Request in
  TryGetField o "id" = None /\
  TryGetField o "playerId" = None /\
  TryGetField o "createdAt" = None /\
  TryGetField o "content" =
    Some (JString (FAGLCreateMemoryRequest.Content Request)) /\
  TryGetField o "type" =
    Some (JString (UAGLMemoryService.MemoryTypeToString
                     (FAGLCreateMemoryRequest.MemoryType Request))) /\
  TryGetField o "importance" =
    Some (JNumber (double_of_int32 (FAGLCreateMemoryRequest.Importance Request))) /\
  TryGetField o "emotion" =
    (if IsEmpty (FAGLCreateMemoryRequest.Emotion Request) then None
     else Some (JString (FAGLCreateMemoryRequest.Emotion Request))) /\
  TryGetField o "context" =
    (if NonEmptyMap (FAGLCreateMemoryRequest.Context Request)
     then Some (JObject (MakeStringObject (FAGLCreateMemoryRequest.Context Request)))
     else None).
Proof.
  destruct Request as [ty content em ctx imp].
  destruct em, ctx; repeat apply conj; by_search_case.
Qed.

(** X4.  Encode, then decode: the object [SerializeCreateMemoryRequest]
    hands to the writer, given to [DeserializeMemory], yields a memory with
    the request's type, content, emotion and context (its keys pairwise
    distinct); id, player id and creation time are empty, as the payload
    carries none of them; the importance is what the host's int32
    conversion makes of the request's importance as a double. *)
Theorem create_memory_payload_decodes_back {host : Host}
  (Request : FAGLCreateMemoryRequest.t) :
  TMap_Distinct (FAGLCreateMemoryRequest.Context Request) = true ->
  let Memory :=
    UAGLMemoryService.DeserializeMemory
      (Some (UAGLMemoryService.SerializeCreateMemoryRequest_JsonObject Request)) in
  FAGLMemory.MemoryType Memory = FAGLCreateMemoryRequest.MemoryType Request /\
  FAGLMemory.Content Memory = FAGLCreateMemoryRequest.Content Request /\
  FAGLMemory.Emotion Memory = FAGLCreateMemoryRequest.Emotion Request /\
  FAGLMemory.Context Memory = FAGLCreateMemoryRequest.Context Request /\
  FAGLMemory.Id Memory = "" /\
  FAGLMemory.PlayerId Memory = "" /\
  FAGLMemory.CreatedAt Memory = "" /\
  FAGLMemory.Importance Memory =
    OutParam
      (TryGetNumber_int32
         (JNumber (double_of_int32 (FAGLCreateMemoryRequest.Importance Request))))
      0%Z.
Proof.
  intros Hd Memory. subst Memory.
  destruct (create_memory_payload_fields Request)
    as [Hid [Hpl [Hcr [Hco [Hty [Him [Hem Hcx]]]]]]].
  cbv zeta in *.
  unfold UAGLMemoryService.DeserializeMemory.
  cbn [FAGLMemory.MemoryType FAGLMemory.Content FAGLMemory.Emotion
       FAGLMemory.Context FAGLMemory.Id FAGLMemory.PlayerId
       FAGLMemory.CreatedAt FAGLMemory.Importance].
  unfold TryGetStringField, TryGetInt32Field, TryGetObjectField, TryGetTypedField.
  rewrite Hid, Hpl, Hcr, Hco, Hty, Him, Hem, Hcx.
  cbn [TryGetString OutParam FAGLMemory.Default FAGLMemory.Id
       FAGLMemory.PlayerId FAGLMemory.CreatedAt FAGLMemory.Content
       FAGLMemory.Importance FAGLMemory.Emotion FAGLMemory.Context].
  repeat apply conj; try reflexivity.
  - apply StringToMemoryType_MemoryTypeToString.
  - destruct (FAGLCreateMemoryRequest.Emotion Request); reflexivity.
  - destruct (FAGLCreateMemoryRequest.Context Request) as [|p l] eqn:E;
      [reflexivity|].
    cbn [NonEmptyMap TryGetObject]. rewrite (MakeStringObject_copy _ Hd).
    apply ParseContext_copy. exact Hd.
Qed.

(** *** Helper constructors and enumerations *)

(** X5.  The four helper constructors composed with the encoder: what
    [SerializeRequest] returns for the request of each is the writer's
    text of an object with the event's wire string, [force_ml] false, and
    a data object with exactly the helper's keys in the order they are
    added, booleans as the texts true and false, integers in decimal; no
    context is sent. *)
Theorem helper_request_payloads {host : Host}
  (FJsonSerializer_Serialize : FJsonObject -> string) :
  (forall (bIsMVP : bool) (WinStreak : Z),
     UAGLEmotionService.SerializeRequest FJsonSerializer_Serialize
       (UAGLEmotionService.CreateVictoryRequest bIsMVP WinStreak) =
     FJsonSerializer_Serialize
       [("type", JString "player.victory");
        ("force_ml", JBoolean false);
        ("data", JObject [("mvp", JString (if bIsMVP then "true" else "false"));
                          ("winStreak", JString (FString_FromInt WinStreak))])]) /\
  (forall LossStreak : Z,
     UAGLEmotionService.SerializeRequest FJsonSerializer_Serialize
       (UAGLEmotionService.CreateDefeatRequest LossStreak) =
     FJsonSerializer_Serialize
       [("type", JString "player.defeat");
        ("force_ml", JBoolean false);
        ("data", JObject [("lossStreak", JString (FString_FromInt LossStreak))])]) /\
  (forall Rarity : string,
     UAGLEmotionService.SerializeRequest FJsonSerializer_Serialize
       (UAGLEmotionService.CreateAchievementRequest Rarity) =
     FJsonSerializer_Serialize
       [("type", JString "player.achievement");
        ("force_ml", JBoolean false);
        ("data", JObject [("rarity", JString Rarity)])]) /\
  (forall (KillCount : Z) (bIsLegendary : bool),
     UAGLEmotionService.SerializeRequest FJsonSerializer_Serialize
       (UAGLEmotionService.CreateKillRequest KillCount bIsLegendary) =
     FJsonSerializer_Serialize
       [("type", JString "player.kill");
        ("force_ml", JBoolean false);
        ("data", JObject [("killCount", JString (FString_FromInt KillCount));
                          ("isLegendary",
                           JString (if bIsLegendary then "true" else "false"))])]).
Proof.
  unfold UAGLEmotionService.SerializeRequest.
  repeat apply conj.
  - intros [|] WinStreak; f_equal; by_search_case.
  - intros LossStreak; f_equal; by_search_case.
  - intros Rarity; f_equal; by_search_case.
  - intros KillCount [|]; f_equal; by_search_case.
Qed.

(** X6.  The emotion service and the dialogue service each have their
    own [EventTypeToString]; the two agree on every enumerator and on every
    value outside the enumeration. *)
Theorem EventTypeToString_copies_agree :
  (forall EventType : EAGLEventType.t,
     UAGLEmotionService.EventTypeToString EventType =
     UAGLDialogueService.EventTypeToString EventType) /\
  (forall b : Z,
     UAGLEmotionService.EventTypeToString_uint8 b =
     UAGLDialogueService.EventTypeToString_uint8 b).
Proof.
  assert (H : forall e, UAGLEmotionService.EventTypeToString e =
                        UAGLDialogueService.EventTypeToString e)
    by (intros []; reflexivity).
  split; [exact H|].
  intros b. unfold UAGLEmotionService.EventTypeToString_uint8,
    UAGLDialogueService.EventTypeToString_uint8.
  destruct (EAGLEventType.of_uint8 b); [apply H | reflexivity].
Qed.

(** X7.  Two different enumerators never share a wire string, not even
    when strings are compared ignoring case: this holds for event types,
    emotions, personas and memory types. *)
Theorem wire_strings_distinct {host : Host} :
  (forall a b : EAGLEventType.t, a <> b ->
     FString_eq (UAGLDialogueService.EventTypeToString a)
       (UAGLDialogueService.EventTypeToString b) = false) /\
  (forall a b : EAGLEmotionType.t, a <> b ->
     FString_eq (UAGLDialogueService.EmotionTypeToString a)
       (UAGLDialogueService.EmotionTypeToString b) = false) /\
  (forall a b : EAGLPersona.t, a <> b ->
     FString_eq (UAGLDialogueService.PersonaToString a)
       (UAGLDialogueService.PersonaToString b) = false) /\
  (forall a b : EAGLMemoryType.t, a <> b ->
     FString_eq (UAGLMemoryService.MemoryTypeToString a)
       (UAGLMemoryService.MemoryTypeToString b) = false).
Proof.
  unfold FString_eq.
  repeat apply conj; intros a b H;
    destruct SearchCase; destruct a, b; cbn;
    solve [reflexivity | now destruct H].
Qed.

Lemma of_uint8_range {A : Type} (all : list A) (b : Z) :
  (if (b <? 0)%Z then None else nth_error all (Z.to_nat b)) = None <->
  ~ (0 <= b < Z.of_nat (length all))%Z.
Proof.
  destruct (b <? 0)%Z eqn:E.
  - apply Z.ltb_lt in E. split; [lia | reflexivity].
  - apply Z.ltb_ge in E. rewrite nth_error_None. lia.
Qed.

(** X8.  The [default:] branches of the encoders.  An event type encodes
    as the text unknown exactly when its value is outside the enumeration;
    an emotion, a persona and a memory type outside their enumerations
    encode as neutral, cheerful and event are encoded. *)
Theorem encoder_default_branches :
  (forall b : Z,
     UAGLDialogueService.EventTypeToString_uint8 b = "unknown" <->
     ~ (0 <= b < 9)%Z) /\
  (forall b : Z, ~ (0 <= b < 14)%Z ->
     UAGLDialogueService.EmotionTypeToString_uint8 b =
     UAGLDialogueService.EmotionTypeToString EAGLEmotionType.Neutral) /\
  (forall b : Z, ~ (0 <= b < 3)%Z ->
     UAGLDialogueService.PersonaToString_uint8 b =
     UAGLDialogueService.PersonaToString EAGLPersona.Cheerful) /\
  (forall b : Z, ~ (0 <= b < 7)%Z ->
     UAGLMemoryService.MemoryTypeToString_uint8 b =
     UAGLMemoryService.MemoryTypeToString EAGLMemoryType.Event).
Proof.
  repeat apply conj.
  - intros b. unfold UAGLDialogueService.EventTypeToString_uint8.
    pose proof (of_uint8_range EAGLEventType.all b) as Hr.
    unfold EAGLEventType.of_uint8.
    destruct (if (b <? 0)%Z then None else nth_error EAGLEventType.all (Z.to_nat b))
      as [e|] eqn:E.
    + split.
      * destruct e; discriminate.
      * intros Hout. apply Hr in Hout. discriminate Hout.
    + split; [intros _; now apply Hr | reflexivity].
  - intros b Hout. unfold UAGLDialogueService.EmotionTypeToString_uint8,
      EAGLEmotionType.of_uint8.
    now rewrite (proj2 (of_uint8_range EAGLEmotionType.all b) Hout).
  - intros b Hout. unfold UAGLDialogueService.PersonaToString_uint8,
      EAGLPersona.of_uint8.
    now rewrite (proj2 (of_uint8_range EAGLPersona.all b) Hout).
  - intros b Hout. unfold UAGLMemoryService.MemoryTypeToString_uint8,
      EAGLMemoryType.of_uint8.
    now rewrite (proj2 (of_uint8_range EAGLMemoryType.all b) Hout).
Qed.

Lemma DeserializeMemory_same_fields {host : Host} (o o' : FJsonObject) :
  (forall Key, In Key MemoryKeys -> TryGetField o' Key = TryGetField o Key) ->
  UAGLMemoryService.DeserializeMemory (Some o') =
  UAGLMemoryService.DeserializeMemory (Some o).
Proof.
  intros H. unfold UAGLMemoryService.DeserializeMemory,
    TryGetStringField, TryGetInt32Field, TryGetObjectField, TryGetTypedField.
  rewrite !H by (cbn; tauto). reflexivity.
Qed.

(** X9.  [DeserializeMemory] reads eight keys and nothing else: setting
    any other key of the object to any value does not change the memory it
    returns. *)
Theorem DeserializeMemory_ignores_other_fields {host : Host}
  (JsonObject : FJsonObject) (Key : string) (v : FJsonValue) :
  (forall Known, In Known MemoryKeys -> FString_eq Key Known = false) ->
  UAGLMemoryService.DeserializeMemory (Some (SetField JsonObject Key v)) =
  UAGLMemoryService.DeserializeMemory (Some JsonObject).
Proof.
  intros Hother. apply DeserializeMemory_same_fields.
  intros Known HK. unfold TryGetField, SetField.
  apply TMap_Find_Add_other. now apply Hother.
Qed.

(** X10.  The two response decoders read only their own keys: a body
    whose document differs from another's in a key the decoder does not
    ask for decodes to the same response. *)
Theorem responses_ignore_other_fields {host : Host}
  (Body Body' : string) (JsonObject : FJsonObject) (Key : string)
  (v : FJsonValue) :
  FJsonSerializer_Deserialize Body = (true, Some JsonObject) ->
  FJsonSerializer_Deserialize Body' = (true, Some (SetField JsonObject Key v)) ->
  ((forall Known, In Known DialogueKeys -> FString_eq Key Known = false) ->
   UAGLDialogueService.DeserializeResponse Body' =
   UAGLDialogueService.DeserializeResponse Body) /\
  ((forall Known, In Known EmotionKeys -> FString_eq Key Known = false) ->
   UAGLEmotionService.DeserializeResponse Body' =
   UAGLEmotionService.DeserializeResponse Body).
Proof.
  intros Hb Hb'. split; intros Hother.
  - unfold UAGLDialogueService.DeserializeResponse. rewrite Hb, Hb'.
    unfold TryGetStringField, TryGetInt32Field, TryGetFloatField,
      TryGetBoolField, TryGetArrayField, TryGetTypedField, TryGetField, SetField.
    rewrite !TMap_Find_Add_other by (apply Hother; cbn; tauto). reflexivity.
  - unfold UAGLEmotionService.DeserializeResponse. rewrite Hb, Hb'.
    unfold TryGetStringField, TryGetInt32Field, TryGetFloatField,
      TryGetBoolField, TryGetTypedField, TryGetField, SetField.
    rewrite !TMap_Find_Add_other by (apply Hother; cbn; tauto). reflexivity.
Qed.

(** The list loops: an element is appended behind those already there. *)
Lemma fold_append_flat_map {A B C : Type} (get : A -> option B) (make : B -> C)
  (a : list A) :
  forall acc : list C,
    fold_left
      (fun acc v => match get v with
                    | Some x => (acc ++ [make x])%list
                    | None => acc
                    end) a acc =
    (acc ++ map make
       (flat_map (fun v => match get v with Some x => [x] | None => [] end) a))%list.
Proof.
  induction a as [|v a IH]; intros acc; cbn.
  - now rewrite app_nil_r.
  - rewrite IH. destruct (get v); cbn; [|reflexivity].
    now rewrite <- app_assoc.
Qed.

Lemma ObjectsOf_length {host : Host} (a : list FJsonValue) :
  (length (ObjectsOf a) <= length a)%nat.
Proof.
  unfold ObjectsOf. induction a as [|v a IH]; cbn [flat_map length]; [lia|].
  rewrite length_app. destruct (TryGetObject v); cbn [length]; lia.
Qed.

Lemma ObjectsOf_objects {host : Host} (objects : list FJsonObject) :
  ObjectsOf (map JObject objects) = objects.
Proof.
  unfold ObjectsOf. induction objects as [|o l IH]; [reflexivity|].
  cbn [map flat_map TryGetObject app]. now rewrite IH.
Qed.

(** X11.  [DeserializeMemories] on a body the reader accepts: an array
    under the key memories gives one memory per element that is an object,
    in the array's order, other elements being skipped, so never more
    memories than elements; an array of objects only gives one memory per
    element; no such key, or a value that is no array, gives the empty
    list. *)
Theorem DeserializeMemories_elements {host : Host} (JsonString : string)
  (JsonObject : FJsonObject) :
  FJsonSerializer_Deserialize JsonString = (true, Some JsonObject) ->
  let Memories := UAGLMemoryService.DeserializeMemories JsonString in
  (forall a : list FJsonValue,
     TryGetField JsonObject "memories" = Some (JArray a) ->
     Memories =
       map (fun o => UAGLMemoryService.DeserializeMemory (Some o)) (ObjectsOf a) /\
     (length Memories <= length a)%nat) /\
  (forall objects : list FJsonObject,
     TryGetField JsonObject "memories" = Some (JArray (map JObject objects)) ->
     Memories =
       map (fun o => UAGLMemoryService.DeserializeMemory (Some o)) objects) /\
  (TryGetField JsonObject "memories" = None -> Memories = []) /\
  (forall v : FJsonValue,
     TryGetField JsonObject "memories" = Some v ->
     (forall a, v <> JArray a) -> Memories = []).
Proof.
  intros Hparse Memories. subst Memories.
  unfold UAGLMemoryService.DeserializeMemories. rewrite Hparse.
  unfold TryGetArrayField, TryGetTypedField.
  assert (Hfold : forall a,
            fold_left
              (fun Memories MemoryValue =>
                 match TryGetObject MemoryValue with
                 | Some MemoryObject =>
                     let Memory :=
                       UAGLMemoryService.DeserializeMemory (Some MemoryObject) in
                     (Memories ++ [Memory])%list
                 | None => Memories
                 end) a [] =
            map (fun o => UAGLMemoryService.DeserializeMemory (Some o))
              (ObjectsOf a))
    by (intros a; apply (fold_append_flat_map TryGetObject
                          (fun o => UAGLMemoryService.DeserializeMemory (Some o))
                          a [])).
  repeat apply conj.
  - intros a ->. cbn [TryGetArray]. rewrite Hfold. split; [reflexivity|].
    rewrite length_map. apply ObjectsOf_length.
  - intros objects ->. cbn [TryGetArray].
    now rewrite Hfold, ObjectsOf_objects.
  - intros ->. reflexivity.
  - intros v -> Hv. destruct v; try reflexivity. now destruct (Hv Value).
Qed.

Lemma DeserializeSearchResults_array {host : Host} (JsonString : string)
  (JsonObject : FJsonObject) (a : list FJsonValue) :
  FJsonSerializer_Deserialize JsonString = (true, Some JsonObject) ->
  TryGetField JsonObject "results" = Some (JArray a) ->
  UAGLMemoryService.DeserializeSearchResults JsonString =
  map SearchResultOf (ObjectsOf a).
Proof.
  intros Hparse Ha.
  unfold UAGLMemoryService.DeserializeSearchResults. rewrite Hparse.
  unfold TryGetArrayField at 1. unfold TryGetTypedField at 1.
  rewrite Ha. cbn [TryGetArray].
  apply (fold_append_flat_map TryGetObject SearchResultOf a []).
Qed.

(** X12.  [DeserializeSearchResults] on a body the reader accepts: one
    result per element of the array under the key results that is an
    object, in order, never more results than elements; a result object
    with neither a memory nor a score gives the default result; no such
    key, or a value that is no array, gives the empty list. *)
Theorem DeserializeSearchResults_elements {host : Host} (JsonString : string)
  (JsonObject : FJsonObject) :
  FJsonSerializer_Deserialize JsonString = (true, Some JsonObject) ->
  let Results := UAGLMemoryService.DeserializeSearchResults JsonString in
  (forall a : list FJsonValue,
     TryGetField JsonObject "results" = Some (JArray a) ->
     Results = map SearchResultOf (ObjectsOf a) /\
     (length Results <= length a)%nat) /\
  (forall ResultObject : FJsonObject,
     TryGetField ResultObject "memory" = None ->
     TryGetField ResultObject "similarityScore" = None ->
     SearchResultOf ResultObject = FAGLMemorySearchResult.Default) /\
  (TryGetField JsonObject "results" = None -> Results = []) /\
  (forall v : FJsonValue,
     TryGetField JsonObject "results" = Some v ->
     (forall a, v <> JArray a) -> Results = []).
Proof.
  intros Hparse Results.
  repeat apply conj.
  - intros a Ha. subst Results.
    rewrite (DeserializeSearchResults_array _ _ a Hparse Ha).
    split; [reflexivity|]. rewrite length_map. apply ObjectsOf_length.
  - intros ResultObject Hm Hs. unfold SearchResultOf,
      TryGetObjectField, TryGetFloatField, TryGetTypedField.
    now rewrite Hm, Hs.
  - intros Hnone. subst Results.
    unfold UAGLMemoryService.DeserializeSearchResults. rewrite Hparse.
    unfold TryGetArrayField at 1. unfold TryGetTypedField at 1.
    now rewrite Hnone.
  - intros v Hv Hna. subst Results.
    unfold UAGLMemoryService.DeserializeSearchResults. rewrite Hparse.
    unfold TryGetArrayField at 1. unfold TryGetTypedField at 1.
    rewrite Hv. destruct v; try reflexivity. now destruct (Hna Value).
Qed.

(** X13.  The emotion of a decoded emotion response is what
    [StringToEmotionType] makes of the text [TryGetString] reads from the
    field "emotion", be the value a string or a number or boolean that
    [TryGetString] turns into text.  So the wire string of an emotion
    decodes to that emotion; a text that [operator==] finds equal to no
    wire string decodes to neutral; and where [operator==] ignores letter
    case, a text whose lower-case form is a wire string decodes to the
    emotion of that wire string. *)
Theorem emotion_field_decoding {host : Host} (JsonString : string)
  (JsonObject : FJsonObject) :
  FJsonSerializer_Deserialize JsonString = (true, Some JsonObject) ->
  let Emotion :=
    FAGLEmotionResponse.Emotion
      (UAGLEmotionService.DeserializeResponse JsonString) in
  (forall (v : FJsonValue) (EmotionString : string),
     TryGetField JsonObject "emotion" = Some v ->
     TryGetString v = Some EmotionString ->
     Emotion = UAGLEmotionService.StringToEmotionType EmotionString) /\
  (forall e : EAGLEmotionType.t,
     TryGetField JsonObject "emotion" =
       Some (JString (UAGLDialogueService.EmotionTypeToString e)) ->
     Emotion = e) /\
  (forall (v : FJsonValue) (EmotionString : string),
     TryGetField JsonObject "emotion" = Some v ->
     TryGetString v = Some EmotionString ->
     InWireTable EmotionString EmotionWireStrings = false ->
     Emotion = EAGLEmotionType.Neutral) /\
  (SearchCase = IgnoreCase ->
   forall (v : FJsonValue) (EmotionString : string) (e : EAGLEmotionType.t),
     TryGetField JsonObject "emotion" = Some v ->
     TryGetString v = Some EmotionString ->
     FString_ToLower EmotionString = UAGLDialogueService.EmotionTypeToString e ->
     Emotion = e).
Proof.
  intros Hparse Emotion. subst Emotion.
  unfold UAGLEmotionService.DeserializeResponse. rewrite Hparse.
  cbn [FAGLEmotionResponse.Emotion].
  unfold TryGetStringField, TryGetTypedField.
  repeat apply conj.
  - intros v s -> Hv. now rewrite Hv.
  - intros e ->. cbn [TryGetString].
    apply StringToEmotionType_EmotionTypeToString.
  - intros v s -> Hv Hs. rewrite Hv. now apply StringToEmotionType_miss.
  - intros Hmode v s e -> Hv Hs. rewrite Hv.
    now apply StringToEmotionType_up_to_case.
Qed.

Lemma no_field_no_answer {host : Host} {A : Type}
  (get : FJsonValue -> option A) (o : FJsonObject) (Key : string) :
  TryGetField o Key = None -> TryGetTypedField get o Key = None.
Proof. intros H. unfold TryGetTypedField. now rewrite H. Qed.

(** X14.  A document with none of the keys a decoder asks for, such as
    an error document, decodes to the default value of the type: for
    memories, dialogue responses and emotion responses. *)
Theorem object_without_known_fields_decodes_to_default {host : Host} :
  (forall JsonObject : FJsonObject,
     (forall Key, In Key MemoryKeys -> TryGetField JsonObject Key = None) ->
     UAGLMemoryService.DeserializeMemory (Some JsonObject) = FAGLMemory.Default) /\
  (forall (JsonString : string) (JsonObject : FJsonObject),
     FJsonSerializer_Deserialize JsonString = (true, Some JsonObject) ->
     (forall Key, In Key DialogueKeys -> TryGetField JsonObject Key = None) ->
     UAGLDialogueService.DeserializeResponse JsonString =
     FAGLDialogueResponse.Default) /\
  (forall (JsonString : string) (JsonObject : FJsonObject),
     FJsonSerializer_Deserialize JsonString = (true, Some JsonObject) ->
     (forall Key, In Key EmotionKeys -> TryGetField JsonObject Key = None) ->
     UAGLEmotionService.DeserializeResponse JsonString =
     FAGLEmotionResponse.Default).
Proof.
  repeat apply conj.
  - intros o H. unfold UAGLMemoryService.DeserializeMemory,
      TryGetStringField, TryGetInt32Field, TryGetObjectField.
    rewrite !no_field_no_answer by (apply H; cbn; tauto). reflexivity.
  - intros body o Hparse H. unfold UAGLDialogueService.DeserializeResponse.
    rewrite Hparse.
    unfold TryGetStringField, TryGetInt32Field, TryGetFloatField,
      TryGetBoolField, TryGetArrayField.
    rewrite !no_field_no_answer by (apply H; cbn; tauto). reflexivity.
  - intros body o Hparse H. unfold UAGLEmotionService.DeserializeResponse.
    rewrite Hparse.
    unfold TryGetStringField, TryGetInt32Field, TryGetFloatField,
      TryGetBoolField.
    rewrite !no_field_no_answer by (apply H; cbn; tauto). reflexivity.
Qed.

(** *** Completion handlers and requests *)

(** X15.  The success path of the six completion handlers: on code 200
    each of the five that report whatever the decoder returns calls its
    delegate with true and the decoded body; [CreateMemory] does so on 200
    and on 201, provided the reader accepts the body. *)
Theorem success_reports_true_and_decoded {host : Host} (W : Type)
  (Response : FHttpResponse) (w : W) :
  (GetResponseCode Response = 200%Z ->
   (forall OnComplete,
      UAGLEmotionService.AnalyzeEmotion_OnProcessRequestComplete W OnComplete
        (Some Response) true w =
      ExecuteIfBound OnComplete true
        (UAGLEmotionService.DeserializeResponse (GetContentAsString Response)) w) /\
   (forall OnComplete,
      UAGLDialogueService.GenerateDialogue_OnProcessRequestComplete W OnComplete
        (Some Response) true w =
      ExecuteIfBound OnComplete true
        (UAGLDialogueService.DeserializeResponse (GetContentAsString Response)) w) /\
   (forall OnComplete,
      UAGLMemoryService.SearchMemories_OnProcessRequestComplete W OnComplete
        (Some Response) true w =
      ExecuteIfBound OnComplete true
        (UAGLMemoryService.DeserializeSearchResults (GetContentAsString Response))
        w) /\
   (forall OnComplete,
      UAGLMemoryService.GetContext_OnProcessRequestComplete W OnComplete
        (Some Response) true w =
      ExecuteIfBound OnComplete true
        (UAGLMemoryService.DeserializeMemories (GetContentAsString Response)) w) /\
   (forall OnComplete,
      UAGLMemoryService.GetMemories_OnProcessRequestComplete W OnComplete
        (Some Response) true w =
      ExecuteIfBound OnComplete true
        (UAGLMemoryService.DeserializeMemories (GetContentAsString Response)) w)) /\
  (forall JsonObject : FJsonObject,
     GetResponseCode Response = 200%Z \/ GetResponseCode Response = 201%Z ->
     FJsonSerializer_Deserialize (GetContentAsString Response) =
       (true, Some JsonObject) ->
     forall OnComplete,
       UAGLMemoryService.CreateMemory_OnProcessRequestComplete W OnComplete
         (Some Response) true w =
       ExecuteIfBound OnComplete true
         (UAGLMemoryService.DeserializeMemory (Some JsonObject)) w).
Proof.
  unfold UAGLEmotionService.AnalyzeEmotion_OnProcessRequestComplete,
    UAGLDialogueService.GenerateDialogue_OnProcessRequestComplete,
    UAGLMemoryService.SearchMemories_OnProcessRequestComplete,
    UAGLMemoryService.GetContext_OnProcessRequestComplete,
    UAGLMemoryService.GetMemories_OnProcessRequestComplete,
    UAGLMemoryService.CreateMemory_OnProcessRequestComplete,
    UAGLEmotionService.HandleEmotionResponse,
    UAGLDialogueService.HandleDialogueResponse,
    UAGLMemoryService.HandleSearchMemoriesResponse,
    UAGLMemoryService.HandleGetMemoriesResponse,
    UAGLMemoryService.HandleCreateMemoryResponse.
  split.
  - intros ->. cbn [Z.eqb Pos.eqb negb]. repeat split.
  - intros JsonObject Hcode Hparse OnComplete.
    assert (Hguard : negb (GetResponseCode Response =? 200)%Z
                     && negb (GetResponseCode Response =? 201)%Z = false)
      by (destruct Hcode as [-> | ->]; reflexivity).
    now rewrite Hguard, Hparse.
Qed.

(** X16.  Every completion handler is one call of its delegate, for
    every outcome of the transport: the flag it passes is true exactly
    when the transport reports success, a response is there and its code
    is 200 (for [CreateMemory] 200 or 201 and a body the reader accepts);
    a handler whose delegate is unbound does nothing. *)
Theorem handlers_call_exactly_once {host : Host} (W : Type)
  (Response : FHttpResponsePtr) (bWasSuccessful : bool) :
  (exists r, forall OnComplete (w : W),
     UAGLEmotionService.HandleEmotionResponse W Response bWasSuccessful
       OnComplete w =
     ExecuteIfBound OnComplete (Accepted [200%Z] Response bWasSuccessful) r w) /\
  (exists r, forall OnComplete (w : W),
     UAGLDialogueService.HandleDialogueResponse W Response bWasSuccessful
       OnComplete w =
     ExecuteIfBound OnComplete (Accepted [200%Z] Response bWasSuccessful) r w) /\
  (exists r, forall OnComplete (w : W),
     UAGLMemoryService.HandleSearchMemoriesResponse W Response bWasSuccessful
       OnComplete w =
     ExecuteIfBound OnComplete (Accepted [200%Z] Response bWasSuccessful) r w) /\
  (exists r, forall OnComplete (w : W),
     UAGLMemoryService.HandleGetMemoriesResponse W Response bWasSuccessful
       OnComplete w =
     ExecuteIfBound OnComplete (Accepted [200%Z] Response bWasSuccessful) r w) /\
  (exists r, forall OnComplete (w : W),
     UAGLMemoryService.HandleCreateMemoryResponse W Response bWasSuccessful
       OnComplete w =
     ExecuteIfBound OnComplete
       (Accepted [200%Z; 201%Z] Response bWasSuccessful &&
        match Response with
        | Some r => negb (ParseFailed (GetContentAsString r))
        | None => false
        end) r w) /\
  (forall w : W,
     UAGLEmotionService.HandleEmotionResponse W Response bWasSuccessful None w = w /\
     UAGLDialogueService.HandleDialogueResponse W Response bWasSuccessful None w = w /\
     UAGLMemoryService.HandleSearchMemoriesResponse W Response bWasSuccessful None w = w /\
     UAGLMemoryService.HandleGetMemoriesResponse W Response bWasSuccessful None w = w /\
     UAGLMemoryService.HandleCreateMemoryResponse W Response bWasSuccessful None w = w).
Proof.
  unfold UAGLEmotionService.HandleEmotionResponse,
    UAGLDialogueService.HandleDialogueResponse,
    UAGLMemoryService.HandleSearchMemoriesResponse,
    UAGLMemoryService.HandleGetMemoriesResponse,
    UAGLMemoryService.HandleCreateMemoryResponse, Accepted, ParseFailed.
  destruct bWasSuccessful, Response as [r|]; cbn [andb existsb orb];
    rewrite ?orb_false_r.
  2-4: repeat apply conj; try (eexists; intros; reflexivity);
       intros; repeat split.
  destruct (GetResponseCode r =? 200)%Z eqn:E200; cbn [negb andb orb].
  - repeat apply conj; try (eexists; intros; reflexivity).
    + destruct (FJsonSerializer_Deserialize (GetContentAsString r))
        as [[|] [o|]]; eexists; intros; reflexivity.
    + intros w. repeat split.
      destruct (FJsonSerializer_Deserialize (GetContentAsString r))
        as [[|] [o|]]; reflexivity.
  - repeat apply conj; try (eexists; intros; reflexivity).
    + destruct (GetResponseCode r =? 201)%Z; cbn [negb andb];
        [|eexists; intros; reflexivity].
      destruct (FJsonSerializer_Deserialize (GetContentAsString r))
        as [[|] [o|]]; eexists; intros; reflexivity.
    + intros w. repeat split.
      destruct (GetResponseCode r =? 201)%Z; cbn [negb]; [|reflexivity].
      destruct (FJsonSerializer_Deserialize (GetContentAsString r))
        as [[|] [o|]]; reflexivity.
Qed.


Lemma prefix_app (a b : string) : String.prefix a (a ++ b) = true.
Proof.
  induction a as [|c a IH]; cbn.
  - now destruct b.
  - destruct (ascii_dec c c); [exact IH | contradiction].
Qed.

Lemma two_headers {host : Host} (ApiKey : string) :
  TMap_Add (TMap_Add [] "Content-Type" "application/json") "X-API-Key" ApiKey =
  [("Content-Type", "application/json"); ("X-API-Key", ApiKey)].
Proof. by_search_case. Qed.

(** X17.  Every request the three services build carries exactly the
    headers Content-Type and X-API-Key with the service's key, the
    service's timeout and a URL that starts with the service's URL; the
    five that send a payload are POSTs whose content is the writer's text
    of the encoder's object; [GetMemories] is a GET without content. *)
Theorem requests_carry_headers_and_timeout {host : Host}
  (Serialize : FJsonObject -> string) :
  (forall self Request,
     let req := UAGLEmotionService.AnalyzeEmotion_HttpRequest Serialize self Request in
     JsonRequest (UAGLEmotionService.ServiceUrl self)
       (UAGLEmotionService.ApiKey self) (UAGLEmotionService.Timeout self) req /\
     Verb req = "POST" /\
     Content req =
       Serialize (UAGLEmotionService.SerializeRequest_JsonObject Request)) /\
  (forall self Request,
     let req :=
       UAGLDialogueService.GenerateDialogue_HttpRequest Serialize self Request in
     JsonRequest (UAGLDialogueService.ServiceUrl self)
       (UAGLDialogueService.ApiKey self) (UAGLDialogueService.Timeout self) req /\
     Verb req = "POST" /\
     Content req =
       Serialize (UAGLDialogueService.SerializeRequest_JsonObject Request)) /\
  (forall self PlayerId Request,
     let req :=
       UAGLMemoryService.CreateMemory_HttpRequest Serialize self PlayerId Request in
     JsonRequest (UAGLMemoryService.ServiceUrl self)
       (UAGLMemoryService.ApiKey self) (UAGLMemoryService.Timeout self) req /\
     Verb req = "POST" /\
     Content req =
       Serialize (UAGLMemoryService.SerializeCreateMemoryRequest_JsonObject Request)) /\
  (forall self PlayerId Request,
     let req :=
       UAGLMemoryService.SearchMemories_HttpRequest Serialize self PlayerId Request in
     JsonRequest (UAGLMemoryService.ServiceUrl self)
       (UAGLMemoryService.ApiKey self) (UAGLMemoryService.Timeout self) req /\
     Verb req = "POST" /\
     Content req =
       Serialize (UAGLMemoryService.SerializeSearchRequest_JsonObject Request)) /\
  (forall self PlayerId Request,
     let req :=
       UAGLMemoryService.GetContext_HttpRequest Serialize self PlayerId Request in
     JsonRequest (UAGLMemoryService.ServiceUrl self)
       (UAGLMemoryService.ApiKey self) (UAGLMemoryService.Timeout self) req /\
     Verb req = "POST" /\
     Content req =
       Serialize (UAGLMemoryService.SerializeContextRequest_JsonObject Request)) /\
  (forall self PlayerId Limit Offset,
     let req := UAGLMemoryService.GetMemories_HttpRequest self PlayerId Limit Offset in
     JsonRequest (UAGLMemoryService.ServiceUrl self)
       (UAGLMemoryService.ApiKey self) (UAGLMemoryService.Timeout self) req /\
     Verb req = "GET" /\
     Content req = "").
Proof.
  unfold JsonRequest.
  repeat apply conj; intros; cbv zeta;
    unfold UAGLEmotionService.AnalyzeEmotion_HttpRequest,
      UAGLDialogueService.GenerateDialogue_HttpRequest,
      UAGLMemoryService.CreateMemory_HttpRequest,
      UAGLMemoryService.SearchMemories_HttpRequest,
      UAGLMemoryService.GetContext_HttpRequest,
      UAGLMemoryService.GetMemories_HttpRequest,
      UAGLMemoryService.JsonHeaders;
    cbn [Headers RequestTimeout URL Verb Content];
    repeat apply conj;
    solve [reflexivity | apply two_headers | apply prefix_app].
Qed.

(** *** More on the facade *)

(** X18.  [Initialize] with a key: the client is initialized, holds the
    configuration, and each service has its URL from the configuration
    with the configuration's key and timeout; player and game id stay;
    and what an earlier [Initialize] left is overridden entirely. *)
Theorem Initialize_with_key (InConfig : FAGLConfig.t) (self : UAGLClient.t) :
  FAGLConfig.ApiKey InConfig <> "" ->
  let self' := UAGLClient.Initialize InConfig self in
  UAGLClient.IsInitialized self' = true /\
  UAGLClient.GetConfig self' = InConfig /\
  UAGLClient.GetEmotionService self' =
    Some {| UAGLEmotionService.ServiceUrl := FAGLConfig.EmotionServiceUrl InConfig;
            UAGLEmotionService.ApiKey := FAGLConfig.ApiKey InConfig;
            UAGLEmotionService.Timeout := FAGLConfig.Timeout InConfig |} /\
  UAGLClient.GetDialogueService self' =
    Some {| UAGLDialogueService.ServiceUrl := FAGLConfig.DialogueServiceUrl InConfig;
            UAGLDialogueService.ApiKey := FAGLConfig.ApiKey InConfig;
            UAGLDialogueService.Timeout := FAGLConfig.Timeout InConfig |} /\
  UAGLClient.GetMemoryService self' =
    Some {| UAGLMemoryService.ServiceUrl := FAGLConfig.MemoryServiceUrl InConfig;
            UAGLMemoryService.ApiKey := FAGLConfig.ApiKey InConfig;
            UAGLMemoryService.Timeout := FAGLConfig.Timeout InConfig |} /\
  UAGLClient.GetPlayerId self' = UAGLClient.GetPlayerId self /\
  UAGLClient.GetGameId self' = UAGLClient.GetGameId self /\
  forall Earlier : FAGLConfig.t,
    UAGLClient.Initialize InConfig (UAGLClient.Initialize Earlier self) = self'.
Proof.
  intros Hkey. unfold UAGLClient.Initialize. cbn [UAGLClient.Config].
  destruct (FAGLConfig.ApiKey InConfig) as [|c k] eqn:E; [congruence|].
  cbn [IsEmpty]. repeat apply conj; try reflexivity.
  intros Earlier. destruct (IsEmpty (FAGLConfig.ApiKey Earlier)); reflexivity.
Qed.

(** X19.  [Initialize] without a key after one with a key: the client
    stays initialized and its services keep the first key, while the
    configuration it reports is the second, so the reported configuration
    and the services disagree about the key. *)
Theorem Initialize_keyless_after_success (First Second : FAGLConfig.t)
  (self : UAGLClient.t) :
  FAGLConfig.ApiKey First <> "" ->
  FAGLConfig.ApiKey Second = "" ->
  let self' := UAGLClient.Initialize Second (UAGLClient.Initialize First self) in
  UAGLClient.IsInitialized self' = true /\
  UAGLClient.GetConfig self' = Second /\
  UAGLClient.GetEmotionService self' =
    UAGLClient.GetEmotionService (UAGLClient.Initialize First self) /\
  UAGLClient.GetDialogueService self' =
    UAGLClient.GetDialogueService (UAGLClient.Initialize First self) /\
  UAGLClient.GetMemoryService self' =
    UAGLClient.GetMemoryService (UAGLClient.Initialize First self) /\
  option_map UAGLEmotionService.ApiKey (UAGLClient.GetEmotionService self') =
    Some (FAGLConfig.ApiKey First) /\
  option_map UAGLEmotionService.ApiKey (UAGLClient.GetEmotionService self') <>
    Some (FAGLConfig.ApiKey (UAGLClient.GetConfig self')).
Proof.
  intros H1 H2. unfold UAGLClient.Initialize. cbn [UAGLClient.Config].
  rewrite H2.
  destruct (FAGLConfig.ApiKey First) as [|c k] eqn:E; [congruence|].
  cbn. rewrite H2. repeat apply conj; try reflexivity.
  intros H. discriminate H.
Qed.

(** X20.  [SetPlayerId] and [SetGameId]: the getter returns what was
    set, the last value wins, the two setters commute and leave each
    other's member and the initialized flag alone, and they commute with
    [Initialize]. *)
Theorem setters_store_and_commute (a b : string) (self : UAGLClient.t) :
  UAGLClient.GetPlayerId (UAGLClient.SetPlayerId a self) = a /\
  UAGLClient.GetGameId (UAGLClient.SetGameId a self) = a /\
  UAGLClient.SetPlayerId a (UAGLClient.SetPlayerId b self) =
    UAGLClient.SetPlayerId a self /\
  UAGLClient.SetGameId a (UAGLClient.SetGameId b self) =
    UAGLClient.SetGameId a self /\
  UAGLClient.SetPlayerId a (UAGLClient.SetGameId b self) =
    UAGLClient.SetGameId b (UAGLClient.SetPlayerId a self) /\
  UAGLClient.GetGameId (UAGLClient.SetPlayerId a self) = UAGLClient.GetGameId self /\
  UAGLClient.GetPlayerId (UAGLClient.SetGameId a self) = UAGLClient.GetPlayerId self /\
  UAGLClient.IsInitialized (UAGLClient.SetPlayerId a self) =
    UAGLClient.IsInitialized self /\
  UAGLClient.IsInitialized (UAGLClient.SetGameId a self) =
    UAGLClient.IsInitialized self /\
  (forall InConfig : FAGLConfig.t,
     UAGLClient.Initialize InConfig (UAGLClient.SetPlayerId a self) =
     UAGLClient.SetPlayerId a (UAGLClient.Initialize InConfig self) /\
     UAGLClient.Initialize InConfig (UAGLClient.SetGameId a self) =
     UAGLClient.SetGameId a (UAGLClient.Initialize InConfig self)).
Proof.
  repeat apply conj; try reflexivity.
  intros InConfig. unfold UAGLClient.Initialize. cbn [UAGLClient.Config].
  destruct (IsEmpty (FAGLConfig.ApiKey InConfig)); split; reflexivity.
Qed.

(** *** The capture actor *)

Import AAGLVisionCapture.

(** X21.  [StartCapture] and [StopCapture]: afterwards the actor is,
    respectively is not, capturing; each is idempotent and does nothing
    on an actor already in that state; a start from rest resets the
    accumulated time, a stop keeps it; neither touches the render
    target. *)
Theorem StartCapture_StopCapture (self : AAGLVisionCapture.t) :
  IsCapturing (StartCapture self) = true /\
  IsCapturing (StopCapture self) = false /\
  StartCapture (StartCapture self) = StartCapture self /\
  StopCapture (StopCapture self) = StopCapture self /\
  (IsCapturing self = true -> StartCapture self = self) /\
  (IsCapturing self = false -> StopCapture self = self) /\
  (IsCapturing self = false -> TimeAccumulator (StartCapture self) = 0%float) /\
  TimeAccumulator (StopCapture self) = TimeAccumulator self /\
  RenderTarget (StartCapture self) = RenderTarget self /\
  RenderTarget (StopCapture self) = RenderTarget self.
Proof.
  unfold IsCapturing, StartCapture, StopCapture.
  destruct self as [w h q i au dbg rt [|] acc]; cbn;
    repeat apply conj; intros; try reflexivity; try discriminate.
Qed.

(** X22.  [PerformCapture] hands a text to [window.CaptureScreen]
    exactly when the render target exists, world, viewport and render
    target resource are there, the pixels are read, the image wrapper is
    valid and accepts the raw buffer (whose size is four bytes a pixel),
    the compressed data is not empty, the build is for HTML5 and the page
    defines the function; the text is then the Base64 of the compressed
    data. *)
Theorem PerformCapture_sends_iff {vision : VisionHost}
  (self : AAGLVisionCapture.t) (frame : EngineFrame) (text : string) :
  PerformCapture self frame = Some text <->
  RenderTarget self <> None /\
  World frame = true /\ ViewportClient frame = true /\
  RenderTargetResource frame = true /\
  fst (ReadPixels frame) = true /\
  PLATFORM_HTML5 = true /\ window_CaptureScreen frame = true /\
  exists Wrapper,
    ImageWrapper frame = Some Wrapper /\
    let OutBMP := snd (ReadPixels frame) in
    SetRaw Wrapper OutBMP (Z.of_nat (length OutBMP) * 4)
      (CaptureWidth self) (CaptureHeight self) = true /\
    let CompressedData :=
      GetCompressed Wrapper OutBMP (CaptureWidth self) (CaptureHeight self)
        (JPEGQuality self) in
    CompressedData <> [] /\
    text = FBase64_Encode CompressedData.
Proof.
  unfold PerformCapture, SendToJavaScript, JS_CaptureScreen.
  destruct (RenderTarget self) as [rt|]; [|split; [discriminate | tauto]].
  destruct (World frame); cbn [negb];
    [|split; [discriminate | intros (_ & H & _); discriminate H]].
  destruct (ViewportClient frame); cbn [negb];
    [|split; [discriminate | intros (_ & _ & H & _); discriminate H]].
  destruct (RenderTargetResource frame); cbn [negb];
    [|split; [discriminate | intros (_ & _ & _ & H & _); discriminate H]].
  destruct (ReadPixels frame) as [[|] OutBMP]; cbn [negb fst snd];
    [|split; [discriminate | intros (_ & _ & _ & _ & H & _); discriminate H]].
  destruct (ImageWrapper frame) as [Wrapper|];
    [|split; [discriminate
             | intros (_ & _ & _ & _ & _ & _ & _ & W & H & _); discriminate H]].
  destruct (SetRaw Wrapper OutBMP (Z.of_nat (length OutBMP) * 4)
              (CaptureWidth self) (CaptureHeight self)) eqn:Eraw;
    [|split; [discriminate
             | intros (_ & _ & _ & _ & _ & _ & _ & W & H & Hr & _);
               injection H as <-; cbv zeta in Hr; congruence]].
  destruct (GetCompressed Wrapper OutBMP (CaptureWidth self)
              (CaptureHeight self) (JPEGQuality self)) as [|c0 cs] eqn:Ec.
  { cbn. split; [discriminate|].
    intros (_ & _ & _ & _ & _ & _ & _ & W & H & _ & Hne & _).
    injection H as <-. cbv zeta in Hne. congruence. }
  assert (Hpos : (Z.of_nat (length (c0 :: cs)) >? 0)%Z = true)
    by (apply Z.gtb_lt; cbn [length]; lia).
  rewrite Hpos.
  destruct PLATFORM_HTML5;
    [|split; [discriminate
             | intros (_ & _ & _ & _ & _ & H & _); discriminate H]].
  destruct (window_CaptureScreen frame);
    [|split; [discriminate
             | intros (_ & _ & _ & _ & _ & _ & H & _); discriminate H]].
  split.
  - intros H. injection H as <-.
    repeat (split; [congruence || reflexivity|]).
    exists Wrapper. split; [reflexivity|]. cbv zeta.
    rewrite Eraw, Ec. repeat split. discriminate.
  - intros (_ & _ & _ & _ & _ & _ & _ & W & H & _ & _ & Ht).
    injection H as <-. cbv zeta in Ht. rewrite Ec in Ht. now subst text.
Qed.

Lemma PerformCapture_TimeAccumulator {vision : VisionHost}
  (v : float) (self : AAGLVisionCapture.t) (frame : EngineFrame) :
  PerformCapture (set_TimeAccumulator v self) frame = PerformCapture self frame.
Proof. reflexivity. Qed.

Lemma Tick_keeps {vision : VisionHost} (DeltaTime : float)
  (self : AAGLVisionCapture.t) (frame : EngineFrame) :
  IsCapturing (fst (Tick DeltaTime self frame)) = IsCapturing self /\
  RenderTarget (fst (Tick DeltaTime self frame)) = RenderTarget self /\
  Settings (fst (Tick DeltaTime self frame)) = Settings self.
Proof.
  unfold Tick, IsCapturing, Settings.
  destruct self as [w h q i au dbg rt cap acc];
    cbn [bIsCapturing TimeAccumulator CaptureInterval set_TimeAccumulator
         CaptureWidth CaptureHeight JPEGQuality bAutoStart bEnableDebug
         RenderTarget].
  destruct cap; cbn zeta; [|repeat split].
  destruct (Float_ge (Float_add acc DeltaTime) i); repeat split.
Qed.

Lemma PerformCapture_off_HTML5 {vision : VisionHost}
  (self : AAGLVisionCapture.t) (frame : EngineFrame) :
  PLATFORM_HTML5 = false -> PerformCapture self frame = None.
Proof.
  intros Hplat. unfold PerformCapture, SendToJavaScript. rewrite Hplat.
  destruct (RenderTarget self); [|reflexivity].
  destruct (World frame), (ViewportClient frame), (RenderTargetResource frame);
    cbn [negb]; try reflexivity.
  destruct (ReadPixels frame) as [[|] OutBMP]; cbn [negb]; [|reflexivity].
  destruct (ImageWrapper frame) as [Wrapper|]; [|reflexivity].
  destruct (SetRaw Wrapper _ _ _ _); [|reflexivity].
  cbv zeta. destruct (_ >? _)%Z; reflexivity.
Qed.

(** X23.  [Tick]: an actor at rest is left as it is; a capturing one
    adds the frame time to the accumulated time and, once that reaches
    the interval, resets it to zero and performs one capture; the
    capturing flag, the render target and the settings are never
    changed. *)
Theorem Tick_schedule {vision : VisionHost} (DeltaTime : float)
  (self : AAGLVisionCapture.t) (frame : EngineFrame) :
  let Elapsed := Float_add (TimeAccumulator self) DeltaTime in
  (IsCapturing self = false -> Tick DeltaTime self frame = (self, None)) /\
  (IsCapturing self = true ->
   Float_ge Elapsed (CaptureInterval self) = false ->
   Tick DeltaTime self frame = (set_TimeAccumulator Elapsed self, None)) /\
  (IsCapturing self = true ->
   Float_ge Elapsed (CaptureInterval self) = true ->
   Tick DeltaTime self frame =
     (set_TimeAccumulator 0%float self, PerformCapture self frame)) /\
  IsCapturing (fst (Tick DeltaTime self frame)) = IsCapturing self /\
  RenderTarget (fst (Tick DeltaTime self frame)) = RenderTarget self /\
  Settings (fst (Tick DeltaTime self frame)) = Settings self.
Proof.
  unfold Tick, IsCapturing, Settings.
  destruct self as [w h q i au dbg rt cap acc];
    cbn [bIsCapturing TimeAccumulator CaptureInterval set_TimeAccumulator
         CaptureWidth CaptureHeight JPEGQuality bAutoStart bEnableDebug
         RenderTarget].
  destruct cap; cbn zeta.
  - destruct (Float_ge (Float_add acc DeltaTime) i);
      repeat apply conj; intros; try reflexivity; try discriminate.
  - repeat apply conj; intros; try reflexivity; try discriminate.
Qed.

Lemma Step_Settings {vision : VisionHost} (self : AAGLVisionCapture.t) (c : Call) :
  Settings (fst (Step self c)) = Settings self.
Proof.
  destruct self as [w h q i au dbg rt cap acc].
  destruct c as [| |dt frame| | |frame]; cbn [Step fst]; try reflexivity.
  - unfold BeginPlay, InitializeRenderTarget, StartCapture.
    destruct rt, au, cap; reflexivity.
  - unfold EndPlay, StopCapture, CleanupRenderTarget.
    destruct rt, cap; reflexivity.
  - apply Tick_keeps.
  - unfold StartCapture. destruct cap; reflexivity.
  - unfold StopCapture. destruct cap; reflexivity.
Qed.

Lemma Step_no_target {vision : VisionHost} (self : AAGLVisionCapture.t) (c : Call) :
  RenderTarget self = None -> IsBeginPlay c = false ->
  RenderTarget (fst (Step self c)) = None /\ snd (Step self c) = None.
Proof.
  destruct self as [w h q i au dbg rt cap acc]. cbn [RenderTarget].
  intros -> Hc.
  destruct c as [| |dt frame| | |frame]; try discriminate Hc; cbn [Step fst snd].
  - unfold EndPlay, StopCapture. destruct cap; split; reflexivity.
  - unfold Tick. cbn. destruct cap; [|split; reflexivity].
    destruct (Float_ge (Float_add acc dt) i); split; reflexivity.
  - unfold StartCapture. destruct cap; split; reflexivity.
  - unfold StopCapture. destruct cap; split; reflexivity.
  - split; reflexivity.
Qed.

Lemma Run_cons {vision : VisionHost} (self : AAGLVisionCapture.t) (c : Call)
  (rest : list Call) :
  Run self (c :: rest) =
  (fst (Run (fst (Step self c)) rest),
   match snd (Step self c) with
   | Some text => text :: snd (Run (fst (Step self c)) rest)
   | None => snd (Run (fst (Step self c)) rest)
   end).
Proof.
  cbn [Run]. destruct (Step self c) as [s sent].
  cbn [fst snd]. destruct (Run s rest). reflexivity.
Qed.

(** X24.  Without a render target nothing is ever sent: in a run of
    calls without [BeginPlay], an actor that has no render target (a new
    one, or any after [EndPlay]) sends nothing, whatever the frames are,
    and still has no render target afterwards. *)
Theorem nothing_sent_without_render_target {vision : VisionHost}
  (calls : list Call) :
  forallb (fun c => negb (IsBeginPlay c)) calls = true ->
  (forall self : AAGLVisionCapture.t,
     RenderTarget self = None ->
     snd (Run self calls) = [] /\ RenderTarget (fst (Run self calls)) = None) /\
  (forall self : AAGLVisionCapture.t, snd (Run (EndPlay self) calls) = []) /\
  snd (Run AAGLVisionCapture.New calls) = [].
Proof.
  intros Hcalls.
  assert (Hinv : forall self : AAGLVisionCapture.t,
            RenderTarget self = None ->
            snd (Run self calls) = [] /\
            RenderTarget (fst (Run self calls)) = None).
  { induction calls as [|c rest IH]; intros self Hrt.
    - split; [reflexivity | exact Hrt].
    - cbn [forallb] in Hcalls. apply andb_true_iff in Hcalls as [Hc Hrest].
      apply negb_true_iff in Hc.
      destruct (Step_no_target self c Hrt Hc) as [Hrt' Hsent].
      rewrite Run_cons, Hsent. cbn [fst snd]. now apply IH. }
  repeat apply conj.
  - exact Hinv.
  - intros self. apply Hinv.
    unfold EndPlay, CleanupRenderTarget.
    destruct (RenderTarget (StopCapture self)) eqn:E; [reflexivity | exact E].
  - now apply Hinv.
Qed.

(** X25.  A build for another platform than HTML5 never sends
    anything, whatever is called. *)
Theorem nothing_sent_off_HTML5 {vision : VisionHost} :
  PLATFORM_HTML5 = false ->
  forall (calls : list Call) (self : AAGLVisionCapture.t),
    snd (Run self calls) = [].
Proof.
  intros Hplat.
  assert (Hperform : forall self frame, PerformCapture self frame = None)
    by (intros self frame; now apply PerformCapture_off_HTML5).
  induction calls as [|c rest IH]; intros self; [reflexivity|].
  rewrite Run_cons.
  assert (Hstep : snd (Step self c) = None).
  { destruct c as [| |dt frame| | |frame]; cbn [Step snd]; try reflexivity.
    - unfold Tick. destruct (bIsCapturing self); [|reflexivity].
      destruct (Float_ge _ _); [apply Hperform | reflexivity].
    - apply Hperform. }
  rewrite Hstep. apply IH.
Qed.

(** X26.  In any run of calls: no more texts are sent than there are
    calls of [Tick] and [CaptureNow]; the settings are the ones the run
    started with; and a render target, once there, stays the same object
    as long as [EndPlay] is not called. *)
Theorem Run_bounds {vision : VisionHost} (calls : list Call) :
  forall self : AAGLVisionCapture.t,
    (length (snd (Run self calls)) <= length (filter MayCapture calls))%nat /\
    Settings (fst (Run self calls)) = Settings self /\
    (forall rt, RenderTarget self = Some rt ->
                forallb (fun c => negb (IsEndPlay c)) calls = true ->
                RenderTarget (fst (Run self calls)) = Some rt).
Proof.
  induction calls as [|c rest IH]; intros self.
  - repeat split; [cbn; lia | intros rt H _; exact H].
  - rewrite Run_cons. cbn [fst snd].
    destruct (IH (fst (Step self c))) as [Hlen [Hset Hrt]].
    repeat apply conj.
    + assert (Hc : snd (Step self c) = None \/ MayCapture c = true)
        by (destruct c; cbn; auto).
      cbn [filter]. destruct (snd (Step self c)), (MayCapture c), Hc;
        cbn [length]; try discriminate; lia.
    + rewrite Hset. apply Step_Settings.
    + intros rt Hself Hcalls. cbn [forallb] in Hcalls.
      apply andb_true_iff in Hcalls as [Hc Hrest]. apply negb_true_iff in Hc.
      apply Hrt; [|exact Hrest].
      destruct self as [w h q i au dbg rt0 cap acc]. cbn [RenderTarget] in Hself.
      subst rt0.
      destruct c as [| |dt frame| | |frame]; try discriminate Hc;
        cbn [Step fst].
      * unfold BeginPlay, InitializeRenderTarget, StartCapture.
        cbn. destruct au, cap; reflexivity.
      * apply (proj1 (proj2 (Tick_keeps dt
                 {| CaptureWidth := w; CaptureHeight := h; JPEGQuality := q;
                    CaptureInterval := i; bAutoStart := au;
                    bEnableDebug := dbg; RenderTarget := Some rt;
                    bIsCapturing := cap; TimeAccumulator := acc |} frame))).
      * unfold StartCapture. destruct cap; reflexivity.
      * unfold StopCapture. destruct cap; reflexivity.
      * reflexivity.
Qed.

(** X27.  [BeginPlay] leaves the actor with a render target, a new one
    of the capture size if there was none and the old one otherwise, and
    capturing if auto start is set or it was capturing before; [EndPlay]
    leaves it at rest without a render target; both are idempotent. *)
Theorem BeginPlay_EndPlay (self : AAGLVisionCapture.t) :
  (exists rt, RenderTarget (BeginPlay self) = Some rt) /\
  (RenderTarget self = None ->
   RenderTarget (BeginPlay self) =
     Some {| SizeX := CaptureWidth self; SizeY := CaptureHeight self |}) /\
  (forall rt, RenderTarget self = Some rt ->
              RenderTarget (BeginPlay self) = Some rt) /\
  IsCapturing (BeginPlay self) = (bAutoStart self || IsCapturing self) /\
  IsCapturing (EndPlay self) = false /\
  RenderTarget (EndPlay self) = None /\
  EndPlay (EndPlay self) = EndPlay self /\
  BeginPlay (BeginPlay self) = BeginPlay self.
Proof.
  unfold BeginPlay, EndPlay, InitializeRenderTarget, CleanupRenderTarget,
    StartCapture, StopCapture, IsCapturing.
  destruct self as [w h q i au dbg [rt|] [|] acc]; destruct au; cbn;
    repeat apply conj; intros; try reflexivity; try discriminate;
    try (eexists; reflexivity); congruence.
Qed.

(** *** Payload shapes and the keys of built maps *)

(** X2.  What each of the five encoders hands to the writer: the fields
    in the order they are set, the optional ones present exactly when
    their condition holds, and nothing else; the nested objects are built
    from the request's maps. *)
Theorem payload_shapes {host : Host} :
  (forall Request : FAGLEmotionRequest.t,
     UAGLEmotionService.SerializeRequest_JsonObject Request =
     ([("type", JString (UAGLEmotionService.EventTypeToString
                           (FAGLEmotionRequest.EventType Request)));
       ("force_ml", JBoolean (FAGLEmotionRequest.bForceML Request));
       ("data", JObject (MakeStringObject (FAGLEmotionRequest.Data Request)))]
      ++ OptionalField (NonEmptyMap (FAGLEmotionRequest.Context Request))
           "context"
           (JObject (MakeStringObject (FAGLEmotionRequest.Context Request))))%list) /\
  (forall Request : FAGLDialogueRequest.t,
     UAGLDialogueService.SerializeRequest_JsonObject Request =
     ([("event_type", JString (UAGLDialogueService.EventTypeToString
                                 (FAGLDialogueRequest.EventType Request)));
       ("emotion", JString (UAGLDialogueService.EmotionTypeToString
                              (FAGLDialogueRequest.Emotion Request)));
       ("persona", JString (UAGLDialogueService.PersonaToString
                              (FAGLDialogueRequest.Persona Request)));
       ("force_llm", JBoolean (FAGLDialogueRequest.bForceLLM Request))]
      ++ OptionalField (negb (IsEmpty (FAGLDialogueRequest.PlayerId Request)))
           "player_id" (JString (FAGLDialogueRequest.PlayerId Request))
      ++ OptionalField (negb (IsEmpty (FAGLDialogueRequest.Language Request)))
           "language" (JString (FAGLDialogueRequest.Language Request))
      ++ OptionalField (NonEmptyMap (FAGLDialogueRequest.Context Request))
           "context"
           (JObject (MakeStringObject (FAGLDialogueRequest.Context Request))))%list) /\
  (forall Request : FAGLCreateMemoryRequest.t,
     UAGLMemoryService.SerializeCreateMemoryRequest_JsonObject Request =
     ([("type", JString (UAGLMemoryService.MemoryTypeToString
                           (FAGLCreateMemoryRequest.MemoryType Request)));
       ("content", JString (FAGLCreateMemoryRequest.Content Request));
       ("importance",
        JNumber (double_of_int32 (FAGLCreateMemoryRequest.Importance Request)))]
      ++ OptionalField (negb (IsEmpty (FAGLCreateMemoryRequest.Emotion Request)))
           "emotion" (JString (FAGLCreateMemoryRequest.Emotion Request))
      ++ OptionalField (NonEmptyMap (FAGLCreateMemoryRequest.Context Request))
           "context"
           (JObject (MakeStringObject
                       (FAGLCreateMemoryRequest.Context Request))))%list) /\
  (forall Request : FAGLSearchMemoriesRequest.t,
     UAGLMemoryService.SerializeSearchRequest_JsonObject Request =
     [("query", JString (FAGLSearchMemoriesRequest.Query Request));
      ("limit", JNumber (double_of_int32 (FAGLSearchMemoriesRequest.Limit Request)))]) /\
  (forall Request : FAGLGetContextRequest.t,
     UAGLMemoryService.SerializeContextRequest_JsonObject Request =
     [("currentEvent", JString (FAGLGetContextRequest.CurrentEvent Request));
      ("limit", JNumber (double_of_int32 (FAGLGetContextRequest.Limit Request)))]).
Proof.
  repeat apply conj.
  - exact emotion_payload_shape.
  - exact dialogue_payload_shape.
  - exact create_memory_payload_shape.
  - intros [q l]; by_search_case.
  - intros [e l]; by_search_case.
Qed.

Lemma fold_Add_keeps_distinct {host : Host} {V X : Type}
  (step : TMap V -> X -> TMap V) (l : list X) :
  (forall o x, TMap_Distinct o = true -> TMap_Distinct (step o x) = true) ->
  forall acc, TMap_Distinct acc = true -> TMap_Distinct (fold_left step l acc) = true.
Proof.
  intros Hstep. induction l as [|x l IH]; intros acc Hacc; cbn; [exact Hacc|].
  apply IH. now apply Hstep.
Qed.

Lemma MakeStringObject_distinct {host : Host} (Map : TMap string) :
  TMap_Distinct (MakeStringObject Map) = true.
Proof.
  unfold MakeStringObject. apply fold_Add_keeps_distinct; [|reflexivity].
  intros o x Ho. now apply TMap_Distinct_Add.
Qed.

Ltac distinct_by_Add :=
  repeat first
    [ apply TMap_Distinct_Add
    | match goal with
      | |- TMap_Distinct (if ?c then _ else _) = true => destruct c
      end
    | reflexivity ].

(** X3.  No map or object the plugin builds holds a key twice: the
    nested object of a string map (whatever the map), the three payloads
    with optional fields, and the context of a decoded memory (whatever
    the document). *)
Theorem built_maps_have_distinct_keys {host : Host} :
  (forall Map : TMap string, TMap_Distinct (MakeStringObject Map) = true) /\
  (forall Request, TMap_Distinct
     (UAGLEmotionService.SerializeRequest_JsonObject Request) = true) /\
  (forall Request, TMap_Distinct
     (UAGLDialogueService.SerializeRequest_JsonObject Request) = true) /\
  (forall Request, TMap_Distinct
     (UAGLMemoryService.SerializeCreateMemoryRequest_JsonObject Request) = true) /\
  (forall JsonObject : option FJsonObject,
     TMap_Distinct
       (FAGLMemory.Context (UAGLMemoryService.DeserializeMemory JsonObject)) = true).
Proof.
  repeat apply conj.
  - exact MakeStringObject_distinct.
  - intros Request. unfold UAGLEmotionService.SerializeRequest_JsonObject,
      SetObjectField, SetBoolField, SetStringField, SetField. distinct_by_Add.
  - intros Request. unfold UAGLDialogueService.SerializeRequest_JsonObject,
      SetObjectField, SetBoolField, SetStringField, SetField. distinct_by_Add.
  - intros Request. unfold UAGLMemoryService.SerializeCreateMemoryRequest_JsonObject,
      SetObjectField, SetNumberField, SetStringField, SetField. distinct_by_Add.
  - intros [o|]; [|reflexivity].
    unfold UAGLMemoryService.DeserializeMemory. cbn [FAGLMemory.Context].
    destruct (TryGetObjectField o "context") as [c|]; [|reflexivity].
    unfold UAGLMemoryService.ParseContext.
    apply fold_Add_keeps_distinct; [|reflexivity].
    intros m x Hm. destruct (TryGetString (snd x)); [|exact Hm].
    now apply TMap_Distinct_Add.
Qed.

(* ================================================================== *)
(** ** The further statements at work on [TestHost], [ReplyHost] and the
    two builds of the capture actor *)

(** A key that is none of the listed ones, on a host whose comparison is
    settled. *)
Ltac outside_keys :=
  let Known := fresh "Known" in
  let H := fresh "H" in
  intros Known H;
  unfold MemoryKeys, DialogueKeys, EmotionKeys in H; cbn [In] in H;
  repeat (destruct H as [<- | H]; [reflexivity|]);
  contradiction.

Lemma string_object_mirrors_map_witness :
  let Map := FAGLCreateMemoryRequest.Context BossMemory in
  @TMap_Distinct TestHost string Map = true /\
  @MakeStringObject TestHost Map =
    [("boss_name", JString "Dragon King"); ("attempts", JString "5")] /\
  @TryGetField TestHost (@MakeStringObject TestHost Map) "attempts" =
    Some (JString "5") /\
  @UAGLMemoryService.ParseContext TestHost (@MakeStringObject TestHost Map) [] =
    Map.
Proof.
  cbv zeta.
  pose proof (@string_object_mirrors_map TestHost
                (FAGLCreateMemoryRequest.Context BossMemory) eq_refl)
    as [Hcopy [Hfind Hback]].
  split; [reflexivity|].
  split; [exact Hcopy|].
  split; [exact (Hfind "attempts") | exact Hback].
Defined.

Lemma create_memory_payload_decodes_back_witness :
  let Memory :=
    @UAGLMemoryService.DeserializeMemory TestHost
      (Some (@UAGLMemoryService.SerializeCreateMemoryRequest_JsonObject TestHost
               BossMemory)) in
  @TMap_Distinct TestHost string (FAGLCreateMemoryRequest.Context BossMemory) =
    true /\
  FAGLMemory.MemoryType Memory = EAGLMemoryType.Achievement /\
  FAGLMemory.Content Memory = "Defeated the dragon boss" /\
  FAGLMemory.Emotion Memory = "proud" /\
  FAGLMemory.Context Memory = [("boss_name", "Dragon King"); ("attempts", "5")] /\
  FAGLMemory.Id Memory = "".
Proof.
  cbv zeta.
  pose proof (@create_memory_payload_decodes_back TestHost BossMemory eq_refl)
    as [Htype [Hcontent [Hemotion [Hcontext [Hid _]]]]].
  split; [reflexivity|].
  split; [exact Htype|].
  split; [exact Hcontent|].
  split; [exact Hemotion|].
  split; [exact Hcontext | exact Hid].
Defined.

Lemma wire_strings_distinct_witness :
  EAGLEmotionType.Happy <> EAGLEmotionType.Sad /\
  @FString_eq TestHost
    (UAGLDialogueService.EmotionTypeToString EAGLEmotionType.Happy)
    (UAGLDialogueService.EmotionTypeToString EAGLEmotionType.Sad) = false /\
  EAGLMemoryType.FirstTime <> EAGLMemoryType.Event /\
  @FString_eq TestHost
    (UAGLMemoryService.MemoryTypeToString EAGLMemoryType.FirstTime)
    (UAGLMemoryService.MemoryTypeToString EAGLMemoryType.Event) = false.
Proof.
  assert (He : EAGLEmotionType.Happy <> EAGLEmotionType.Sad) by discriminate.
  assert (Hm : EAGLMemoryType.FirstTime <> EAGLMemoryType.Event) by discriminate.
  pose proof (@wire_strings_distinct TestHost) as [_ [Hemotion [_ Hmemory]]].
  split; [exact He|].
  split; [exact (Hemotion _ _ He)|].
  split; [exact Hm | exact (Hmemory _ _ Hm)].
Defined.

Lemma encoder_default_branches_witness :
  ~ (0 <= 200 < 9)%Z /\
  UAGLDialogueService.EventTypeToString_uint8 200 = "unknown" /\
  ~ (0 <= 200 < 14)%Z /\
  UAGLDialogueService.EmotionTypeToString_uint8 200 = "neutral" /\
  ~ (0 <= 3 < 3)%Z /\
  UAGLDialogueService.PersonaToString_uint8 3 = "cheerful" /\
  ~ (0 <= 7 < 7)%Z /\
  UAGLMemoryService.MemoryTypeToString_uint8 7 = "event".
Proof.
  assert (H9 : ~ (0 <= 200 < 9)%Z) by lia.
  assert (H14 : ~ (0 <= 200 < 14)%Z) by lia.
  assert (H3 : ~ (0 <= 3 < 3)%Z) by lia.
  assert (H7 : ~ (0 <= 7 < 7)%Z) by lia.
  pose proof encoder_default_branches as [Hevent [Hemotion [Hpersona Hmemory]]].
  split; [exact H9|].
  split; [exact (proj2 (Hevent 200%Z) H9)|].
  split; [exact H14|].
  split; [exact (Hemotion 200%Z H14)|].
  split; [exact H3|].
  split; [exact (Hpersona 3%Z H3)|].
  split; [exact H7 | exact (Hmemory 7%Z H7)].
Defined.

Lemma DeserializeMemory_ignores_other_fields_witness :
  (forall Known, In Known MemoryKeys ->
                 @FString_eq TestHost "request_id" Known = false) /\
  @UAGLMemoryService.DeserializeMemory TestHost
    (Some (@SetField TestHost [("id", JString "m1")] "request_id"
             (JString "r-1"))) =
  @UAGLMemoryService.DeserializeMemory TestHost (Some [("id", JString "m1")]).
Proof.
  assert (H : forall Known, In Known MemoryKeys ->
                            @FString_eq TestHost "request_id" Known = false)
    by outside_keys.
  split; [exact H|].
  exact (@DeserializeMemory_ignores_other_fields TestHost
           [("id", JString "m1")] "request_id" (JString "r-1") H).
Defined.

Lemma responses_ignore_other_fields_witness :
  @FJsonSerializer_Deserialize ReplyHost PlainReply = (true, Some PlainDocument) /\
  @FJsonSerializer_Deserialize ReplyHost TracedReply =
    (true, Some (@SetField ReplyHost PlainDocument "request_id" (JString "r-1"))) /\
  @UAGLDialogueService.DeserializeResponse ReplyHost TracedReply =
    @UAGLDialogueService.DeserializeResponse ReplyHost PlainReply /\
  @UAGLEmotionService.DeserializeResponse ReplyHost TracedReply =
    @UAGLEmotionService.DeserializeResponse ReplyHost PlainReply.
Proof.
  assert (Hd : forall Known, In Known DialogueKeys ->
                             @FString_eq ReplyHost "request_id" Known = false)
    by outside_keys.
  assert (He : forall Known, In Known EmotionKeys ->
                             @FString_eq ReplyHost "request_id" Known = false)
    by outside_keys.
  pose proof (@responses_ignore_other_fields ReplyHost PlainReply TracedReply
                PlainDocument "request_id" (JString "r-1") eq_refl eq_refl)
    as [Hdialogue Hemotion].
  split; [reflexivity|].
  split; [reflexivity|].
  split; [exact (Hdialogue Hd) | exact (Hemotion He)].
Defined.

Lemma DeserializeMemories_elements_witness :
  @FJsonSerializer_Deserialize ReplyHost MemoriesReply =
    (true, Some MemoriesDocument) /\
  @UAGLMemoryService.DeserializeMemories ReplyHost MemoriesReply =
    [@UAGLMemoryService.DeserializeMemory ReplyHost
       (Some [("id", JString "m1"); ("content", JString "First win");
              ("type", JString "milestone")]);
     @UAGLMemoryService.DeserializeMemory ReplyHost (Some [("id", JString "m2")])] /\
  @FJsonSerializer_Deserialize ReplyHost ErrorReply = (true, Some ErrorDocument) /\
  @UAGLMemoryService.DeserializeMemories ReplyHost ErrorReply = [].
Proof.
  pose proof (@DeserializeMemories_elements ReplyHost MemoriesReply
                MemoriesDocument eq_refl) as [Harray _].
  pose proof (@DeserializeMemories_elements ReplyHost ErrorReply
                ErrorDocument eq_refl) as [_ [_ [Habsent _]]].
  cbv zeta in *.
  split; [reflexivity|].
  split; [exact (proj1 (Harray _ eq_refl))|].
  split; [reflexivity | exact (Habsent eq_refl)].
Defined.

Lemma DeserializeSearchResults_elements_witness :
  @FJsonSerializer_Deserialize ReplyHost ResultsReply =
    (true, Some ResultsDocument) /\
  @UAGLMemoryService.DeserializeSearchResults ReplyHost ResultsReply =
    [@SearchResultOf ReplyHost
       [("similarityScore", JNumber 0.5%float);
        ("memory", JObject [("id", JString "m1")])];
     @SearchResultOf ReplyHost []] /\
  @SearchResultOf ReplyHost [] = @FAGLMemorySearchResult.Default ReplyHost /\
  @UAGLMemoryService.DeserializeSearchResults ReplyHost ErrorReply = [].
Proof.
  pose proof (@DeserializeSearchResults_elements ReplyHost ResultsReply
                ResultsDocument eq_refl) as [Harray [Hdefault _]].
  pose proof (@DeserializeSearchResults_elements ReplyHost ErrorReply
                ErrorDocument eq_refl) as [_ [_ [Habsent _]]].
  cbv zeta in *.
  split; [reflexivity|].
  split; [exact (proj1 (Harray _ eq_refl))|].
  split; [exact (Hdefault [] eq_refl eq_refl) | exact (Habsent eq_refl)].
Defined.

Lemma emotion_field_decoding_witness :
  let Emotion := fun body =>
    FAGLEmotionResponse.Emotion
      (@UAGLEmotionService.DeserializeResponse ReplyHost body) in
  (@FJsonSerializer_Deserialize ReplyHost ProudReply = (true, Some ProudDocument) /\
   Emotion ProudReply = EAGLEmotionType.Proud) /\
  (@FJsonSerializer_Deserialize ReplyHost ElatedReply =
     (true, Some ElatedDocument) /\
   @InWireTable ReplyHost "elated" EmotionWireStrings = false /\
   Emotion ElatedReply = EAGLEmotionType.Neutral) /\
  (@FJsonSerializer_Deserialize ReplyHost NumberedReply =
     (true, Some NumberedDocument) /\
   @TryGetString ReplyHost (JNumber 7%float) = Some "7" /\
   @InWireTable ReplyHost "7" EmotionWireStrings = false /\
   Emotion NumberedReply = EAGLEmotionType.Neutral) /\
  (@FJsonSerializer_Deserialize ReplyHost ShoutedReply =
     (true, Some ShoutedDocument) /\
   @SearchCase ReplyHost = IgnoreCase /\
   FString_ToLower "HAPPY" = "happy" /\
   Emotion ShoutedReply = EAGLEmotionType.Happy).
Proof.
  cbv zeta.
  pose proof (@emotion_field_decoding ReplyHost ProudReply ProudDocument
                eq_refl) as [_ [Hknown _]].
  pose proof (@emotion_field_decoding ReplyHost ElatedReply ElatedDocument
                eq_refl) as [_ [_ [Hunknown _]]].
  pose proof (@emotion_field_decoding ReplyHost NumberedReply NumberedDocument
                eq_refl) as [_ [_ [Hnumber _]]].
  pose proof (@emotion_field_decoding ReplyHost ShoutedReply ShoutedDocument
                eq_refl) as [_ [_ [_ Hshouted]]].
  cbv zeta in *.
  split; [split; [reflexivity | exact (Hknown EAGLEmotionType.Proud eq_refl)]|].
  split; [split; [reflexivity | split; [reflexivity|]]|].
  { exact (Hunknown (JString "elated") "elated" eq_refl eq_refl eq_refl). }
  split; [split; [reflexivity | split; [reflexivity | split; [reflexivity|]]]|].
  { exact (Hnumber (JNumber 7%float) "7" eq_refl eq_refl eq_refl). }
  split; [reflexivity | split; [reflexivity | split; [reflexivity|]]].
  exact (Hshouted eq_refl (JString "HAPPY") "HAPPY" EAGLEmotionType.Happy
           eq_refl eq_refl eq_refl).
Defined.

Lemma object_without_known_fields_decodes_to_default_witness :
  @FJsonSerializer_Deserialize ReplyHost ErrorReply = (true, Some ErrorDocument) /\
  (forall Key, In Key DialogueKeys ->
               @TryGetField ReplyHost ErrorDocument Key = None) /\
  @UAGLDialogueService.DeserializeResponse ReplyHost ErrorReply =
    FAGLDialogueResponse.Default /\
  @UAGLEmotionService.DeserializeResponse ReplyHost ErrorReply =
    @FAGLEmotionResponse.Default ReplyHost /\
  @UAGLMemoryService.DeserializeMemory ReplyHost (Some ErrorDocument) =
    @FAGLMemory.Default ReplyHost.
Proof.
  assert (Hm : forall Key, In Key MemoryKeys ->
                           @TryGetField ReplyHost ErrorDocument Key = None)
    by outside_keys.
  assert (Hd : forall Key, In Key DialogueKeys ->
                           @TryGetField ReplyHost ErrorDocument Key = None)
    by outside_keys.
  assert (He : forall Key, In Key EmotionKeys ->
                           @TryGetField ReplyHost ErrorDocument Key = None)
    by outside_keys.
  pose proof (@object_without_known_fields_decodes_to_default ReplyHost)
    as [Hmemory [Hdialogue Hemotion]].
  split; [reflexivity|].
  split; [exact Hd|].
  split; [exact (Hdialogue ErrorReply ErrorDocument eq_refl Hd)|].
  split; [exact (Hemotion ErrorReply ErrorDocument eq_refl He)|].
  exact (Hmemory ErrorDocument Hm).
Defined.

Lemma success_reports_true_and_decoded_witness :
  GetResponseCode Answered = 200%Z /\
  @UAGLDialogueService.GenerateDialogue_OnProcessRequestComplete TestHost
    (Calls FAGLDialogueResponse.t) Recorder (Some Answered) true [] =
  [(true, @UAGLDialogueService.DeserializeResponse TestHost TestBody)] /\
  @UAGLMemoryService.GetMemories_OnProcessRequestComplete TestHost
    (Calls (list FAGLMemory.t)) Recorder (Some Answered) true [] =
  [(true, @UAGLMemoryService.DeserializeMemories TestHost TestBody)] /\
  GetResponseCode Created = 201%Z /\
  @FJsonSerializer_Deserialize TestHost (GetContentAsString Created) =
    (true, Some TestDocument) /\
  @UAGLMemoryService.CreateMemory_OnProcessRequestComplete TestHost
    (Calls FAGLMemory.t) Recorder (Some Created) true [] =
  [(true, @UAGLMemoryService.DeserializeMemory TestHost (Some TestDocument))].
Proof.
  pose proof (proj1 (@success_reports_true_and_decoded TestHost
                       (Calls FAGLDialogueResponse.t) Answered []) eq_refl)
    as [_ [Hdialogue _]].
  pose proof (proj1 (@success_reports_true_and_decoded TestHost
                       (Calls (list FAGLMemory.t)) Answered []) eq_refl)
    as [_ [_ [_ [_ Hmemories]]]].
  pose proof (proj2 (@success_reports_true_and_decoded TestHost
                       (Calls FAGLMemory.t) Created []))
    as Hcreate.
  split; [reflexivity|].
  split; [exact (Hdialogue Recorder)|].
  split; [exact (Hmemories Recorder)|].
  split; [reflexivity|].
  split; [reflexivity|].
  exact (Hcreate TestDocument (or_intror eq_refl) eq_refl Recorder).
Defined.

Lemma Initialize_with_key_witness :
  FAGLConfig.ApiKey KeyedConfig <> "" /\
  UAGLClient.IsInitialized (UAGLClient.Initialize KeyedConfig UAGLClient.New) =
    true /\
  option_map UAGLMemoryService.ServiceUrl
    (UAGLClient.GetMemoryService
       (UAGLClient.Initialize KeyedConfig UAGLClient.New)) =
    Some "https://memory.example" /\
  UAGLClient.Initialize KeyedConfig
    (UAGLClient.Initialize KeylessConfig UAGLClient.New) =
  UAGLClient.Initialize KeyedConfig UAGLClient.New.
Proof.
  assert (H : FAGLConfig.ApiKey KeyedConfig <> "") by discriminate.
  pose proof (Initialize_with_key KeyedConfig UAGLClient.New H)
    as [Hinit [_ [_ [_ [Hmemory [_ [_ Hagain]]]]]]].
  cbv zeta in *.
  split; [exact H|].
  split; [exact Hinit|].
  split; [exact (f_equal (option_map UAGLMemoryService.ServiceUrl) Hmemory)|].
  exact (Hagain KeylessConfig).
Defined.

Lemma Initialize_keyless_after_success_witness :
  let self :=
    UAGLClient.Initialize KeylessConfig
      (UAGLClient.Initialize KeyedConfig UAGLClient.New) in
  FAGLConfig.ApiKey KeyedConfig <> "" /\
  FAGLConfig.ApiKey KeylessConfig = "" /\
  UAGLClient.IsInitialized self = true /\
  UAGLClient.GetConfig self = KeylessConfig /\
  option_map UAGLEmotionService.ApiKey (UAGLClient.GetEmotionService self) =
    Some "key-1".
Proof.
  cbv zeta.
  assert (H : FAGLConfig.ApiKey KeyedConfig <> "") by discriminate.
  pose proof (Initialize_keyless_after_success KeyedConfig KeylessConfig
                UAGLClient.New H eq_refl)
    as [Hinit [Hconfig [_ [_ [_ [Hkey _]]]]]].
  cbv zeta in *.
  split; [exact H|].
  split; [reflexivity|].
  split; [exact Hinit|].
  split; [exact Hconfig | exact Hkey].
Defined.

Lemma StartCapture_StopCapture_witness :
  IsCapturing AAGLVisionCapture.New = false /\
  StopCapture AAGLVisionCapture.New = AAGLVisionCapture.New /\
  TimeAccumulator (StartCapture AAGLVisionCapture.New) = 0%float /\
  IsCapturing (StartCapture AAGLVisionCapture.New) = true /\
  StartCapture (StartCapture AAGLVisionCapture.New) =
    StartCapture AAGLVisionCapture.New.
Proof.
  pose proof (StartCapture_StopCapture AAGLVisionCapture.New)
    as [Hon [_ [_ [_ [_ [Hstop [Hreset _]]]]]]].
  pose proof (StartCapture_StopCapture (StartCapture AAGLVisionCapture.New))
    as [_ [_ [_ [_ [Hstart _]]]]].
  split; [reflexivity|].
  split; [exact (Hstop eq_refl)|].
  split; [exact (Hreset eq_refl)|].
  split; [exact Hon | exact (Hstart Hon)].
Defined.

Lemma PerformCapture_sends_iff_witness :
  RenderTarget (BeginPlay SmallActor) <> None /\
  @PerformCapture BrowserHost (BeginPlay SmallActor) GoodFrame =
    Some "/9j/2Q==" /\
  @PerformCapture BrowserHost SmallActor GoodFrame = None.
Proof.
  assert (H : RenderTarget (BeginPlay SmallActor) <> None) by discriminate.
  split; [exact H|]. split.
  - apply (proj2 (@PerformCapture_sends_iff BrowserHost (BeginPlay SmallActor)
                    GoodFrame "/9j/2Q==")).
    split; [exact H|].
    split; [reflexivity|]. split; [reflexivity|]. split; [reflexivity|].
    split; [reflexivity|]. split; [reflexivity|]. split; [reflexivity|].
    exists MarkerWrapper. split; [reflexivity|]. cbv zeta.
    split; [reflexivity|]. split; [discriminate | reflexivity].
  - destruct (@PerformCapture BrowserHost SmallActor GoodFrame) as [text|] eqn:E;
      [|reflexivity].
    destruct (proj1 (@PerformCapture_sends_iff BrowserHost SmallActor GoodFrame
                       text) E) as [Hnone _].
    now destruct Hnone.
Defined.

Lemma Tick_schedule_witness :
  let Running := BeginPlay SmallActor in
  let Halfway := set_TimeAccumulator 0.5%float Running in
  (IsCapturing SmallActor = false /\
   @Tick BrowserHost 0.5%float SmallActor GoodFrame = (SmallActor, None)) /\
  (IsCapturing Running = true /\
   @Float_ge BrowserHost
     (@Float_add BrowserHost (TimeAccumulator Running) 0.5%float)
     (CaptureInterval Running) = false /\
   @Tick BrowserHost 0.5%float Running GoodFrame = (Halfway, None)) /\
  (IsCapturing Halfway = true /\
   @Float_ge BrowserHost
     (@Float_add BrowserHost (TimeAccumulator Halfway) 0.5%float)
     (CaptureInterval Halfway) = true /\
   @Tick BrowserHost 0.5%float Halfway GoodFrame =
     (Running, Some "/9j/2Q==")).
Proof.
  cbv zeta.
  pose proof (@Tick_schedule BrowserHost 0.5%float SmallActor GoodFrame)
    as [Hrest _].
  pose proof (@Tick_schedule BrowserHost 0.5%float (BeginPlay SmallActor)
                GoodFrame) as [_ [Hbelow _]].
  pose proof (@Tick_schedule BrowserHost 0.5%float
                (set_TimeAccumulator 0.5%float (BeginPlay SmallActor)) GoodFrame)
    as [_ [_ [Hreached _]]].
  cbv zeta in *.
  split; [split; [reflexivity | exact (Hrest eq_refl)]|].
  split; [split; [reflexivity | split; [reflexivity|]]|].
  { exact (Hbelow eq_refl eq_refl). }
  split; [reflexivity | split; [reflexivity|]].
  exact (Hreached eq_refl eq_refl).
Defined.

Lemma nothing_sent_without_render_target_witness :
  let calls :=
    [CallStartCapture; CallTick 2%float GoodFrame; CallCaptureNow GoodFrame;
     CallEndPlay; CallTick 2%float GoodFrame] in
  forallb (fun c => negb (IsBeginPlay c)) calls = true /\
  RenderTarget SmallActor = None /\
  snd (@Run BrowserHost SmallActor calls) = [] /\
  snd (@Run BrowserHost AAGLVisionCapture.New calls) = [] /\
  snd (@Run BrowserHost (EndPlay (BeginPlay SmallActor)) calls) = [].
Proof.
  cbv zeta.
  pose proof (@nothing_sent_without_render_target BrowserHost
                [CallStartCapture; CallTick 2%float GoodFrame;
                 CallCaptureNow GoodFrame; CallEndPlay;
                 CallTick 2%float GoodFrame] eq_refl)
    as [Hnone [Hended Hnew]].
  split; [reflexivity|].
  split; [reflexivity|].
  split; [exact (proj1 (Hnone SmallActor eq_refl))|].
  split; [exact Hnew | exact (Hended (BeginPlay SmallActor))].
Defined.

Lemma nothing_sent_off_HTML5_witness :
  @PLATFORM_HTML5 DesktopHost = false /\
  snd (@Run DesktopHost SmallActor
         [CallBeginPlay; CallTick 2%float GoodFrame; CallCaptureNow GoodFrame]) =
    [] /\
  snd (@Run BrowserHost SmallActor
         [CallBeginPlay; CallTick 2%float GoodFrame; CallCaptureNow GoodFrame]) =
    ["/9j/2Q=="; "/9j/2Q=="].
Proof.
  split; [reflexivity|]. split.
  - exact (@nothing_sent_off_HTML5 DesktopHost eq_refl
             [CallBeginPlay; CallTick 2%float GoodFrame; CallCaptureNow GoodFrame]
             SmallActor).
  - reflexivity.
Defined.

Lemma Run_bounds_witness :
  let calls :=
    [CallTick 2%float GoodFrame; CallStopCapture; CallTick 2%float GoodFrame;
     CallCaptureNow GoodFrame; CallBeginPlay] in
  let Target := {| SizeX := 2; SizeY := 1 |} in
  RenderTarget (BeginPlay SmallActor) = Some Target /\
  forallb (fun c => negb (IsEndPlay c)) calls = true /\
  RenderTarget (fst (@Run BrowserHost (BeginPlay SmallActor) calls)) =
    Some Target /\
  (length (snd (@Run BrowserHost (BeginPlay SmallActor) calls)) <= 3)%nat /\
  Settings (fst (@Run BrowserHost (BeginPlay SmallActor) calls)) =
    Settings SmallActor.
Proof.
  cbv zeta.
  pose proof (@Run_bounds BrowserHost
                [CallTick 2%float GoodFrame; CallStopCapture;
                 CallTick 2%float GoodFrame; CallCaptureNow GoodFrame;
                 CallBeginPlay] (BeginPlay SmallActor))
    as [Hlength [Hsettings Htarget]].
  split; [reflexivity|].
  split; [reflexivity|].
  split; [exact (Htarget {| SizeX := 2; SizeY := 1 |} eq_refl eq_refl)|].
  split; [exact Hlength | exact Hsettings].
Defined.

Lemma BeginPlay_EndPlay_witness :
  RenderTarget SmallActor = None /\
  RenderTarget (BeginPlay SmallActor) = Some {| SizeX := 2; SizeY := 1 |} /\
  RenderTarget (BeginPlay (BeginPlay SmallActor)) =
    Some {| SizeX := 2; SizeY := 1 |} /\
  IsCapturing (BeginPlay SmallActor) = true /\
  RenderTarget (EndPlay (BeginPlay SmallActor)) = None.
Proof.
  pose proof (BeginPlay_EndPlay SmallActor) as [_ [Hnew [_ [Hon _]]]].
  pose proof (BeginPlay_EndPlay (BeginPlay SmallActor))
    as [_ [_ [Hkept [_ [_ [Hgone _]]]]]].
  split; [reflexivity|].
  split; [exact (Hnew eq_refl)|].
  split; [exact (Hkept _ (Hnew eq_refl))|].
  split; [exact Hon | exact Hgone].
Defined.
